(** * CoreAV: the audio/video call engine of qTox (coreav.cpp)

    A shallow embedding of the call orchestrator [CoreAV]: the call
    registry ([calls], [groupCalls]) guarded by [callsLock], the public
    call-control operations, the transport callbacks and the two
    resampling helpers.

    The transport (toxav), the DSP engines (WebRTC AECM / NSX) and the
    resampler (miniaudio) are external libraries.  Their answers are
    modelled as arbitrary functions of the history of interaction (the
    [trace]), so that every statement proved below holds for every
    behaviour of those libraries unless a hypothesis says otherwise. *)

From Stdlib Require Import ZArith NArith List Bool Lia String.
From stdpp Require Import gmap list.
From stdpp Require Import sorting.

Local Open Scope Z_scope.

(** ** Transport vocabulary (tox/toxav.h) *)

(** Bits of the call-state bitmask delivered by the transport.  The header
    of the external transport library is not part of the sources; the
    values are those of its public enum [TOXAV_FRIEND_CALL_STATE].  No
    statement below depends on the numeric values. *)
Definition TOXAV_FRIEND_CALL_STATE_NONE : N := 0%N.
Definition TOXAV_FRIEND_CALL_STATE_ERROR : N := 1%N.
Definition TOXAV_FRIEND_CALL_STATE_FINISHED : N := 2%N.
Definition TOXAV_FRIEND_CALL_STATE_SENDING_A : N := 4%N.
Definition TOXAV_FRIEND_CALL_STATE_SENDING_V : N := 8%N.
Definition TOXAV_FRIEND_CALL_STATE_ACCEPTING_A : N := 16%N.
Definition TOXAV_FRIEND_CALL_STATE_ACCEPTING_V : N := 32%N.

(** [state & BIT] used as a C++ condition. *)
Definition has_bit (state bit : N) : bool := negb (N.land state bit =? 0)%N.

Inductive Toxav_Call_Control :=
| TOXAV_CALL_CONTROL_RESUME
| TOXAV_CALL_CONTROL_PAUSE
| TOXAV_CALL_CONTROL_CANCEL
| TOXAV_CALL_CONTROL_MUTE_AUDIO
| TOXAV_CALL_CONTROL_UNMUTE_AUDIO
| TOXAV_CALL_CONTROL_HIDE_VIDEO
| TOXAV_CALL_CONTROL_SHOW_VIDEO.

Inductive Toxav_Option :=
| TOXAV_ENCODER_VIDEO_BITRATE_AUTOSET
| TOXAV_ENCODER_VIDEO_MAX_BITRATE
| TOXAV_ENCODER_VIDEO_MIN_BITRATE.

Inductive Toxav_Err_Call :=
| TOXAV_ERR_CALL_OK
| TOXAV_ERR_CALL_MALLOC
| TOXAV_ERR_CALL_SYNC
| TOXAV_ERR_CALL_FRIEND_NOT_FOUND
| TOXAV_ERR_CALL_FRIEND_NOT_CONNECTED
| TOXAV_ERR_CALL_FRIEND_ALREADY_IN_CALL
| TOXAV_ERR_CALL_INVALID_BIT_RATE.

Inductive Toxav_Err_Answer :=
| TOXAV_ERR_ANSWER_OK
| TOXAV_ERR_ANSWER_SYNC
| TOXAV_ERR_ANSWER_CODEC_INITIALIZATION
| TOXAV_ERR_ANSWER_FRIEND_NOT_FOUND
| TOXAV_ERR_ANSWER_FRIEND_NOT_CALLING
| TOXAV_ERR_ANSWER_INVALID_BIT_RATE.

Inductive Toxav_Err_Call_Control :=
| TOXAV_ERR_CALL_CONTROL_OK
| TOXAV_ERR_CALL_CONTROL_SYNC
| TOXAV_ERR_CALL_CONTROL_FRIEND_NOT_FOUND
| TOXAV_ERR_CALL_CONTROL_FRIEND_NOT_IN_CALL
| TOXAV_ERR_CALL_CONTROL_INVALID_TRANSITION.

Inductive Toxav_Err_Send_Frame :=
| TOXAV_ERR_SEND_FRAME_OK
| TOXAV_ERR_SEND_FRAME_NULL
| TOXAV_ERR_SEND_FRAME_FRIEND_NOT_FOUND
| TOXAV_ERR_SEND_FRAME_FRIEND_NOT_IN_CALL
| TOXAV_ERR_SEND_FRAME_SYNC
| TOXAV_ERR_SEND_FRAME_INVALID
| TOXAV_ERR_SEND_FRAME_PAYLOAD_TYPE_DISABLED
| TOXAV_ERR_SEND_FRAME_RTP_FAILED.

Definition Toxav_Err_Answer_code (e : Toxav_Err_Answer) : Z :=
  match e with
  | TOXAV_ERR_ANSWER_OK => 0
  | TOXAV_ERR_ANSWER_SYNC => 1
  | TOXAV_ERR_ANSWER_CODEC_INITIALIZATION => 2
  | TOXAV_ERR_ANSWER_FRIEND_NOT_FOUND => 3
  | TOXAV_ERR_ANSWER_FRIEND_NOT_CALLING => 4
  | TOXAV_ERR_ANSWER_INVALID_BIT_RATE => 5
  end.

Definition Toxav_Err_Send_Frame_code (e : Toxav_Err_Send_Frame) : Z :=
  match e with
  | TOXAV_ERR_SEND_FRAME_OK => 0
  | TOXAV_ERR_SEND_FRAME_NULL => 1
  | TOXAV_ERR_SEND_FRAME_FRIEND_NOT_FOUND => 2
  | TOXAV_ERR_SEND_FRAME_FRIEND_NOT_IN_CALL => 3
  | TOXAV_ERR_SEND_FRAME_SYNC => 4
  | TOXAV_ERR_SEND_FRAME_INVALID => 5
  | TOXAV_ERR_SEND_FRAME_PAYLOAD_TYPE_DISABLED => 6
  | TOXAV_ERR_SEND_FRAME_RTP_FAILED => 7
  end.

(** The boolean result of [toxav_answer] and of the frame-send primitive:
    the transport returns [true] exactly when it reports the OK code. *)
Definition answer_ok (e : Toxav_Err_Answer) : bool :=
  match e with TOXAV_ERR_ANSWER_OK => true | _ => false end.

Definition send_frame_ok (e : Toxav_Err_Send_Frame) : bool :=
  match e with TOXAV_ERR_SEND_FRAME_OK => true | _ => false end.

Definition is_send_frame_sync (e : Toxav_Err_Send_Frame) : bool :=
  match e with TOXAV_ERR_SEND_FRAME_SYNC => true | _ => false end.

(** Modelled from the spec: the error-parsing helper behind the [PARSE_ERR]
    macro (util/toxcoreerrorparser.h, missing from the sources).  It
    translates a transport error enumeration into a boolean outcome; its
    own diagnostics are not modelled. *)
Definition PARSE_ERR_call (e : Toxav_Err_Call) : bool :=
  match e with TOXAV_ERR_CALL_OK => true | _ => false end.

Definition PARSE_ERR_call_control (e : Toxav_Err_Call_Control) : bool :=
  match e with TOXAV_ERR_CALL_CONTROL_OK => true | _ => false end.

(** ** Calls *)

(** Modelled from the spec: the class [CoreVideoSource] (missing): the only
    thing the orchestrator does to a call's video source is to pause and to
    resume it. *)
Record CoreVideoSource := { stopped : bool }.

Definition stopSource (v : CoreVideoSource) : CoreVideoSource := {| stopped := true |}.
Definition restartSource (v : CoreVideoSource) : CoreVideoSource := {| stopped := false |}.

(** Modelled from the spec: the classes [ToxCall] / [ToxFriendCall]
    (toxcall.h, missing): active flag, mute flags, enabled-video flag, the
    "null video bitrate" flag, the state bitmask and the video source
    (a null pointer when the call has none). *)
Record ToxFriendCall := {
  active : bool;
  muteMic : bool;
  muteVol : bool;
  videoEnabled : bool;
  nullVideoBitrate : bool;
  state : N;
  videoSource : option CoreVideoSource;
}.

Definition setActive (b : bool) (c : ToxFriendCall) : ToxFriendCall :=
  {| active := b; muteMic := muteMic c; muteVol := muteVol c;
     videoEnabled := videoEnabled c; nullVideoBitrate := nullVideoBitrate c;
     state := state c; videoSource := videoSource c |}.

Definition setState (st : N) (c : ToxFriendCall) : ToxFriendCall :=
  {| active := active c; muteMic := muteMic c; muteVol := muteVol c;
     videoEnabled := videoEnabled c; nullVideoBitrate := nullVideoBitrate c;
     state := st; videoSource := videoSource c |}.

Definition setVideoSource (v : option CoreVideoSource) (c : ToxFriendCall) : ToxFriendCall :=
  {| active := active c; muteMic := muteMic c; muteVol := muteVol c;
     videoEnabled := videoEnabled c; nullVideoBitrate := nullVideoBitrate c;
     state := state c; videoSource := v |}.

(** Modelled from the spec: the class [ToxGroupCall] (missing); of a group
    call the queries read the flags inherited from [ToxCall] only. *)
Record ToxGroupCall := {
  g_active : bool;
  g_muteMic : bool;
  g_muteVol : bool;
}.

(** [const Friend*] and [const Group*] arguments: [None] is the null
    pointer, [getId] the only member that is read. *)
Record Friend := { friendId : N }.
Record Group := { groupId : N }.

(** ** Effects *)

Inductive LockMode := ForRead | ForWrite.

Inductive LogLevel := Debug | Warning.

Inductive Signal :=
| avInvite (friendNum : N) (video : bool)
| avStart (friendNum : N) (video : bool)
| avEnd (friendNum : N) (error : bool).

Inductive ToxavRequest :=
| ToxavCall (friendNum audioBitrate videoBitrate : N)
| ToxavAnswer (friendNum audioBitrate videoBitrate : N)
| ToxavCallControl (friendNum : N) (control : Toxav_Call_Control)
| ToxavOptionSet (friendNum : N) (option : Toxav_Option) (value : Z)
| ToxavAudioSendFrame (friendNum : N) (pcm : list Z) (samples : Z) (chans rate : N).

Inductive ResamplerId := Downsampler | Upsampler.

Inductive DspRequest :=
| MaResamplerProcess (r : ResamplerId) (frames : list Z) (frameCountIn frameCountOut : Z)
| AecmSetConfig (echoMode cngMode : Z)
| NsxSetPolicy (mode : Z)
| NsxProcess (chunk : list Z)
| AecmProcess (noisy clean : list Z) (nrOfSamples : Z) (msInSndCardBuf : Z).

Inductive Event :=
| EvLock (mode : LockMode)
| EvUnlock
| EvLog (level : LogLevel) (msg : string) (args : list Z)
| EvToxav (req : ToxavRequest)
| EvDsp (req : DspRequest)
| EvEmit (sig : Signal)
| EvSleep (usec : Z).

Abbreviation Trace := (list Event).

(** The external libraries.  Each answer may depend on everything that
    happened before the request. *)
Record ToxAV := {
  on_call : Trace -> N -> N -> N -> Toxav_Err_Call;
  on_answer : Trace -> N -> N -> N -> Toxav_Err_Answer;
  on_call_control : Trace -> N -> Toxav_Call_Control -> Toxav_Err_Call_Control;
  on_audio_send_frame : Trace -> N -> list Z -> Z -> N -> N -> Toxav_Err_Send_Frame;
}.

Inductive ma_result := MA_SUCCESS | MA_ERROR.

Record Dsp := {
  (* result code and the frames the resampler writes to its output *)
  on_resample : Trace -> ResamplerId -> list Z -> Z -> Z -> ma_result * list Z;
  on_nsx_set_policy : Trace -> Z -> Z;
  on_nsx_process : Trace -> list Z -> list Z;
  on_aecm_process : Trace -> list Z -> list Z -> Z -> Z -> list Z * Z;
}.

(** The settings read live by the orchestrator ([IAudioSettings]). *)
Record IAudioSettings := {
  getAudioBitrate : N;
  getScreenVideoFPS : Z;
  getEchoCancellation : bool;
  getEchoLatency : Z;
  getAecechomode : Z;
  getAecechonsmode : Z;
}.

(** ** The orchestrator *)

Record CoreAV := {
  audio : bool;                       (* [audio != nullptr] *)
  toxav : ToxAV;
  dsp : Dsp;
  audioSettings : IAudioSettings;
  calls : gmap N ToxFriendCall;       (* std::map<uint32_t, ToxFriendCallPtr> *)
  groupCalls : gmap Z ToxGroupCall;   (* std::map<int, ToxGroupCallPtr> *)
  callsLock : list LockMode;          (* holds of the recursive lock, innermost first *)
  pcm_buf_out : option (list Z);
  pcm_buf_out_samples : Z;
  current_echo_latency : Z;           (* function-local statics of sendCallAudio *)
  current_aec_echo_mode : Z;
  current_aec_ns_echo_mode : Z;
  trace : Trace;
}.

Definition with_calls (m : gmap N ToxFriendCall) (s : CoreAV) : CoreAV :=
  {| audio := audio s; toxav := toxav s; dsp := dsp s; audioSettings := audioSettings s;
     calls := m; groupCalls := groupCalls s; callsLock := callsLock s;
     pcm_buf_out := pcm_buf_out s; pcm_buf_out_samples := pcm_buf_out_samples s;
     current_echo_latency := current_echo_latency s;
     current_aec_echo_mode := current_aec_echo_mode s;
     current_aec_ns_echo_mode := current_aec_ns_echo_mode s;
     trace := trace s |}.

Definition with_callsLock (l : list LockMode) (s : CoreAV) : CoreAV :=
  {| audio := audio s; toxav := toxav s; dsp := dsp s; audioSettings := audioSettings s;
     calls := calls s; groupCalls := groupCalls s; callsLock := l;
     pcm_buf_out := pcm_buf_out s; pcm_buf_out_samples := pcm_buf_out_samples s;
     current_echo_latency := current_echo_latency s;
     current_aec_echo_mode := current_aec_echo_mode s;
     current_aec_ns_echo_mode := current_aec_ns_echo_mode s;
     trace := trace s |}.

Definition with_trace (t : Trace) (s : CoreAV) : CoreAV :=
  {| audio := audio s; toxav := toxav s; dsp := dsp s; audioSettings := audioSettings s;
     calls := calls s; groupCalls := groupCalls s; callsLock := callsLock s;
     pcm_buf_out := pcm_buf_out s; pcm_buf_out_samples := pcm_buf_out_samples s;
     current_echo_latency := current_echo_latency s;
     current_aec_echo_mode := current_aec_echo_mode s;
     current_aec_ns_echo_mode := current_aec_ns_echo_mode s;
     trace := t |}.

Definition with_pcm_buf_out (b : option (list Z)) (n : Z) (s : CoreAV) : CoreAV :=
  {| audio := audio s; toxav := toxav s; dsp := dsp s; audioSettings := audioSettings s;
     calls := calls s; groupCalls := groupCalls s; callsLock := callsLock s;
     pcm_buf_out := b; pcm_buf_out_samples := n;
     current_echo_latency := current_echo_latency s;
     current_aec_echo_mode := current_aec_echo_mode s;
     current_aec_ns_echo_mode := current_aec_ns_echo_mode s;
     trace := trace s |}.

Definition with_statics (latency echo_mode ns_mode : Z) (s : CoreAV) : CoreAV :=
  {| audio := audio s; toxav := toxav s; dsp := dsp s; audioSettings := audioSettings s;
     calls := calls s; groupCalls := groupCalls s; callsLock := callsLock s;
     pcm_buf_out := pcm_buf_out s; pcm_buf_out_samples := pcm_buf_out_samples s;
     current_echo_latency := latency;
     current_aec_echo_mode := echo_mode;
     current_aec_ns_echo_mode := ns_mode;
     trace := trace s |}.

(** ** The monad of orchestrator code

    A computation either returns a value and a new orchestrator state, or
    stops on a fault the C++ code does not recover from. *)

Inductive Fault :=
| NullDereference        (* member access through a null pointer *)
| EndIteratorDereference (* [it->second] with [it == end()] *)
| AssertionFailure
| DivisionByZero.

Inductive Outcome (A : Type) :=
| Done (a : A) (s : CoreAV)
| Crashed (why : Fault).
Arguments Done {A} a s.
Arguments Crashed {A} why.

Definition M (A : Type) : Type := CoreAV -> Outcome A.

#[global] Instance M_ret : MRet M := fun A a s => Done a s.
#[global] Instance M_bind : MBind M := fun A B f m s =>
  match m s with
  | Done a s' => f a s'
  | Crashed why => Crashed why
  end.

Definition get : M CoreAV := fun s => Done s s.
Definition crash {A} (why : Fault) : M A := fun _ => Crashed why.
Definition modify (f : CoreAV -> CoreAV) : M unit := fun s => Done tt (f s).

Definition event (e : Event) : M unit :=
  modify (fun s => with_trace (trace s ++ [e]) s).

Definition qDebug (msg : string) (args : list Z) : M unit := event (EvLog Debug msg args).
Definition qWarning (msg : string) (args : list Z) : M unit := event (EvLog Warning msg args).
Definition emit (sig : Signal) : M unit := event (EvEmit sig).
Definition usleep (usec : Z) : M unit := event (EvSleep usec).

Definition assert (b : bool) : M unit :=
  if b then mret tt else crash AssertionFailure.

(** [p->member]: a null pointer cannot be read. *)
Definition deref {A} (p : option A) : M A :=
  match p with
  | Some x => mret x
  | None => crash NullDereference
  end.

(** [QWriteLocker locker{&callsLock}], [QReadLocker locker{&callsLock}],
    and [locker.unlock()] / the locker's destructor while it holds the
    lock. *)
Definition QWriteLocker : M unit :=
  modify (fun s => with_callsLock (ForWrite :: callsLock s) s) ;; event (EvLock ForWrite).
Definition QReadLocker : M unit :=
  modify (fun s => with_callsLock (ForRead :: callsLock s) s) ;; event (EvLock ForRead).
Definition locker_unlock : M unit :=
  modify (fun s => with_callsLock (tail (callsLock s)) s) ;; event EvUnlock.

(** Registry primitives of [std::map]. *)
Definition calls_find (friendNum : N) : M (option ToxFriendCall) :=
  s ← get; mret (calls s !! friendNum).

Definition calls_erase (friendNum : N) : M unit :=
  modify (fun s => with_calls (delete friendNum (calls s)) s).

(** [calls.emplace(k, v)]: inserts unless the key is present; the boolean
    is [ret.second]. *)
Definition calls_emplace (friendNum : N) (c : ToxFriendCall) : M bool :=
  s ← get;
  match calls s !! friendNum with
  | Some _ => mret false
  | None => modify (with_calls (<[friendNum := c]> (calls s))) ;; mret true
  end.

(** Writes through [it->second] / a [ToxFriendCall&]. *)
Definition call_update (friendNum : N) (f : ToxFriendCall -> ToxFriendCall) : M unit :=
  modify (fun s => with_calls (alter f friendNum (calls s)) s).

(** [groupCalls.find(g->getId())]: the [uint32_t] id converted to the
    map's [int] key. *)
Definition int_of_uint32 (n : N) : Z :=
  let z := Z.of_N n mod 2 ^ 32 in
  if z <? 2 ^ 31 then z else z - 2 ^ 32.

Definition groupCalls_find (id : N) : M (option ToxGroupCall) :=
  s ← get; mret (groupCalls s !! int_of_uint32 id).

Definition not_end {A} (it : option A) : bool :=
  match it with Some _ => true | None => false end.

(** Transport commands: the request is recorded, the answer is the
    library's. *)
Definition toxav_call (friendNum audioBitrate videoBitrate : N) : M Toxav_Err_Call :=
  s ← get;
  event (EvToxav (ToxavCall friendNum audioBitrate videoBitrate)) ;;
  mret (on_call (toxav s) (trace s) friendNum audioBitrate videoBitrate).

Definition toxav_answer (friendNum audioBitrate videoBitrate : N) : M Toxav_Err_Answer :=
  s ← get;
  event (EvToxav (ToxavAnswer friendNum audioBitrate videoBitrate)) ;;
  mret (on_answer (toxav s) (trace s) friendNum audioBitrate videoBitrate).

Definition toxav_call_control (friendNum : N) (control : Toxav_Call_Control)
  : M Toxav_Err_Call_Control :=
  s ← get;
  event (EvToxav (ToxavCallControl friendNum control)) ;;
  mret (on_call_control (toxav s) (trace s) friendNum control).

Definition toxav_option_set (friendNum : N) (option : Toxav_Option) (value : Z) : M unit :=
  event (EvToxav (ToxavOptionSet friendNum option value)).

Definition toxav_audio_send_frame (friendNum : N) (pcm : list Z) (samples : Z) (chans rate : N)
  : M Toxav_Err_Send_Frame :=
  s ← get;
  event (EvToxav (ToxavAudioSendFrame friendNum pcm samples chans rate)) ;;
  mret (on_audio_send_frame (toxav s) (trace s) friendNum pcm samples chans rate).

(** The encoder options chosen from the frame-rate tier; the same block
    follows a successful [toxav_call] and a successful [toxav_answer]. *)
Definition set_encoder_bitrate (who : string) (friendNum : N) : M unit :=
  s ← get;
  let fps := getScreenVideoFPS (audioSettings s) in
  if fps =? 30 then
    qDebug (who ++ ":setting HQ bitrate: 10000") [] ;;
    toxav_option_set friendNum TOXAV_ENCODER_VIDEO_BITRATE_AUTOSET 0 ;;
    toxav_option_set friendNum TOXAV_ENCODER_VIDEO_MAX_BITRATE 11000 ;;
    toxav_option_set friendNum TOXAV_ENCODER_VIDEO_MIN_BITRATE 10000
  else if fps =? 25 then
    qDebug (who ++ ":setting HQ bitrate: 10000") [] ;;
    toxav_option_set friendNum TOXAV_ENCODER_VIDEO_BITRATE_AUTOSET 0 ;;
    toxav_option_set friendNum TOXAV_ENCODER_VIDEO_MAX_BITRATE 11000 ;;
    toxav_option_set friendNum TOXAV_ENCODER_VIDEO_MIN_BITRATE 10000
  else if fps =? 20 then
    qDebug (who ++ ":setting HQ bitrate: AUTOSET") [] ;;
    toxav_option_set friendNum TOXAV_ENCODER_VIDEO_BITRATE_AUTOSET 1 ;;
    toxav_option_set friendNum TOXAV_ENCODER_VIDEO_MAX_BITRATE 180 ;;
    toxav_option_set friendNum TOXAV_ENCODER_VIDEO_MIN_BITRATE 2700
  else mret tt.

(** ** Call-state queries *)

(** [CoreAV::isCallStarted] on a [const Friend] pointer *)
Definition isCallStarted (f : option Friend) : M bool :=
  QReadLocker ;;
  ret ← match f with
        | None => mret false            (* [f && ...] short-circuits *)
        | Some fr => it ← calls_find (friendId fr); mret (not_end it)
        end;
  locker_unlock ;;
  mret ret.

(** [CoreAV::isCallStarted] on a [const Group] pointer *)
Definition isCallStarted_Group (g : option Group) : M bool :=
  QReadLocker ;;
  ret ← match g with
        | None => mret false
        | Some gr => it ← groupCalls_find (groupId gr); mret (not_end it)
        end;
  locker_unlock ;;
  mret ret.

(** [CoreAV::isCallActive] on a [const Friend] pointer *)
Definition isCallActive (f : option Friend) : M bool :=
  QReadLocker ;;
  fr ← deref f;                         (* [f->getId()] *)
  it ← calls_find (friendId fr);
  match it with
  | None => locker_unlock ;; mret false
  | Some call =>
      started ← isCallStarted f;
      let ret := started && active call in
      locker_unlock ;;
      mret ret
  end.

(** [CoreAV::isCallActive] on a [const Group] pointer *)
Definition isCallActive_Group (g : option Group) : M bool :=
  QReadLocker ;;
  gr ← deref g;
  it ← groupCalls_find (groupId gr);
  match it with
  | None => locker_unlock ;; mret false
  | Some call =>
      started ← isCallStarted_Group g;
      let ret := started && g_active call in
      locker_unlock ;;
      mret ret
  end.

(** [CoreAV::isCallVideoEnabled] on a [const Friend] pointer *)
Definition isCallVideoEnabled (f : option Friend) : M bool :=
  QReadLocker ;;
  fr ← deref f;
  it ← calls_find (friendId fr);
  started ← isCallStarted f;
  ret ← (if started : bool
         then match it with
              | Some call => mret (videoEnabled call)
              | None => crash EndIteratorDereference
              end
         else mret false);
  locker_unlock ;;
  mret ret.

(** [CoreAV::isGroupCallInputMuted] on a [const Group] pointer *)
Definition isGroupCallInputMuted (g : option Group) : M bool :=
  QReadLocker ;;
  match g with
  | None => locker_unlock ;; mret false
  | Some gr =>
      it ← groupCalls_find (groupId gr);
      let ret := match it with Some call => g_muteMic call | None => false end in
      locker_unlock ;;
      mret ret
  end.

(** [CoreAV::isGroupCallOutputMuted] on a [const Group] pointer *)
Definition isGroupCallOutputMuted (g : option Group) : M bool :=
  QReadLocker ;;
  match g with
  | None => locker_unlock ;; mret false
  | Some gr =>
      it ← groupCalls_find (groupId gr);
      let ret := match it with Some call => g_muteVol call | None => false end in
      locker_unlock ;;
      mret ret
  end.

(** [CoreAV::isCallInputMuted] on a [const Friend] pointer *)
Definition isCallInputMuted (f : option Friend) : M bool :=
  QReadLocker ;;
  match f with
  | None => locker_unlock ;; mret false
  | Some fr =>
      it ← calls_find (friendId fr);
      let ret := match it with Some call => muteMic call | None => false end in
      locker_unlock ;;
      mret ret
  end.

(** [CoreAV::isCallOutputMuted] on a [const Friend] pointer *)
Definition isCallOutputMuted (f : option Friend) : M bool :=
  QReadLocker ;;
  match f with
  | None => locker_unlock ;; mret false
  | Some fr =>
      it ← calls_find (friendId fr);
      let ret := match it with Some call => muteVol call | None => false end in
      locker_unlock ;;
      mret ret
  end.

(** ** Call control and transport callbacks

    Declarations of the repository that the sources do not contain are
    parameters: the default video bitrate, the frame duration of the audio
    backend, and the constructor of [ToxFriendCall]. *)
Class Declarations := {
  VIDEO_DEFAULT_BITRATE : N;
  AUDIO_FRAME_DURATION : Z;
  new_ToxFriendCall : N -> bool -> ToxFriendCall;
}.

Section Orchestrator.
Context {decls : Declarations}.

(** [CoreAV::answerCall] *)
Definition answerCall (friendNum : N) (video : bool) : M bool :=
  QWriteLocker ;;
  qDebug "Answering call %1" [Z.of_N friendNum] ;;
  it ← calls_find friendNum;
  assert (not_end it) ;;
  let videoBitrate := if video then VIDEO_DEFAULT_BITRATE else 0%N in
  s ← get;
  err ← toxav_answer friendNum (getAudioBitrate (audioSettings s)) videoBitrate;
  if answer_ok err then
    call_update friendNum (setActive true) ;;
    set_encoder_bitrate "answerCall" friendNum ;;
    locker_unlock ;;
    mret true
  else
    qWarning "Failed to answer call with error" [Toxav_Err_Answer_code err] ;;
    controlErr ← toxav_call_control friendNum TOXAV_CALL_CONTROL_CANCEL;
    let _ := PARSE_ERR_call_control controlErr in
    calls_erase friendNum ;;
    locker_unlock ;;
    mret false.

(** [CoreAV::startCall] *)
Definition startCall (friendNum : N) (video : bool) : M bool :=
  QWriteLocker ;;
  qDebug "Starting call with %1" [Z.of_N friendNum] ;;
  it ← calls_find friendNum;
  if not_end it then
    qWarning "Can't start call with %1, we're already in this call!" [Z.of_N friendNum] ;;
    locker_unlock ;;
    mret false
  else
    let videoBitrate := if video then VIDEO_DEFAULT_BITRATE else 0%N in
    s ← get;
    err ← toxav_call friendNum (getAudioBitrate (audioSettings s)) videoBitrate;
    if negb (PARSE_ERR_call err) then
      locker_unlock ;;
      mret false
    else
      assert (audio s) ;;
      let call := new_ToxFriendCall friendNum video in
      calls_emplace friendNum call ;;
      set_encoder_bitrate "startCall" friendNum ;;
      locker_unlock ;;
      mret true.

(** [CoreAV::callCallback]: the transport announces an invite. *)
Definition callCallback (friendNum : N) (audio_ video : bool) : M unit :=
  QWriteLocker ;;
  s ← get;
  assert (audio s) ;;
  let call := new_ToxFriendCall friendNum video in
  inserted ← calls_emplace friendNum call;
  if negb inserted then
    qWarning "Rejecting call invite from %1, we're already in that call!" [Z.of_N friendNum] ;;
    err ← toxav_call_control friendNum TOXAV_CALL_CONTROL_CANCEL;
    let _ := PARSE_ERR_call_control err in
    locker_unlock                       (* the locker's destructor *)
  else
    qDebug "Received call invite from %1" [Z.of_N friendNum] ;;
    let state0 := 0%N in
    let state1 := if audio_
                  then N.lor state0 (N.lor TOXAV_FRIEND_CALL_STATE_SENDING_A
                                           TOXAV_FRIEND_CALL_STATE_ACCEPTING_A)
                  else state0 in
    let state2 := if video
                  then N.lor state1 (N.lor TOXAV_FRIEND_CALL_STATE_SENDING_V
                                           TOXAV_FRIEND_CALL_STATE_ACCEPTING_V)
                  else state1 in
    call_update friendNum (setState state2) ;;
    locker_unlock ;;                    (* explicit [locker.unlock()] *)
    emit (avInvite friendNum video).

(** [CoreAV::stateCallback]: the transport reports a new call state. *)
Definition stateCallback (friendNum : N) (state_ : N) : M unit :=
  QWriteLocker ;;
  it ← calls_find friendNum;
  match it with
  | None =>
      qWarning "stateCallback called, but call %1 is already dead" [Z.of_N friendNum] ;;
      locker_unlock
  | Some call =>
      if has_bit state_ TOXAV_FRIEND_CALL_STATE_ERROR then
        qWarning "Call with friend %1 died of unnatural causes!" [Z.of_N friendNum] ;;
        calls_erase friendNum ;;
        locker_unlock ;;
        emit (avEnd friendNum true)
      else if has_bit state_ TOXAV_FRIEND_CALL_STATE_FINISHED then
        qDebug "Call with friend %1 finished quietly" [Z.of_N friendNum] ;;
        calls_erase friendNum ;;
        locker_unlock ;;
        emit (avEnd friendNum false)
      else if (state call =? 0)%N && negb (state_ =? 0)%N then
        call_update friendNum (setActive true) ;;
        let videoEnabled_ := videoEnabled call in
        call_update friendNum (setState state_) ;;
        locker_unlock ;;
        emit (avStart friendNum videoEnabled_)
      else if has_bit (state call) TOXAV_FRIEND_CALL_STATE_SENDING_V
              && negb (has_bit state_ TOXAV_FRIEND_CALL_STATE_SENDING_V) then
        qDebug "Friend %1 stopped sending video" [Z.of_N friendNum] ;;
        call_update friendNum (fun c => setVideoSource (stopSource <$> videoSource c) c) ;;
        call_update friendNum (setState state_) ;;
        locker_unlock
      else if negb (has_bit (state call) TOXAV_FRIEND_CALL_STATE_SENDING_V)
              && has_bit state_ TOXAV_FRIEND_CALL_STATE_SENDING_V then
        call_update friendNum (fun c => setVideoSource (restartSource <$> videoSource c) c) ;;
        call_update friendNum (setState state_) ;;
        locker_unlock
      else
        locker_unlock
  end.

End Orchestrator.

(** ** Resampling (miniaudio) *)

(** C integer conversions that the code performs implicitly. *)
Definition int32_wrap (z : Z) : Z :=
  let m := z mod 2 ^ 32 in
  if m <? 2 ^ 31 then m else m - 2 ^ 32.

Definition int16_wrap (z : Z) : Z :=
  let m := z mod 2 ^ 16 in
  if m <? 2 ^ 15 then m else m - 2 ^ 16.

Definition uint64_wrap (z : Z) : Z := z mod 2 ^ 64.

(** [calloc]: a zeroed buffer of [n] samples. *)
Definition calloc (n : Z) : list Z := repeat 0 (Z.to_nat n).

(** Storing [data] at [buf + off], and reading [n] samples from there. *)
Definition write_at (buf : list Z) (off : Z) (data : list Z) : list Z :=
  take (Z.to_nat off) buf ++ data ++ drop (Z.to_nat off + length data) buf.

Definition read_at (buf : list Z) (off n : Z) : list Z :=
  take (Z.to_nat n) (drop (Z.to_nat off) buf).

(** [ma_resampler_process_pcm_frames(&resampler, in, &frameCountIn, out,
    &frameCountOut)]: the library is handed at most [frameCountIn] input
    frames and room for [frameCountOut] output frames, and never writes
    beyond that room. *)
Definition ma_resampler_process_pcm_frames (r : ResamplerId) (pFramesIn : list Z)
    (frameCountIn : Z) (pFramesOut : list Z) (frameCountOut : Z) : M (ma_result * list Z) :=
  s ← get;
  event (EvDsp (MaResamplerProcess r pFramesIn frameCountIn frameCountOut)) ;;
  let '(result, frames) := on_resample (dsp s) (trace s) r pFramesIn frameCountIn frameCountOut in
  mret (result, write_at pFramesOut 0 (take (Z.to_nat frameCountOut) frames)).

Definition is_MA_SUCCESS (r : ma_result) : bool :=
  match r with MA_SUCCESS => true | MA_ERROR => false end.

(** [CoreAV::upsample_16000_to_48000_basic]; the result is the return code
    and the contents of [out] afterwards. *)
Definition upsample_16000_to_48000_basic (in_ out : list Z) (sample_count : Z)
  : M (Z * list Z) :=
  if sample_count <? 1 then mret (-1, out)
  else
    let frameCountIn := uint64_wrap sample_count in
    let frameCountOut := uint64_wrap (int32_wrap (sample_count * 3)) in
    '(result, out') ← ma_resampler_process_pcm_frames Upsampler in_ frameCountIn out frameCountOut;
    (if negb (is_MA_SUCCESS result)
     then qDebug "upsample_16000_to_48000_basic:error!!" []
     else mret tt) ;;
    mret (0, out').

(** [CoreAV::downsample_48000_to_16000_basic] *)
Definition downsample_48000_to_16000_basic (in_ out : list Z) (sample_count : Z)
  : M (Z * list Z) :=
  if sample_count <? 3 then mret (-1, out)
  else
    let frameCountIn := uint64_wrap sample_count in
    let frameCountOut := uint64_wrap (Z.quot sample_count 3) in
    '(result, out') ← ma_resampler_process_pcm_frames Downsampler in_ frameCountIn out frameCountOut;
    (if negb (is_MA_SUCCESS result)
     then qDebug "downsample_48000_to_16000_basic:error!!" []
     else mret tt) ;;
    mret (0, out').

(** ** Sending audio *)

(** [IAudioControl::AUDIO_SAMPLE_RATE]; the constructor of [CoreAV]
    asserts this value. *)
Definition AUDIO_SAMPLE_RATE : N := 48000%N.

(** [AecmTrue] of the echo canceller's configuration enum. *)
Definition AecmTrue : Z := 1.

Definition WebRtcAecm_set_config (echoMode cngMode : Z) : M unit :=
  event (EvDsp (AecmSetConfig echoMode cngMode)).

Definition WebRtcNsx_set_policy (mode : Z) : M Z :=
  s ← get;
  event (EvDsp (NsxSetPolicy mode)) ;;
  mret (on_nsx_set_policy (dsp s) (trace s) mode).

(** One block of noise suppression: reads at [inp], the block written to
    the output pointer is the library's. *)
Definition WebRtcNsx_Process (inp : list Z) : M (list Z) :=
  s ← get;
  event (EvDsp (NsxProcess inp)) ;;
  mret (on_nsx_process (dsp s) (trace s) inp).

(** One block of echo cancellation over [nrOfSamples] samples: the samples
    stored at the output pointer, and the result code.  The library takes
    the delay [msInSndCardBuf] as an [int16_t]; callers convert. *)
Definition WebRtcAecm_Process (noisy clean : list Z) (nrOfSamples msInSndCardBuf : Z)
  : M (list Z * Z) :=
  s ← get;
  event (EvDsp (AecmProcess noisy clean nrOfSamples msInSndCardBuf)) ;;
  let '(out, res) := on_aecm_process (dsp s) (trace s) noisy clean nrOfSamples msInSndCardBuf in
  mret (take (Z.to_nat nrOfSamples) out, res).

(** [for (int x = x0; x < bound; x++) body], threading the buffers the
    body writes; [n] is the number of iterations left. *)
Fixpoint for_loop {A} (n : nat) (x : Z) (body : Z -> A -> M A) (acc : A) : M A :=
  match n with
  | O => mret acc
  | S n' => acc' ← body x acc; for_loop n' (x + 1) body acc'
  end.

Section SendAudio.
Context {decls : Declarations}.

(** The filter block of [sendCallAudio] (mono audio at the native rate
    with echo cancellation enabled): refresh the remembered configuration,
    downsample, suppress noise and cancel echo per 10 ms chunk, upsample
    and copy back over [pcm].  The mutex around the echo canceller plays
    no part in a single-threaded run and is left out. *)
Definition filter_recorded_audio (pcm : list Z) (samples : Z) : M (list Z) :=
  s ← get;
  let new_echo_latency := getEchoLatency (audioSettings s) in
  (if negb (new_echo_latency =? current_echo_latency s) then
     modify (fun s => with_statics new_echo_latency (current_aec_echo_mode s)
                                   (current_aec_ns_echo_mode s) s) ;;
     qDebug "Setting filter delay to: %1 ms" [int16_wrap new_echo_latency]
   else mret tt) ;;
  s ← get;
  let new_aec_echo_mode := getAecechomode (audioSettings s) in
  (if negb (new_aec_echo_mode =? current_aec_echo_mode s) then
     modify (fun s => with_statics (current_echo_latency s) new_aec_echo_mode
                                   (current_aec_ns_echo_mode s) s) ;;
     qDebug "Setting AEC Mode to: %1" [new_aec_echo_mode] ;;
     WebRtcAecm_set_config AecmTrue new_aec_echo_mode ;;
     qDebug "WebRtcAecm_set_config -----> %1" [getAecechomode (audioSettings s)]
   else mret tt) ;;
  s ← get;
  let new_aec_ns_echo_mode := getAecechonsmode (audioSettings s) in
  (if negb (new_aec_ns_echo_mode =? current_aec_ns_echo_mode s) then
     modify (fun s => with_statics (current_echo_latency s) (current_aec_echo_mode s)
                                   new_aec_ns_echo_mode s) ;;
     qDebug "Setting AEC NS Mode to: %1" [new_aec_ns_echo_mode] ;;
     res3 ← WebRtcNsx_set_policy new_aec_ns_echo_mode;
     qDebug "WebRtcNsx_set_policy: mode: %1 res :-----> %2" [new_aec_ns_echo_mode; res3]
   else mret tt) ;;
  let split_factor := Z.quot AUDIO_FRAME_DURATION 10 in
  (if split_factor =? 0 then crash DivisionByZero else mret tt) ;;
  let sample_count_split := int32_wrap (Z.quot samples split_factor) in
  s ← get;
  (if negb (pcm_buf_out_samples s =? samples)
   then modify (fun s => with_pcm_buf_out None (pcm_buf_out_samples s) s)
   else mret tt) ;;
  s ← get;
  (match pcm_buf_out s with
   | None => modify (with_pcm_buf_out (Some (calloc samples)) samples)
   | Some _ => mret tt
   end) ;;
  (* downsample to 16 kHz *)
  '(_, pcm_buf_resampled) ←
     downsample_48000_to_16000_basic pcm (calloc (Z.quot samples 3)) (int32_wrap samples);
  let chunk := Z.quot sample_count_split 3 in
  '(pcm_buf_filtered_out_resampled, pcm_buf_out_resampled) ←
     for_loop (Z.to_nat split_factor) 0
       (fun x '(filtered, out_resampled) =>
          block ← WebRtcNsx_Process (drop (Z.to_nat (x * chunk)) pcm_buf_resampled);
          let filtered' := write_at filtered (x * chunk) block in
          s ← get;
          '(out, _) ← WebRtcAecm_Process (read_at pcm_buf_resampled (x * chunk) chunk)
                         (read_at filtered' (x * chunk) chunk) chunk
                         (int16_wrap (int32_wrap (current_echo_latency s + AUDIO_FRAME_DURATION)));
          mret (filtered', write_at out_resampled (x * chunk) out))
       (calloc (Z.quot samples 3), calloc (Z.quot samples 3));
  (* upsample back to 48 kHz *)
  s ← get;
  '(_, buf_out) ← upsample_16000_to_48000_basic pcm_buf_out_resampled
                     (default [] (pcm_buf_out s)) (int32_wrap (Z.quot samples 3));
  modify (fun s => with_pcm_buf_out (Some buf_out) (pcm_buf_out_samples s) s) ;;
  (* memcpy(pcm, pcm_buf_out, 2 * samples) *)
  mret (write_at pcm 0 (take (Z.to_nat samples) buf_out)).

(** The [do ... while] loop around the frame-send primitive.  [fuel]
    bounds the iterations of the model; [None] is returned when it runs
    out. *)
Fixpoint send_frame_loop (fuel : nat) (callId : N) (pcm : list Z) (samples : Z)
    (chans rate : N) (retries : Z) : M (option (Toxav_Err_Send_Frame * Z)) :=
  match fuel with
  | O => mret None
  | S fuel' =>
      err ← toxav_audio_send_frame callId pcm samples chans rate;
      retries' ← (if negb (send_frame_ok err) then
                    if is_send_frame_sync err then
                      usleep 500 ;; mret (retries + 1)
                    else
                      qDebug "toxav_audio_send_frame error: %1" [Toxav_Err_Send_Frame_code err] ;;
                      mret retries
                  else mret retries);
      if is_send_frame_sync err && (retries' <? 3)
      then send_frame_loop fuel' callId pcm samples chans rate retries'
      else mret (Some (err, retries'))
  end.

(** [CoreAV::sendCallAudio]; the result is the return value and the
    contents of [pcm] afterwards ([None] when the model ran out of
    [fuel]). *)
Definition sendCallAudio (fuel : nat) (callId : N) (pcm : list Z) (samples : Z)
    (chans rate : N) : M (option (bool * list Z)) :=
  it ← calls_find callId;
  match it with
  | None => mret (Some (false, pcm))
  | Some call =>
      if muteMic call || negb (active call)
         || negb (has_bit (state call) TOXAV_FRIEND_CALL_STATE_ACCEPTING_A)
      then mret (Some (true, pcm))
      else
        s ← get;
        pcm' ← (if (chans =? 1)%N && (rate =? AUDIO_SAMPLE_RATE)%N then
                  if getEchoCancellation (audioSettings s)
                  then filter_recorded_audio pcm samples
                  else mret pcm
                else mret pcm);
        r ← send_frame_loop fuel callId pcm' samples chans rate 0;
        match r with
        | None => mret None
        | Some (err, _) =>
            (if is_send_frame_sync err
             then qDebug "toxav_audio_send_frame error: Lock busy, dropping frame" []
             else mret tt) ;;
            mret (Some (true, pcm'))
        end
  end.

End SendAudio.

(** ** Observations on traces and the registry *)

(** Number of entries of the registry stored under [friendNum]. *)
Definition count_calls (friendNum : N) (m : gmap N ToxFriendCall) : nat :=
  length (filter (fun kv => kv.1 = friendNum) (map_to_list m)).

Definition is_audio_send (e : Event) : bool :=
  match e with EvToxav (ToxavAudioSendFrame _ _ _ _ _) => true | _ => false end.

Definition is_toxav (e : Event) : bool :=
  match e with EvToxav _ => true | _ => false end.

Definition is_sleep (e : Event) : bool :=
  match e with EvSleep _ => true | _ => false end.

Definition count_events (p : Event -> bool) (evs : Trace) : nat :=
  length (List.filter p evs).

(** Replays the lock events of [evs] from the holds [held] and lists each
    emitted signal with the holds of [callsLock] at that moment. *)
Fixpoint emitted_under (held : list LockMode) (evs : Trace) : list (Signal * list LockMode) :=
  match evs with
  | [] => []
  | EvLock m :: evs' => emitted_under (m :: held) evs'
  | EvUnlock :: evs' => emitted_under (tail held) evs'
  | EvEmit sig :: evs' => (sig, held) :: emitted_under held evs'
  | _ :: evs' => emitted_under held evs'
  end.

(** ** Sample configurations

    Concrete values on which the model can be run.  The statements below
    hold for every instance of [Declarations] and every behaviour of the
    external libraries; these are only used to exhibit runs. *)

Definition sample_declarations : Declarations :=
  {| VIDEO_DEFAULT_BITRATE := 2500%N;
     AUDIO_FRAME_DURATION := 20;
     new_ToxFriendCall := fun _ video =>
       {| active := false; muteMic := false; muteVol := false;
          videoEnabled := video; nullVideoBitrate := false; state := 0%N;
          videoSource := if video then Some {| stopped := false |} else None |} |}.

(** A transport that accepts everything, one that rejects everything, one
    whose frame-send primitive is always busy, and one whose frame-send
    primitive is busy until [n] attempts have been made. *)
Definition accepting_toxav : ToxAV :=
  {| on_call := fun _ _ _ _ => TOXAV_ERR_CALL_OK;
     on_answer := fun _ _ _ _ => TOXAV_ERR_ANSWER_OK;
     on_call_control := fun _ _ _ => TOXAV_ERR_CALL_CONTROL_OK;
     on_audio_send_frame := fun _ _ _ _ _ _ => TOXAV_ERR_SEND_FRAME_OK |}.

Definition rejecting_toxav : ToxAV :=
  {| on_call := fun _ _ _ _ => TOXAV_ERR_CALL_FRIEND_NOT_CONNECTED;
     on_answer := fun _ _ _ _ => TOXAV_ERR_ANSWER_FRIEND_NOT_CALLING;
     on_call_control := fun _ _ _ => TOXAV_ERR_CALL_CONTROL_FRIEND_NOT_IN_CALL;
     on_audio_send_frame := fun _ _ _ _ _ _ => TOXAV_ERR_SEND_FRAME_FRIEND_NOT_IN_CALL |}.

Definition busy_toxav : ToxAV :=
  {| on_call := fun _ _ _ _ => TOXAV_ERR_CALL_OK;
     on_answer := fun _ _ _ _ => TOXAV_ERR_ANSWER_OK;
     on_call_control := fun _ _ _ => TOXAV_ERR_CALL_CONTROL_OK;
     on_audio_send_frame := fun _ _ _ _ _ _ => TOXAV_ERR_SEND_FRAME_SYNC |}.

Definition busy_until (n : nat) : ToxAV :=
  {| on_call := fun _ _ _ _ => TOXAV_ERR_CALL_OK;
     on_answer := fun _ _ _ _ => TOXAV_ERR_ANSWER_OK;
     on_call_control := fun _ _ _ => TOXAV_ERR_CALL_CONTROL_OK;
     on_audio_send_frame := fun t _ _ _ _ _ =>
       if (count_events is_audio_send t <? n)%nat
       then TOXAV_ERR_SEND_FRAME_SYNC
       else TOXAV_ERR_SEND_FRAME_OK |}.

(** A resampler in the manner of the disabled "basic" loops of the
    source: every third sample on the way down, every sample three times
    on the way up; the other DSP engines pass audio through. *)
Fixpoint every_third (l : list Z) : list Z :=
  match l with
  | x :: _ :: _ :: l' => x :: every_third l'
  | _ => []
  end.

Definition thrice (l : list Z) : list Z := l ≫= (fun x => [x; x; x]).

Definition basic_dsp : Dsp :=
  {| on_resample := fun _ r frames frameCountIn frameCountOut =>
       let inp := take (Z.to_nat frameCountIn) frames in
       (MA_SUCCESS, match r with
                    | Downsampler => every_third inp
                    | Upsampler => thrice inp
                    end);
     on_nsx_set_policy := fun _ _ => 0;
     on_nsx_process := fun _ inp => take 160 inp;
     on_aecm_process := fun _ noisy clean _ _ => (clean, 0) |}.

Definition default_settings : IAudioSettings :=
  {| getAudioBitrate := 64%N; getScreenVideoFPS := 30; getEchoCancellation := false;
     getEchoLatency := 80; getAecechomode := 0; getAecechonsmode := 0 |}.

(** The orchestrator right after construction, with the audio backend
    set. *)
Definition fresh (t : ToxAV) : CoreAV :=
  {| audio := true; toxav := t; dsp := basic_dsp; audioSettings := default_settings;
     calls := ∅; groupCalls := ∅; callsLock := [];
     pcm_buf_out := None; pcm_buf_out_samples := 0;
     current_echo_latency := 80; current_aec_echo_mode := 0; current_aec_ns_echo_mode := 0;
     trace := [] |}.

(** Events that neither reach the transport nor sleep. *)
Definition quiet (evs : Trace) : Prop :=
  Forall (fun e => is_toxav e = false /\ is_sleep e = false) evs.

(** A computation that always returns, only adds [quiet] events to the
    trace, and leaves the transport handle and the registry alone. *)
Definition steady {A} (m : M A) : Prop :=
  forall s, exists a s' evs,
    m s = Done a s' /\ trace s' = trace s ++ evs /\ quiet evs
    /\ toxav s' = toxav s /\ calls s' = calls s.


(** ** What the rejecting paths do *)

(** A rejected [startCall]: take the lock, two log lines, release the
    lock. *)
Definition startCall_rejected_events (p : N) : Trace :=
  [EvLock ForWrite;
   EvLog Debug "Starting call with %1" [Z.of_N p];
   EvLog Warning "Can't start call with %1, we're already in this call!" [Z.of_N p];
   EvUnlock].

(** A rejected invite. *)
Definition callCallback_rejected_events (p : N) : Trace :=
  [EvLock ForWrite;
   EvLog Warning "Rejecting call invite from %1, we're already in that call!" [Z.of_N p];
   EvToxav (ToxavCallControl p TOXAV_CALL_CONTROL_CANCEL);
   EvUnlock].

(** A state callback with the error bit, for a call that is in the
    registry and for one that is not. *)
Definition stateCallback_error_events (p : N) : Trace :=
  [EvLock ForWrite;
   EvLog Warning "Call with friend %1 died of unnatural causes!" [Z.of_N p];
   EvUnlock;
   EvEmit (avEnd p true)].

Definition stateCallback_dead_events (p : N) : Trace :=
  [EvLock ForWrite;
   EvLog Warning "stateCallback called, but call %1 is already dead" [Z.of_N p];
   EvUnlock].

(** [answerCall] up to the transport's answer, and all of it when the
    transport rejects. *)
Definition answerCall_prefix (p : N) : Trace :=
  [EvLock ForWrite; EvLog Debug "Answering call %1" [Z.of_N p]].

Definition answerCall_rejected_events (p abr vbr : N) (err : Toxav_Err_Answer) : Trace :=
  answerCall_prefix p ++
  [EvToxav (ToxavAnswer p abr vbr);
   EvLog Warning "Failed to answer call with error" [Toxav_Err_Answer_code err];
   EvToxav (ToxavCallControl p TOXAV_CALL_CONTROL_CANCEL);
   EvUnlock].

(** The log line of a dropped audio frame. *)
Definition dropping_frame_line : Event :=
  EvLog Debug "toxav_audio_send_frame error: Lock busy, dropping frame" [].

(** ** The shape of a run of the retry loop *)

(** One attempt at handing the frame to the transport. *)
Definition send_attempt (callId : N) (pcm : list Z) (samples : Z) (chans rate : N) : Event :=
  EvToxav (ToxavAudioSendFrame callId pcm samples chans rate).

(** [n] attempts in a row that each found the transport busy: every one
    is followed by a sleep of 500 microseconds. *)
Definition busy_rounds (n : nat) (callId : N) (pcm : list Z) (samples : Z) (chans rate : N)
  : Trace :=
  concat (repeat [send_attempt callId pcm samples chans rate; EvSleep 500] n).

(** What is logged after an attempt that did not end on a busy answer:
    nothing when the frame was accepted, the error code otherwise. *)
Definition send_error_line (err : Toxav_Err_Send_Frame) : Trace :=
  if send_frame_ok err then []
  else [EvLog Debug "toxav_audio_send_frame error: %1" [Toxav_Err_Send_Frame_code err]].

(** ** The shape of a call of a resampling function *)


(** ** Sample states *)

(** The state a computation leaves behind (the given state if it stops
    on a fault). *)
Definition state_after {A} (m : M A) (s : CoreAV) : CoreAV :=
  match m s with
  | Done _ s' => s'
  | Crashed _ => s
  end.

Definition with_audioSettings (st : IAudioSettings) (s : CoreAV) : CoreAV :=
  {| audio := audio s; toxav := toxav s; dsp := dsp s; audioSettings := st;
     calls := calls s; groupCalls := groupCalls s; callsLock := callsLock s;
     pcm_buf_out := pcm_buf_out s; pcm_buf_out_samples := pcm_buf_out_samples s;
     current_echo_latency := current_echo_latency s;
     current_aec_echo_mode := current_aec_echo_mode s;
     current_aec_ns_echo_mode := current_aec_ns_echo_mode s;
     trace := trace s |}.

Definition echo_settings : IAudioSettings :=
  {| getAudioBitrate := 64%N; getScreenVideoFPS := 20; getEchoCancellation := true;
     getEchoLatency := 100; getAecechomode := 3; getAecechonsmode := 2 |}.

(** We called friend 7 (audio only). *)
Definition after_first_startCall : CoreAV :=
  state_after (startCall (decls := sample_declarations) 7 false) (fresh accepting_toxav).

(** Friend 7 has invited us to an audio call; then we answered. *)
Definition after_invite (t : ToxAV) : CoreAV :=
  state_after (callCallback (decls := sample_declarations) 7 true false) (fresh t).

Definition in_call (t : ToxAV) : CoreAV :=
  state_after (answerCall (decls := sample_declarations) 7 false) (after_invite t).

(** One 20 ms mono frame at 48 kHz. *)
Definition ramp_frame : list Z := List.map Z.of_nat (seq 0 960).

(** Settings with an echo latency that does not fit 16 bits, and the
    delays that reach the echo canceller in a trace, in order. *)
Definition long_latency_settings : IAudioSettings :=
  {| getAudioBitrate := 64%N; getScreenVideoFPS := 20; getEchoCancellation := true;
     getEchoLatency := 40000; getAecechomode := 3; getAecechonsmode := 2 |}.

Definition aecm_delays (evs : Trace) : list Z :=
  concat (List.map (fun e => match e with
                             | EvDsp (AecmProcess _ _ _ msInSndCardBuf) => [msInSndCardBuf]
                             | _ => []
                             end) evs).

(** ** The rest of the orchestrator

    The operations of [CoreAV] below complete the call life cycle: tearing
    calls down, muting, group calls, video, and the far end of the echo
    canceller. *)

Definition setMuteMic (b : bool) (c : ToxFriendCall) : ToxFriendCall :=
  {| active := active c; muteMic := b; muteVol := muteVol c;
     videoEnabled := videoEnabled c; nullVideoBitrate := nullVideoBitrate c;
     state := state c; videoSource := videoSource c |}.

Definition setMuteVol (b : bool) (c : ToxFriendCall) : ToxFriendCall :=
  {| active := active c; muteMic := muteMic c; muteVol := b;
     videoEnabled := videoEnabled c; nullVideoBitrate := nullVideoBitrate c;
     state := state c; videoSource := videoSource c |}.

Definition setNullVideoBitrate (b : bool) (c : ToxFriendCall) : ToxFriendCall :=
  {| active := active c; muteMic := muteMic c; muteVol := muteVol c;
     videoEnabled := videoEnabled c; nullVideoBitrate := b;
     state := state c; videoSource := videoSource c |}.

Definition g_setActive (b : bool) (c : ToxGroupCall) : ToxGroupCall :=
  {| g_active := b; g_muteMic := g_muteMic c; g_muteVol := g_muteVol c |}.

Definition g_setMuteMic (b : bool) (c : ToxGroupCall) : ToxGroupCall :=
  {| g_active := g_active c; g_muteMic := b; g_muteVol := g_muteVol c |}.

Definition g_setMuteVol (b : bool) (c : ToxGroupCall) : ToxGroupCall :=
  {| g_active := g_active c; g_muteMic := g_muteMic c; g_muteVol := b |}.

Definition with_groupCalls (m : gmap Z ToxGroupCall) (s : CoreAV) : CoreAV :=
  {| audio := audio s; toxav := toxav s; dsp := dsp s; audioSettings := audioSettings s;
     calls := calls s; groupCalls := m; callsLock := callsLock s;
     pcm_buf_out := pcm_buf_out s; pcm_buf_out_samples := pcm_buf_out_samples s;
     current_echo_latency := current_echo_latency s;
     current_aec_echo_mode := current_aec_echo_mode s;
     current_aec_ns_echo_mode := current_aec_ns_echo_mode s;
     trace := trace s |}.

(** Writes through a group call's [it->second]. *)
Definition groupCall_update (id : Z) (f : ToxGroupCall -> ToxGroupCall) : M unit :=
  modify (fun s => with_groupCalls (alter f id (groupCalls s)) s).

(** [locker.relock()] *)
Definition locker_relock : M unit :=
  modify (fun s => with_callsLock (ForWrite :: callsLock s) s) ;; event (EvLock ForWrite).

(** [CoreAV::cancelCall]: the lock is released around the transport's
    call-control primitive and taken again afterwards. *)
Definition cancelCall (friendNum : N) : M bool :=
  QWriteLocker ;;
  qDebug "Cancelling call with %1" [Z.of_N friendNum] ;;
  locker_unlock ;;
  err ← toxav_call_control friendNum TOXAV_CALL_CONTROL_CANCEL;
  locker_relock ;;
  if negb (PARSE_ERR_call_control err) then
    locker_unlock ;;                    (* the locker's destructor *)
    mret false
  else
    calls_erase friendNum ;;
    locker_unlock ;;
    emit (avEnd friendNum false) ;;
    mret true.

(** [CoreAV::timeoutCall] *)
Definition timeoutCall (friendNum : N) : M unit :=
  QWriteLocker ;;
  cancelled ← cancelCall friendNum;
  if negb cancelled then
    qWarning "Failed to timeout call with %1" [Z.of_N friendNum] ;;
    locker_unlock
  else
    qDebug "Call with friend %1 timed out" [Z.of_N friendNum] ;;
    locker_unlock.

(** [CoreAV::toggleMuteCallInput] *)
Definition toggleMuteCallInput (f : option Friend) : M unit :=
  QWriteLocker ;;
  fr ← deref f;                         (* [f->getId()] *)
  it ← calls_find (friendId fr);
  (match it with
   | Some call => call_update (friendId fr) (setMuteMic (negb (muteMic call)))
   | None => mret tt
   end) ;;
  locker_unlock.

(** [CoreAV::toggleMuteCallOutput] *)
Definition toggleMuteCallOutput (f : option Friend) : M unit :=
  QWriteLocker ;;
  fr ← deref f;
  it ← calls_find (friendId fr);
  (match it with
   | Some call => call_update (friendId fr) (setMuteVol (negb (muteVol call)))
   | None => mret tt
   end) ;;
  locker_unlock.

(** Declaration of the repository that the sources do not contain: the
    constructor of [ToxGroupCall]. *)
Class GroupDeclarations := {
  new_ToxGroupCall : Group -> ToxGroupCall;
}.

Section GroupCalls.
Context {gdecls : GroupDeclarations}.

(** [CoreAV::joinGroupCall]; the group is passed by reference. *)
Definition joinGroupCall (group : Group) : M unit :=
  QWriteLocker ;;
  qDebug "Joining group call %1" [Z.of_N (groupId group)] ;;
  s ← get;
  assert (audio s) ;;
  let groupcall := new_ToxGroupCall group in
  let key := int_of_uint32 (groupId group) in
  match groupCalls s !! key with
  | Some _ =>
      qWarning "This group call already exists, not joining!" [] ;;
      locker_unlock
  | None =>
      modify (with_groupCalls (<[key := groupcall]> (groupCalls s))) ;;
      groupCall_update key (g_setActive true) ;;
      locker_unlock
  end.

End GroupCalls.

(** [CoreAV::leaveGroupCall] *)
Definition leaveGroupCall (groupNum : Z) : M unit :=
  QWriteLocker ;;
  qDebug "Leaving group call %1" [groupNum] ;;
  modify (fun s => with_groupCalls (delete groupNum (groupCalls s)) s) ;;
  locker_unlock.

(** [CoreAV::muteCallInput] on a [const Group] pointer *)
Definition muteCallInput (g : option Group) (mute : bool) : M unit :=
  QWriteLocker ;;
  gr ← deref g;                         (* [g->getId()] *)
  it ← groupCalls_find (groupId gr);
  (match it with
   | Some _ => groupCall_update (int_of_uint32 (groupId gr)) (g_setMuteMic mute)
   | None => mret tt
   end) ;;
  locker_unlock.

(** [CoreAV::muteCallOutput] on a [const Group] pointer *)
Definition muteCallOutput (g : option Group) (mute : bool) : M unit :=
  QWriteLocker ;;
  gr ← deref g;
  it ← groupCalls_find (groupId gr);
  (match it with
   | Some _ => groupCall_update (int_of_uint32 (groupId gr)) (g_setMuteVol mute)
   | None => mret tt
   end) ;;
  locker_unlock.

(** [CoreAV::videoCommCallback]: the transport reports encoder telemetry.
    Of the values of [TOXAV_CALL_COMM_INFO] the code singles out one. *)
Inductive TOXAV_CALL_COMM_INFO :=
| TOXAV_CALL_COMM_ENCODER_CURRENT_BITRATE
| TOXAV_CALL_COMM_other (code : Z).

Definition videoCommCallback (friend_number : N) (comm_value : TOXAV_CALL_COMM_INFO)
    (comm_number : Z) : M unit :=
  match comm_value with
  | TOXAV_CALL_COMM_ENCODER_CURRENT_BITRATE =>
      s ← get;
      let fps := getScreenVideoFPS (audioSettings s) in
      if fps =? 30 then
        toxav_option_set friend_number TOXAV_ENCODER_VIDEO_BITRATE_AUTOSET 0 ;;
        toxav_option_set friend_number TOXAV_ENCODER_VIDEO_MAX_BITRATE 11000 ;;
        toxav_option_set friend_number TOXAV_ENCODER_VIDEO_MIN_BITRATE 10000
      else if fps =? 25 then
        toxav_option_set friend_number TOXAV_ENCODER_VIDEO_BITRATE_AUTOSET 0 ;;
        toxav_option_set friend_number TOXAV_ENCODER_VIDEO_MAX_BITRATE 11000 ;;
        toxav_option_set friend_number TOXAV_ENCODER_VIDEO_MIN_BITRATE 10000
      else if fps =? 20 then
        toxav_option_set friend_number TOXAV_ENCODER_VIDEO_BITRATE_AUTOSET 1 ;;
        toxav_option_set friend_number TOXAV_ENCODER_VIDEO_MAX_BITRATE 180 ;;
        toxav_option_set friend_number TOXAV_ENCODER_VIDEO_MIN_BITRATE 2700
      else mret tt
  | TOXAV_CALL_COMM_other _ => mret tt
  end.

(** ** Video, group audio and the far end

    The operations below use primitives of the external libraries that the
    [Event] vocabulary has no name for.  Their model returns the requests
    made, in order, and takes the answers of the libraries as arguments
    (each primitive is asked at most once per key in one run). *)

Inductive Toxav_Err_Bit_Rate_Set :=
| TOXAV_ERR_BIT_RATE_SET_OK
| TOXAV_ERR_BIT_RATE_SET_SYNC
| TOXAV_ERR_BIT_RATE_SET_INVALID_BIT_RATE
| TOXAV_ERR_BIT_RATE_SET_FRIEND_NOT_FOUND
| TOXAV_ERR_BIT_RATE_SET_FRIEND_NOT_IN_CALL.

(** Modelled from the spec: [PARSE_ERR] on the bitrate-set error (see
    [PARSE_ERR_call]). *)
Definition PARSE_ERR_bit_rate_set (e : Toxav_Err_Bit_Rate_Set) : bool :=
  match e with TOXAV_ERR_BIT_RATE_SET_OK => true | _ => false end.

(** A frame converted for the transport, and a video frame as the camera
    delivers it: all the orchestrator does with one is to read its source
    dimensions and to ask for the conversion ([None]: no valid frame). *)
Record ToxYUVFrame := {
  yuv_width : Z;
  yuv_height : Z;
  yuv_planes : list Z;
}.

Record VideoFrame := {
  getSourceDimensions : Z * Z;
  toToxYUVFrame : Z * Z -> option ToxYUVFrame;
}.

Inductive Request :=
| ToxavVideoSetBitRate (friendNum bitrate : N)
| VideoFrameConvert (size : Z * Z)
| ToxavVideoSendFrame (friendNum : N) (frame : ToxYUVFrame)
| ToxavGroupSendAudio (groupNum : Z) (pcm : list Z) (samples : Z) (chans rate : N)
| AecmBufferFarend (farend : list Z) (nrOfSamples : Z)
| PlayAudioBuffer (friendNum : N) (pcm : list Z) (samples : Z) (chans rate : N).

(** [CoreAV::sendGroupCallAudio]; [answer] is what
    [toxav_group_send_audio] returns. *)
Definition sendGroupCallAudio (groupNum : Z) (pcm : list Z) (samples : Z) (chans rate : N)
    (answer : Z) : M (bool * list Request) :=
  QReadLocker ;;
  s ← get;
  match groupCalls s !! groupNum with
  | None => locker_unlock ;; mret (false, [])
  | Some call =>
      if negb (g_active call) || g_muteMic call then
        locker_unlock ;; mret (true, [])
      else
        (if negb (answer =? 0) then qDebug "toxav_group_send_audio error" [] else mret tt) ;;
        locker_unlock ;;
        mret (true, [ToxavGroupSendAudio groupNum pcm samples chans rate])
  end.

(** The keys of the registry in the order [std::map] iterates them. *)
Definition calls_keys (m : gmap N ToxFriendCall) : list N :=
  merge_sort N.le (map_to_list m).*1.

(** [CoreAV::sendNoVideo]; [answer k] is the transport's answer to the
    bitrate request for friend [k]. *)
Fixpoint sendNoVideo_loop (answer : N -> Toxav_Err_Bit_Rate_Set) (keys : list N)
  : M (list Request) :=
  match keys with
  | [] => mret []
  | k :: keys' =>
      (if negb (PARSE_ERR_bit_rate_set (answer k))
       then mret tt                                     (* [continue] *)
       else call_update k (setNullVideoBitrate true)) ;;
      rs ← sendNoVideo_loop answer keys';
      mret (ToxavVideoSetBitRate k 0 :: rs)
  end.

Definition sendNoVideo (answer : N -> Toxav_Err_Bit_Rate_Set) : M (list Request) :=
  QWriteLocker ;;
  qDebug "CoreAV: Signaling end of video sending" [] ;;
  s ← get;
  rs ← sendNoVideo_loop answer (calls_keys (calls s));
  locker_unlock ;;
  mret rs.

Section Video.
Context {decls : Declarations}.

(** [CoreAV::sendCallVideo].  [probe] is the outcome of
    [callsLock.tryLockForRead()], [set_err] and [send_err] the transport's
    answers to the bitrate request and to the frame. *)
Definition sendCallVideo (callId : N) (vframe : VideoFrame) (probe : bool)
    (set_err : Toxav_Err_Bit_Rate_Set) (send_err : Toxav_Err_Send_Frame) : M (list Request) :=
  if negb probe then
    qDebug "sendCallVideo:tryLockForRead failed" [] ;;
    mret []
  else
    QReadLocker ;; locker_unlock ;;     (* the probe's hold, given back at once *)
    QReadLocker ;;
    it ← calls_find callId;
    match it with
    | None => locker_unlock ;; mret []
    | Some call =>
        if negb (videoEnabled call) || negb (active call)
           || negb (has_bit (state call) TOXAV_FRIEND_CALL_STATE_ACCEPTING_V)
        then locker_unlock ;; mret []
        else
          restart ← (if nullVideoBitrate call then
                       qDebug "Restarting video stream to friend %1" [Z.of_N callId] ;;
                       if negb (PARSE_ERR_bit_rate_set set_err) then
                         mret (inl [ToxavVideoSetBitRate callId VIDEO_DEFAULT_BITRATE])
                       else
                         call_update callId (setNullVideoBitrate false) ;;
                         mret (inr [ToxavVideoSetBitRate callId VIDEO_DEFAULT_BITRATE])
                     else mret (inr []));
          match restart with
          | inl rs => locker_unlock ;; mret rs          (* [return] *)
          | inr rs =>
              let vsize := getSourceDimensions vframe in
              let new_size := if (1920 <? vsize.1) || (1080 <? vsize.2)
                              then (1920, 1080) else vsize in
              match toToxYUVFrame vframe new_size with
              | None => locker_unlock ;; mret (rs ++ [VideoFrameConvert new_size])
              | Some frame =>
                  (if negb (send_frame_ok send_err)
                   then qDebug "toxav_video_send_frame error: %1"
                               [Toxav_Err_Send_Frame_code send_err]
                   else mret tt) ;;
                  locker_unlock ;;
                  mret (rs ++ [VideoFrameConvert new_size; ToxavVideoSendFrame callId frame])
              end
          end
    end.

End Video.

(** [CoreAV::audioFrameCallback]: a received audio frame.  Mono frames of
    40 or 60 ms at the native rate are first fed, downsampled and in
    chunks of 10 ms, to the far end of the echo canceller; then the frame
    goes to the playback sink. *)
Definition audioFrameCallback (friendNum : N) (pcm : list Z) (sampleCount : Z)
    (channels samplingRate : N) : M (list Request) :=
  it ← calls_find friendNum;
  match it with
  | None => mret []
  | Some call =>
      if muteVol call then mret []
      else
        s ← get;
        farend ← (if (channels =? 1)%N && (samplingRate =? AUDIO_SAMPLE_RATE)%N
                     && ((sampleCount =? 1920) || (sampleCount =? 2880)) then
                    if getEchoCancellation (audioSettings s) then
                      let audio_frame_in_ms :=
                        int32_wrap (Z.quot (sampleCount * 1000) (Z.of_N samplingRate)) in
                      if 10 <=? audio_frame_in_ms then
                        '(_, pcm_buf_resampled) ←
                           downsample_48000_to_16000_basic pcm (calloc (Z.quot sampleCount 3))
                             (int32_wrap sampleCount);
                        let split_factor := Z.quot audio_frame_in_ms 10 in
                        let sample_count_split := int32_wrap (Z.quot sampleCount split_factor) in
                        let chunk := Z.quot sample_count_split 3 in
                        for_loop (Z.to_nat split_factor) 0
                          (fun x rs =>
                             mret (rs ++ [AecmBufferFarend
                                            (read_at pcm_buf_resampled (x * chunk)
                                                     (int16_wrap chunk))
                                            (int16_wrap chunk)]))
                          []
                      else mret []
                    else mret []
                  else mret []);
        mret (farend ++ [PlayAudioBuffer friendNum pcm sampleCount channels samplingRate])
  end.

(** ** More observations and sample states *)

(** Replays the lock events of [evs] from the holds [held] and lists each
    transport request with the holds of [callsLock] at that moment. *)
Fixpoint requested_under (held : list LockMode) (evs : Trace)
  : list (ToxavRequest * list LockMode) :=
  match evs with
  | [] => []
  | EvLock m :: evs' => requested_under (m :: held) evs'
  | EvUnlock :: evs' => requested_under (tail held) evs'
  | EvToxav req :: evs' => (req, held) :: requested_under held evs'
  | _ :: evs' => requested_under held evs'
  end.

Definition is_dsp (e : Event) : bool :=
  match e with EvDsp _ => true | _ => false end.

Definition is_video_send (r : Request) : bool :=
  match r with ToxavVideoSendFrame _ _ => true | _ => false end.

Definition sample_group_declarations : GroupDeclarations :=
  {| new_ToxGroupCall := fun _ => {| g_active := false; g_muteMic := false; g_muteVol := false |} |}.

Definition friend7 : Friend := {| friendId := 7 |}.
Definition group3 : Group := {| groupId := 3 |}.

(** A camera frame of the given size whose conversion always succeeds. *)
Definition camera_frame (w h : Z) : VideoFrame :=
  {| getSourceDimensions := (w, h);
     toToxYUVFrame := fun size => Some {| yuv_width := size.1; yuv_height := size.2;
                                          yuv_planes := [] |} |}.

(** Friend 7 has invited us to a video call and we answered. *)
Definition in_video_call : CoreAV :=
  state_after (answerCall (decls := sample_declarations) 7 true)
    (state_after (callCallback (decls := sample_declarations) 7 true true)
                 (fresh accepting_toxav)).

(** What [cancelCall] does before it turns to the transport. *)
Definition cancelCall_prefix (p : N) : Trace :=
  [EvLock ForWrite; EvLog Debug "Cancelling call with %1" [Z.of_N p]; EvUnlock].

(** What [sendNoVideo] does to one call, given the transport's answer. *)
Definition mark_null_video (answer : N -> Toxav_Err_Bit_Rate_Set) (k : N)
    (c : ToxFriendCall) : ToxFriendCall :=
  if PARSE_ERR_bit_rate_set (answer k) then setNullVideoBitrate true c else c.

(** What [startCall] does before it turns to the transport, and the state
    bits [callCallback] fills in for an invite. *)
Definition startCall_prefix (p : N) : Trace :=
  [EvLock ForWrite; EvLog Debug "Starting call with %1" [Z.of_N p]].

Definition invite_state (audio_ video : bool) : N :=
  N.lor (if audio_
         then N.lor TOXAV_FRIEND_CALL_STATE_SENDING_A TOXAV_FRIEND_CALL_STATE_ACCEPTING_A
         else 0%N)
        (if video
         then N.lor TOXAV_FRIEND_CALL_STATE_SENDING_V TOXAV_FRIEND_CALL_STATE_ACCEPTING_V
         else 0%N).

Definition callCallback_invited_events (p : N) (video : bool) : Trace :=
  [EvLock ForWrite;
   EvLog Debug "Received call invite from %1" [Z.of_N p];
   EvUnlock;
   EvEmit (avInvite p video)].

Definition stateCallback_finished_events (p : N) : Trace :=
  [EvLock ForWrite;
   EvLog Debug "Call with friend %1 finished quietly" [Z.of_N p];
   EvUnlock;
   EvEmit (avEnd p false)].

Definition stateCallback_started_events (p : N) (video : bool) : Trace :=
  [EvLock ForWrite; EvUnlock; EvEmit (avStart p video)].

(** Transport answers used in the runs below. *)
Definition agrees : N -> Toxav_Err_Bit_Rate_Set := fun _ => TOXAV_ERR_BIT_RATE_SET_OK.

(** The sample call of friend 7 as [after_invite] and [in_call] hold it. *)
Definition invited_call : ToxFriendCall :=
  {| active := false; muteMic := false; muteVol := false; videoEnabled := false;
     nullVideoBitrate := false; state := 20%N; videoSource := None |}.

Definition answered_call : ToxFriendCall := setActive true invited_call.

Definition answered_video_call : ToxFriendCall :=
  {| active := true; muteMic := false; muteVol := false; videoEnabled := true;
     nullVideoBitrate := false; state := 60%N; videoSource := Some {| stopped := false |} |}.

(** The answered audio call of friend 7 with echo cancellation switched
    on in the settings. *)
Definition echo_call : CoreAV := with_audioSettings echo_settings (in_call accepting_toxav).

(** * Properties *)

(** Unfolds the monadic plumbing so that a run computes. *)
Ltac run :=
  unfold QWriteLocker, QReadLocker, locker_unlock, qDebug, qWarning, emit, usleep,
    calls_find, calls_erase, calls_emplace, call_update, groupCalls_find,
    toxav_call, toxav_answer, toxav_call_control, toxav_option_set, assert, deref,
    event, modify, get, crash, mbind, M_bind, mret, M_ret;
  cbn.

(** ** The registry holds at most one call per peer *)

Lemma count_calls_present (friendNum : N) (m : gmap N ToxFriendCall) (c : ToxFriendCall) :
  m !! friendNum = Some c -> count_calls friendNum m = 1%nat.
Proof.
  intros Hc. unfold count_calls.
  rewrite <- (map_to_list_delete m friendNum c Hc).
  rewrite filter_cons_True by done. cbn. f_equal.
  apply length_zero_iff_nil.
  destruct (filter _ _) as [|[k v] l] eqn:E; [done|].
  assert (Hin : (k, v) ∈ filter (λ kv : N * ToxFriendCall, kv.1 = friendNum)
                  (map_to_list (delete friendNum m))) by (rewrite E; left).
  apply list_elem_of_filter in Hin as [Hk Hin]. cbn in Hk. subst k.
  apply elem_of_map_to_list in Hin. rewrite lookup_delete_eq in Hin. done.
Qed.

Lemma count_calls_absent (friendNum : N) (m : gmap N ToxFriendCall) :
  m !! friendNum = None -> count_calls friendNum m = 0%nat.
Proof.
  intros Hc. unfold count_calls. apply length_zero_iff_nil.
  destruct (filter _ _) as [|[k v] l] eqn:E; [done|].
  assert (Hin : (k, v) ∈ filter (λ kv : N * ToxFriendCall, kv.1 = friendNum)
                  (map_to_list m)) by (rewrite E; left).
  apply list_elem_of_filter in Hin as [Hk Hin]. cbn in Hk. subst k.
  apply elem_of_map_to_list in Hin. congruence.
Qed.

(** ** startCall *)

Section StartCall.
Context {decls : Declarations}.

(** Setting the encoder options only talks to the transport. *)
Lemma set_encoder_bitrate_runs who p s :
  exists evs, set_encoder_bitrate who p s = Done tt (with_trace (trace s ++ evs) s).
Proof.
  unfold set_encoder_bitrate. run.
  repeat (destruct (_ =? _)); run; rewrite <- ?app_assoc; eexists; try reflexivity.
  instantiate (1 := []). rewrite app_nil_r. destruct s; reflexivity.
Qed.

(** A successful [startCall] leaves a call for the peer in the registry. *)
Lemma startCall_true_registers p v s s1 :
  startCall p v s = Done true s1 -> is_Some (calls s1 !! p).
Proof.
  unfold startCall. run.
  destruct (calls s !! p) eqn:Hc; cbn; [discriminate|].
  destruct (PARSE_ERR_call _); cbn; [|discriminate].
  destruct (audio s); cbn; [|discriminate].
  rewrite Hc.
  run.
  match goal with |- context [set_encoder_bitrate ?w ?p ?s] =>
    destruct (set_encoder_bitrate_runs w p s) as [evs ->] end.
  intros [= <-]. cbn. rewrite lookup_insert_eq. eauto.
Qed.

(** C1. If the registry holds a call for peer [p] -- in particular right
    after a [startCall p _] that returned [true] -- then [startCall p _]
    returns [false], sends nothing to the transport, and the registry is
    unchanged: it still holds exactly one call for [p]. *)
Theorem startCall_rejects_duplicate (p : N) (v : bool) (s : CoreAV) :
  (is_Some (calls s !! p) \/ exists s0 v0, startCall p v0 s0 = Done true s) ->
  let s' := with_trace (trace s ++ startCall_rejected_events p) s in
  startCall p v s = Done false s'
  /\ calls s' = calls s
  /\ count_calls p (calls s') = 1%nat
  /\ Forall (fun e => is_toxav e = false) (startCall_rejected_events p).
Proof.
  intros Hex.
  assert (Hsome : is_Some (calls s !! p)).
  { destruct Hex as [Hs | (s0 & v0 & Hrun)]; [done|]. by eapply startCall_true_registers. }
  destruct Hsome as [c Hc]. cbn zeta.
  split; [|split; [reflexivity|split]].
  - unfold startCall. run. rewrite Hc. cbn. rewrite <- !app_assoc. reflexivity.
  - cbn. by eapply count_calls_present.
  - repeat constructor.
Qed.

End StartCall.

(** ** callCallback *)

Section CallCallback.
Context {decls : Declarations}.

(** C10. An invite for a friend who already has a call is rejected: a
    cancel is sent to the transport, the registry (the existing call and
    its state included) is unchanged, and no signal is emitted. *)
Theorem callCallback_rejects_duplicate (p : N) (a v : bool) (s : CoreAV) (c : ToxFriendCall) :
  audio s = true ->
  calls s !! p = Some c ->
  let s' := with_trace (trace s ++ callCallback_rejected_events p) s in
  callCallback p a v s = Done tt s'
  /\ calls s' = calls s
  /\ calls s' !! p = Some c
  /\ In (EvToxav (ToxavCallControl p TOXAV_CALL_CONTROL_CANCEL)) (callCallback_rejected_events p)
  /\ emitted_under (callsLock s) (callCallback_rejected_events p) = [].
Proof.
  intros Ha Hc. cbn zeta.
  split; [|split; [reflexivity|split; [exact Hc|split]]].
  - unfold callCallback. run. rewrite Ha. cbn. rewrite Hc. cbn.
    rewrite <- !app_assoc. reflexivity.
  - cbn. auto.
  - reflexivity.
Qed.

End CallCallback.

(** ** stateCallback *)

Section StateCallback.
Context {decls : Declarations}.

(** C2. Whatever the registry held for the friend before, after a state
    callback with the error bit the friend has no entry.  When a call is
    torn down this way, [avEnd friendNum true] is the last thing the
    callback does, after its hold of [callsLock] has been released: the
    signal goes out under exactly the holds that were there on entry. *)
Theorem stateCallback_error_removes_call (p : N) (st : N) (s : CoreAV) :
  has_bit st TOXAV_FRIEND_CALL_STATE_ERROR = true ->
  let evs := match calls s !! p with
             | Some _ => stateCallback_error_events p
             | None => stateCallback_dead_events p
             end in
  let s' := with_trace (trace s ++ evs) (with_calls (delete p (calls s)) s) in
  stateCallback p st s = Done tt s'
  /\ calls s' !! p = None
  /\ callsLock s' = callsLock s
  /\ emitted_under (callsLock s) evs
     = match calls s !! p with
       | Some _ => [(avEnd p true, callsLock s)]
       | None => []
       end.
Proof.
  intros Herr. cbn zeta.
  split; [|split; [|split]].
  - unfold stateCallback. run.
    destruct (calls s !! p) eqn:Hc; cbn.
    + rewrite Herr. cbn. rewrite <- !app_assoc. reflexivity.
    + rewrite <- !app_assoc. cbn. rewrite (delete_id (calls s) p Hc).
      destruct s; reflexivity.
  - cbn. apply lookup_delete_eq.
  - reflexivity.
  - destruct (calls s !! p); reflexivity.
Qed.

(** X30. Every signal [stateCallback] emits, for any state bitmask, goes out
    under the holds of [callsLock] that were there on entry, and the
    callback returns with those holds. *)
Lemma stateCallback_emits_unlocked (p : N) (st : N) (s : CoreAV) :
  exists s' evs,
    stateCallback p st s = Done tt s'
    /\ trace s' = trace s ++ evs
    /\ callsLock s' = callsLock s
    /\ Forall (fun sh => sh.2 = callsLock s) (emitted_under (callsLock s) evs).
Proof.
  unfold stateCallback. run.
  destruct (calls s !! p) as [call|]; cbn;
    [destruct (has_bit st TOXAV_FRIEND_CALL_STATE_ERROR); cbn;
     [|destruct (has_bit st TOXAV_FRIEND_CALL_STATE_FINISHED); cbn;
       [|destruct ((state call =? 0)%N && negb (st =? 0)%N); cbn;
         [|destruct (has_bit (state call) TOXAV_FRIEND_CALL_STATE_SENDING_V
                     && negb (has_bit st TOXAV_FRIEND_CALL_STATE_SENDING_V)); cbn;
           [|destruct (negb (has_bit (state call) TOXAV_FRIEND_CALL_STATE_SENDING_V)
                       && has_bit st TOXAV_FRIEND_CALL_STATE_SENDING_V); cbn]]]]|];
    rewrite <- ?app_assoc; cbn;
    eexists _, _; (split; [reflexivity|]); cbn; (split; [reflexivity|]);
    (split; [reflexivity|]); cbn; repeat constructor.
Qed.

End StateCallback.

(** ** answerCall *)

Section AnswerCall.
Context {decls : Declarations}.

(** C5. With a call for the peer in the registry, [answerCall] asks the
    transport to answer.  If the transport accepts, the call is marked
    active and the result is [true].  If it rejects, a cancel is sent to
    the transport, the entry is removed and the result is [false]. *)
Theorem answerCall_accept_or_cancel (p : N) (v : bool) (s : CoreAV) (c : ToxFriendCall) :
  calls s !! p = Some c ->
  let abr := getAudioBitrate (audioSettings s) in
  let vbr := if v then VIDEO_DEFAULT_BITRATE else 0%N in
  let err := on_answer (toxav s) (trace s ++ answerCall_prefix p) p abr vbr in
  (answer_ok err = true ->
     exists s', answerCall p v s = Done true s'
       /\ calls s' !! p = Some (setActive true c)
       /\ active (setActive true c) = true
       /\ forall q, q <> p -> calls s' !! q = calls s !! q)
  /\ (answer_ok err = false ->
     let s' := with_trace (trace s ++ answerCall_rejected_events p abr vbr err)
                          (with_calls (delete p (calls s)) s) in
     answerCall p v s = Done false s'
     /\ calls s' !! p = None
     /\ In (EvToxav (ToxavCallControl p TOXAV_CALL_CONTROL_CANCEL))
           (answerCall_rejected_events p abr vbr err)).
Proof.
  intros Hc. cbn zeta. unfold answerCall_rejected_events, answerCall_prefix.
  split; intros Herr.
  - unfold answerCall. run. rewrite Hc. cbn. rewrite <- !app_assoc. cbn.
    rewrite Herr. run.
    match goal with |- context [set_encoder_bitrate ?w ?p ?s] =>
      destruct (set_encoder_bitrate_runs w p s) as [evs ->] end.
    eexists. split; [reflexivity|]. cbn.
    split; [by rewrite lookup_alter_eq, Hc|]. split; [reflexivity|].
    intros q Hq. by rewrite lookup_alter_ne.
  - split; [|split].
    + unfold answerCall. run. rewrite Hc. cbn. rewrite <- !app_assoc. cbn.
      rewrite Herr. cbn. rewrite <- !app_assoc. reflexivity.
    + cbn. apply lookup_delete_eq.
    + cbn. do 4 right. left. reflexivity.
Qed.

End AnswerCall.

(** ** sendCallAudio *)

Section Steady.

Lemma steady_ret {A} (a : A) : steady (mret a).
Proof.
  intros s. exists a, s, []. rewrite app_nil_r. repeat split; constructor.
Qed.

Lemma steady_bind {A B} (m : M A) (f : A -> M B) :
  steady m -> (forall a, steady (f a)) -> steady (m ≫= f).
Proof.
  intros Hm Hf s.
  destruct (Hm s) as (a & s1 & evs1 & Hrun1 & Ht1 & Hq1 & Hx1 & Hc1).
  destruct (Hf a s1) as (b & s2 & evs2 & Hrun2 & Ht2 & Hq2 & Hx2 & Hc2).
  exists b, s2, (evs1 ++ evs2).
  unfold mbind, M_bind. rewrite Hrun1, Hrun2.
  repeat split.
  - by rewrite Ht2, Ht1, app_assoc.
  - by apply Forall_app.
  - congruence.
  - congruence.
Qed.

Lemma steady_get : steady get.
Proof.
  intros s. exists s, s, []. rewrite app_nil_r. repeat split; constructor.
Qed.

Lemma steady_event (e : Event) :
  is_toxav e = false -> is_sleep e = false -> steady (event e).
Proof.
  intros H1 H2 s. eexists tt, _, [e]. repeat split; repeat constructor; done.
Qed.

Lemma steady_modify (f : CoreAV -> CoreAV) :
  (forall s, trace (f s) = trace s /\ toxav (f s) = toxav s /\ calls (f s) = calls s) ->
  steady (modify f).
Proof.
  intros Hf s. destruct (Hf s) as (Ht & Hx & Hc).
  exists tt, (f s), []. rewrite app_nil_r. repeat split; try done. constructor.
Qed.

Lemma steady_for_loop {A} (n : nat) (x : Z) (body : Z -> A -> M A) (acc : A) :
  (forall x acc, steady (body x acc)) -> steady (for_loop n x body acc).
Proof.
  intros Hbody. revert x acc.
  induction n as [|n IH]; intros x acc; cbn.
  - apply steady_ret.
  - apply steady_bind; [apply Hbody | intros acc'; apply IH].
Qed.

End Steady.

Ltac steady_step :=
  lazymatch goal with
  | |- steady (_ ≫= _) => apply steady_bind; [|intros ?]
  | |- steady (mret _) => apply steady_ret
  | |- steady get => apply steady_get
  | |- steady (event _) => apply steady_event; reflexivity
  | |- steady (qDebug _ _) => apply steady_event; reflexivity
  | |- steady (modify _) => apply steady_modify; intros ?; repeat split
  | |- steady (if ?b then _ else _) => destruct b
  | |- steady (match ?x with Some _ => _ | None => _ end) => destruct x
  | |- steady (let '(_, _) := ?p in _) => destruct p
  | |- steady (for_loop _ _ _ _) => apply steady_for_loop; intros ? ?
  end.

Section SendCallAudio.
Context {decls : Declarations}.

Lemma steady_resample r inp n out cap :
  steady (ma_resampler_process_pcm_frames r inp n out cap).
Proof.
  unfold ma_resampler_process_pcm_frames. repeat steady_step.
Qed.

Lemma steady_upsample inp out n : steady (upsample_16000_to_48000_basic inp out n).
Proof.
  unfold upsample_16000_to_48000_basic.
  repeat (steady_step || apply steady_resample).
Qed.

Lemma steady_downsample inp out n : steady (downsample_48000_to_16000_basic inp out n).
Proof.
  unfold downsample_48000_to_16000_basic.
  repeat (steady_step || apply steady_resample).
Qed.

Lemma steady_filter pcm samples :
  10 <= AUDIO_FRAME_DURATION -> steady (filter_recorded_audio pcm samples).
Proof.
  intros Hdur.
  assert (Hsplit : (AUDIO_FRAME_DURATION ÷ 10 =? 0) = false).
  { apply Z.eqb_neq. intros Hq.
    pose proof (Z.quot_le_mono 10 AUDIO_FRAME_DURATION 10 ltac:(lia) Hdur) as Hm.
    rewrite Z.quot_same in Hm by lia. lia. }
  unfold filter_recorded_audio. rewrite Hsplit.
  unfold WebRtcAecm_set_config, WebRtcNsx_set_policy, WebRtcNsx_Process, WebRtcAecm_Process.
  repeat (steady_step || apply steady_downsample || apply steady_upsample).
Qed.

End SendCallAudio.

Lemma run_bind {A B} (m : M A) (f : A -> M B) (s : CoreAV) :
  (m ≫= f) s = match m s with Done a s' => f a s' | Crashed why => Crashed why end.
Proof. reflexivity. Qed.

Lemma run_get (s : CoreAV) : get s = Done s s.
Proof. reflexivity. Qed.

Lemma run_calls_find (p : N) (s : CoreAV) : calls_find p s = Done (calls s !! p) s.
Proof. reflexivity. Qed.

Lemma count_events_app (p : Event -> bool) (l1 l2 : Trace) :
  count_events p (l1 ++ l2) = (count_events p l1 + count_events p l2)%nat.
Proof. unfold count_events. by rewrite List.filter_app, length_app. Qed.

Lemma quiet_count (p : Event -> bool) (evs : Trace) :
  quiet evs ->
  (forall e, p e = true -> is_toxav e = true \/ is_sleep e = true) ->
  count_events p evs = 0%nat.
Proof.
  intros Hq Hp. unfold count_events. apply length_zero_iff_nil.
  induction Hq as [|e l [He1 He2] _ IHq]; [done|]. cbn.
  destruct (p e) eqn:Hpe; [|exact IHq].
  destruct (Hp e Hpe); congruence.
Qed.

Section SendLoop.
Context {decls : Declarations}.

(** The retry loop: it always ends within three attempts, having slept
    once per busy answer; it ends on a busy answer only when the third
    attempt was busy too. *)
Lemma send_frame_loop_bounded (callId : N) (pcm : list Z) (samples : Z) (chans rate : N) :
  forall (fuel : nat) (retries : Z) (s : CoreAV),
    0 <= retries < 3 ->
    (Z.to_nat (3 - retries) <= fuel)%nat ->
    exists err retries' s' evs,
      send_frame_loop fuel callId pcm samples chans rate retries s = Done (Some (err, retries')) s'
      /\ trace s' = trace s ++ evs
      /\ retries <= retries' <= 3
      /\ count_events is_sleep evs = Z.to_nat (retries' - retries)
      /\ count_events is_audio_send evs
         = (Z.to_nat (retries' - retries) + (if is_send_frame_sync err then 0 else 1))%nat
      /\ (if is_send_frame_sync err then retries' = 3 else retries' < 3)
      /\ Forall (fun e => is_sleep e = true -> e = EvSleep 500) evs
      /\ ((forall t, on_audio_send_frame (toxav s) t callId pcm samples chans rate
                     = TOXAV_ERR_SEND_FRAME_SYNC) -> is_send_frame_sync err = true).
Proof.
  induction fuel as [|fuel IH]; intros retries s Hr Hfuel; [lia|].
  cbn [send_frame_loop]. unfold toxav_audio_send_frame. run.
  destruct (on_audio_send_frame (toxav s) (trace s) callId pcm samples chans rate) eqn:Herr.
  5: { (* lock busy *)
    cbn. destruct (retries + 1 <? 3) eqn:Hlt.
    + apply Z.ltb_lt in Hlt.
      match goal with |- context [send_frame_loop fuel _ _ _ _ _ _ ?s1] =>
        destruct (IH (retries + 1) s1 ltac:(lia) ltac:(lia))
          as (err' & r' & s' & evs & Hrun & Ht & Hr' & Hsl & Hse & Hex & Hfa & Hper)
      end.
      rewrite Hrun. cbn in Ht. rewrite <- !app_assoc in Ht. cbn in Ht.
      eexists err', r', s', _. split; [reflexivity|]. split; [exact Ht|].
      split; [lia|].
      unfold count_events in *. cbn.
      split; [rewrite Hsl; lia|]. split; [rewrite Hse; lia|]. split; [exact Hex|].
      split; [|exact Hper].
      constructor; [discriminate|]. constructor; [reflexivity|]. exact Hfa.
    + apply Z.ltb_ge in Hlt. cbn.
      eexists _, _, _, _. split; [reflexivity|]. cbn. rewrite <- !app_assoc. cbn.
      split; [reflexivity|]. split; [lia|].
      unfold count_events. cbn.
      replace (retries + 1 - retries) with 1 by lia. cbn.
      split; [reflexivity|]. split; [reflexivity|]. split; [lia|].
      split; [|reflexivity].
      constructor; [discriminate|]. constructor; [reflexivity|]. constructor. }
  all: cbn; eexists _, _, _, _; (split; [reflexivity|]); cbn; rewrite <- ?app_assoc; cbn;
    (split; [reflexivity|]); (split; [lia|]); unfold count_events; cbn;
    rewrite Z.sub_diag; cbn; (split; [reflexivity|]); (split; [reflexivity|]);
    (split; [lia|]);
    (split; [repeat constructor; discriminate
            | intros Hper; rewrite Hper in Herr; discriminate]).
Qed.

(** C3 (as the code has it). On a call id without entry in the registry
    [sendCallAudio] returns [false]; nothing is sent and nothing else
    happens. *)
Theorem sendCallAudio_absent_returns_false (fuel : nat) (callId : N) (pcm : list Z)
    (samples : Z) (chans rate : N) (s : CoreAV) :
  calls s !! callId = None ->
  sendCallAudio fuel callId pcm samples chans rate s = Done (Some (false, pcm)) s.
Proof.
  intros Hc. unfold sendCallAudio. run. by rewrite Hc.
Qed.

(** C4. On a call that is mic-muted, or not active, or whose state lacks
    the accepting-audio bit, [sendCallAudio] returns [true]; nothing is
    sent and nothing else happens. *)
Theorem sendCallAudio_nothing_to_send (fuel : nat) (callId : N) (pcm : list Z)
    (samples : Z) (chans rate : N) (s : CoreAV) (call : ToxFriendCall) :
  calls s !! callId = Some call ->
  muteMic call = true \/ active call = false
    \/ has_bit (state call) TOXAV_FRIEND_CALL_STATE_ACCEPTING_A = false ->
  sendCallAudio fuel callId pcm samples chans rate s = Done (Some (true, pcm)) s.
Proof.
  intros Hc Hgate. unfold sendCallAudio. run. rewrite Hc.
  destruct Hgate as [-> | [-> | ->]]; cbn; rewrite ?orb_true_r; reflexivity.
Qed.

Lemma busy_rounds_S (t : Trace) (n : nat) (callId : N) (pcm : list Z) (samples : Z)
    (chans rate : N) :
  ((t ++ [EvToxav (ToxavAudioSendFrame callId pcm samples chans rate)]) ++ [EvSleep 500])
    ++ busy_rounds n callId pcm samples chans rate
  = t ++ busy_rounds (S n) callId pcm samples chans rate.
Proof. unfold busy_rounds, send_attempt. cbn. by rewrite <- !app_assoc. Qed.

(** The retry loop, event by event: [k] attempts in a row are answered
    busy and each is followed by a sleep; the loop then either stops
    because the retry counter reached 3, or makes one more attempt whose
    answer is not busy and stops on it. *)
Lemma send_frame_loop_shape (callId : N) (pcm : list Z) (samples : Z) (chans rate : N) :
  forall (fuel : nat) (retries : Z) (s : CoreAV),
    0 <= retries < 3 ->
    (Z.to_nat (3 - retries) <= fuel)%nat ->
    exists (k : nat) err,
      (forall i, (i < k)%nat ->
         on_audio_send_frame (toxav s) (trace s ++ busy_rounds i callId pcm samples chans rate)
           callId pcm samples chans rate = TOXAV_ERR_SEND_FRAME_SYNC)
      /\ ((retries + Z.of_nat k = 3
           /\ err = TOXAV_ERR_SEND_FRAME_SYNC
           /\ send_frame_loop fuel callId pcm samples chans rate retries s
              = Done (Some (err, 3))
                     (with_trace (trace s ++ busy_rounds k callId pcm samples chans rate) s))
          \/ (retries + Z.of_nat k < 3
              /\ err = on_audio_send_frame (toxav s)
                         (trace s ++ busy_rounds k callId pcm samples chans rate)
                         callId pcm samples chans rate
              /\ is_send_frame_sync err = false
              /\ send_frame_loop fuel callId pcm samples chans rate retries s
                 = Done (Some (err, retries + Z.of_nat k))
                        (with_trace (trace s ++ busy_rounds k callId pcm samples chans rate
                                       ++ send_attempt callId pcm samples chans rate
                                          :: send_error_line err) s))).
Proof.
  induction fuel as [|fuel IH]; intros retries s Hr Hfuel; [lia|].
  cbn [send_frame_loop]. unfold toxav_audio_send_frame. run.
  destruct (on_audio_send_frame (toxav s) (trace s) callId pcm samples chans rate) eqn:Herr.
  5: { (* lock busy *)
    cbn. destruct (retries + 1 <? 3) eqn:Hlt.
    + apply Z.ltb_lt in Hlt.
      match goal with |- context [send_frame_loop fuel _ _ _ _ _ _ ?s1] =>
        destruct (IH (retries + 1) s1 ltac:(lia) ltac:(lia)) as (k & err & Hbusy & Hend)
      end.
      cbn [trace toxav with_trace] in Hbusy, Hend.
      rewrite (app_assoc (_ ++ [EvSleep 500])) in Hend.
      rewrite !busy_rounds_S in Hend.
      exists (S k), err. split.
      { intros [|i] Hi.
        - unfold busy_rounds. cbn. by rewrite app_nil_r.
        - rewrite <- busy_rounds_S. apply Hbusy. lia. }
      destruct Hend as [(Hk & -> & Hrun) | (Hk & -> & Hsync & Hrun)].
      * left. split; [lia|]. split; [reflexivity|]. rewrite Hrun. reflexivity.
      * right. split; [lia|]. split; [reflexivity|]. split; [exact Hsync|].
        rewrite Hrun, <- app_assoc.
        replace (retries + 1 + Z.of_nat k) with (retries + Z.of_nat (S k)) by lia.
        reflexivity.
    + apply Z.ltb_ge in Hlt. cbn.
      exists 1%nat, TOXAV_ERR_SEND_FRAME_SYNC. split.
      { intros i Hi. replace i with 0%nat by lia.
        unfold busy_rounds. cbn. by rewrite app_nil_r. }
      left. split; [lia|]. split; [reflexivity|].
      replace (retries + 1) with 3 by lia.
      unfold busy_rounds. cbn. by rewrite <- !app_assoc. }
  all: cbn; eexists 0%nat, _; (split; [intros i Hi; lia|]); right;
    unfold busy_rounds; cbn; rewrite ?app_nil_r, Herr;
    (split; [lia|]); (split; [reflexivity|]); (split; [reflexivity|]);
    rewrite Z.add_0_r, <- ?app_assoc; reflexivity.
Qed.

(** C6. On a call that takes audio, [sendCallAudio] first runs the filter
    block, which reaches neither the transport nor the clock (and does
    nothing at all for audio that goes past it), and then hands the frame
    to the transport.  Every attempt that the transport answers with the
    lock-busy error is followed by a sleep of 500 microseconds; after the
    first and the second such answer the same frame is attempted again;
    after the third the only thing left is the log line that the frame is
    dropped.  An attempt that is answered otherwise (accepted, or another
    error, which is logged) is the last event of the call.  So at least
    one and at most three attempts are made, at most three sleeps, and
    the result is [true] whatever the transport answered. *)
Theorem sendCallAudio_retries_bounded (fuel : nat) (callId : N) (pcm : list Z)
    (samples : Z) (chans rate : N) (s : CoreAV) (call : ToxFriendCall) :
  calls s !! callId = Some call ->
  muteMic call = false ->
  active call = true ->
  has_bit (state call) TOXAV_FRIEND_CALL_STATE_ACCEPTING_A = true ->
  10 <= AUDIO_FRAME_DURATION ->
  (3 <= fuel)%nat ->
  exists pcm' s' pre (k : nat) ending,
    sendCallAudio fuel callId pcm samples chans rate s = Done (Some (true, pcm')) s'
    /\ trace s' = trace s ++ pre ++ busy_rounds k callId pcm' samples chans rate ++ ending
    /\ calls s' = calls s
    /\ quiet pre
    /\ (chans <> 1%N \/ rate <> 48000%N \/ getEchoCancellation (audioSettings s) = false ->
        pre = [] /\ pcm' = pcm)
    /\ (forall i, (i < k)%nat ->
          on_audio_send_frame (toxav s)
            (trace s ++ pre ++ busy_rounds i callId pcm' samples chans rate)
            callId pcm' samples chans rate = TOXAV_ERR_SEND_FRAME_SYNC)
    /\ ((k = 3%nat /\ ending = [dropping_frame_line])
        \/ ((k < 3)%nat
            /\ is_send_frame_sync
                 (on_audio_send_frame (toxav s)
                    (trace s ++ pre ++ busy_rounds k callId pcm' samples chans rate)
                    callId pcm' samples chans rate) = false
            /\ ending
               = send_attempt callId pcm' samples chans rate
                 :: send_error_line
                      (on_audio_send_frame (toxav s)
                         (trace s ++ pre ++ busy_rounds k callId pcm' samples chans rate)
                         callId pcm' samples chans rate)))
    /\ (let evs := pre ++ busy_rounds k callId pcm' samples chans rate ++ ending in
        (1 <= count_events is_audio_send evs <= 3)%nat
        /\ (count_events is_sleep evs <= 3)%nat
        /\ (count_events is_sleep evs <= count_events is_audio_send evs)%nat
        /\ Forall (fun e => is_sleep e = true -> e = EvSleep 500) evs
        /\ ((forall t p, on_audio_send_frame (toxav s) t callId p samples chans rate
                         = TOXAV_ERR_SEND_FRAME_SYNC) ->
            count_events is_audio_send evs = 3%nat
            /\ count_events is_sleep evs = 3%nat
            /\ last evs = Some dropping_frame_line)).
Proof.
  intros Hc Hmute Hact Hacc Hdur Hfuel.
  unfold sendCallAudio.
  rewrite run_bind, run_calls_find, Hc, Hmute, Hact, Hacc. cbn [orb negb].
  rewrite run_bind, run_get.
  (* the filter block *)
  set (filt := if (chans =? 1)%N && (rate =? AUDIO_SAMPLE_RATE)%N
               then if getEchoCancellation (audioSettings s)
                    then filter_recorded_audio pcm samples else mret pcm
               else mret pcm).
  assert (Hfilt : steady filt).
  { subst filt. destruct (_ && _); [destruct (getEchoCancellation _)|];
      (apply steady_filter; exact Hdur) || apply steady_ret. }
  assert (Hpast : chans <> 1%N \/ rate <> 48000%N
                  \/ getEchoCancellation (audioSettings s) = false ->
                  filt s = Done pcm s).
  { subst filt. intros [Hch | [Hr | He]].
    - apply N.eqb_neq in Hch. by rewrite Hch.
    - apply N.eqb_neq in Hr. unfold AUDIO_SAMPLE_RATE. rewrite Hr. by rewrite andb_false_r.
    - rewrite He. by destruct (_ && _). }
  destruct (Hfilt s) as (pcm' & s1 & evsF & HrunF & HtF & HqF & HxF & HcF).
  fold filt. rewrite run_bind, HrunF.
  destruct (send_frame_loop_bounded callId pcm' samples chans rate fuel 0 s1
              ltac:(lia) ltac:(cbn; lia))
    as (err & r' & s2 & evsL & HrunL & HtL & Hr' & Hsl & Hse & Hex & Hfa & Hper).
  destruct (send_frame_loop_shape callId pcm' samples chans rate fuel 0 s1
              ltac:(lia) ltac:(cbn; lia))
    as (k & err0 & Hbusy & Hend).
  rewrite HxF, HtF in Hbusy, Hend.
  rewrite <- !app_assoc in Hend.
  assert (Hbusy' : forall i, (i < k)%nat ->
            on_audio_send_frame (toxav s)
              (trace s ++ evsF ++ busy_rounds i callId pcm' samples chans rate)
              callId pcm' samples chans rate = TOXAV_ERR_SEND_FRAME_SYNC).
  { intros i Hi. rewrite app_assoc. by apply Hbusy. }
  clear Hbusy.
  rewrite run_bind, HrunL.
  assert (HsendF : count_events is_audio_send evsF = 0%nat).
  { apply quiet_count; [exact HqF|]. intros [] He; try discriminate. by left. }
  assert (HsleepF : count_events is_sleep evsF = 0%nat).
  { apply quiet_count; [exact HqF|]. intros e He. by right. }
  assert (HfaF : Forall (fun e => is_sleep e = true -> e = EvSleep 500) evsF).
  { eapply Forall_impl; [exact HqF|]. intros e [_ He] Hs. congruence. }
  assert (HpreF : chans <> 1%N \/ rate <> 48000%N
                  \/ getEchoCancellation (audioSettings s) = false ->
                  evsF = [] /\ pcm' = pcm).
  { intros Hby. rewrite (Hpast Hby) in HrunF. injection HrunF as <- <-.
    split; [|reflexivity].
    apply (app_inv_head (trace s)). by rewrite app_nil_r. }
  pose proof count_events_app as Happ.
  destruct Hend as [(Hk & -> & HrunS) | (Hk & -> & Hsync & HrunS)];
    rewrite HrunS in HrunL; injection HrunL as <- <- <-;
    cbn [trace with_trace] in HtL; rewrite HtF, <- !app_assoc in HtL;
    apply app_inv_head, app_inv_head in HtL; subst evsL.
  - (* the third attempt was busy as well: the frame is dropped *)
    run. eexists pcm', _, evsF, k, [dropping_frame_line].
    split; [reflexivity|]. cbn.
    split; [by rewrite <- !app_assoc|].
    split; [exact HcF|]. split; [exact HqF|]. split; [exact HpreF|].
    split; [exact Hbusy'|].
    split; [left; split; [lia | reflexivity]|].
    rewrite !Happ, HsendF, HsleepF, Hsl, Hse. cbn.
    split; [lia|]. split; [lia|]. split; [lia|]. split.
    { apply Forall_app; split; [exact HfaF|]. apply Forall_app; split; [exact Hfa|].
      repeat constructor. discriminate. }
    intros _. split; [reflexivity|]. split; [reflexivity|].
    by rewrite !app_assoc, last_snoc.
  - rewrite Hsync in *. run.
    eexists pcm', _, evsF, k, _.
    split; [reflexivity|]. cbn.
    split; [reflexivity|].
    split; [exact HcF|]. split; [exact HqF|]. split; [exact HpreF|].
    split; [exact Hbusy'|].
    split; [right; split; [lia|]; split; [exact Hsync | reflexivity]|].
    rewrite (Happ is_audio_send evsF), (Happ is_sleep evsF), HsendF, HsleepF, Hsl, Hse. cbn.
    split; [lia|]. split; [lia|]. split; [lia|]. split.
    { apply Forall_app; split; [exact HfaF | exact Hfa]. }
    intros Hall. exfalso.
    assert (false = true); [|discriminate].
    apply Hper. intros t. rewrite HxF. apply Hall.
Qed.

End SendLoop.

(** ** Call-state queries *)

Section Queries.

(** C7 (where the code departs from it). [isCallActive], on friends and
    on groups, and [isCallVideoEnabled] read [getId] through their
    argument before anything else: on a null pointer they fault instead
    of returning [false]. *)
Theorem isCallActive_null_pointer_faults (s : CoreAV) :
  isCallActive None s = Crashed NullDereference
  /\ isCallActive_Group None s = Crashed NullDereference
  /\ isCallVideoEnabled None s = Crashed NullDereference.
Proof. repeat split. Qed.

(** The queries that test their argument answer [false] on a null
    pointer; all they do is take and release the read lock. *)
Lemma null_pointer_queries_false (s : CoreAV) :
  let s' := with_trace (trace s ++ [EvLock ForRead; EvUnlock]) s in
  isCallStarted None s = Done false s'
  /\ isCallStarted_Group None s = Done false s'
  /\ isCallInputMuted None s = Done false s'
  /\ isCallOutputMuted None s = Done false s'
  /\ isGroupCallInputMuted None s = Done false s'
  /\ isGroupCallOutputMuted None s = Done false s'.
Proof.
  cbn zeta. repeat split;
    match goal with |- ?f None s = _ => unfold f end; run; rewrite <- !app_assoc; reflexivity.
Qed.

(** On a friend without entry in the registry every friend query answers
    [false]; the registry is only read. *)
Lemma absent_friend_queries_false (f : Friend) (s : CoreAV) :
  calls s !! friendId f = None ->
  let once := with_trace (trace s ++ [EvLock ForRead; EvUnlock]) s in
  let twice := with_trace (trace s ++ [EvLock ForRead; EvLock ForRead; EvUnlock; EvUnlock]) s in
  isCallStarted (Some f) s = Done false once
  /\ isCallActive (Some f) s = Done false once
  /\ isCallVideoEnabled (Some f) s = Done false twice
  /\ isCallInputMuted (Some f) s = Done false once
  /\ isCallOutputMuted (Some f) s = Done false once.
Proof.
  intros Hc. cbn zeta. repeat split;
    match goal with |- ?q (Some f) s = _ => unfold q end;
    try unfold isCallStarted; run; rewrite Hc; cbn; rewrite <- !app_assoc; reflexivity.
Qed.

(** The same for a group without entry. *)
Lemma absent_group_queries_false (g : Group) (s : CoreAV) :
  groupCalls s !! int_of_uint32 (groupId g) = None ->
  let once := with_trace (trace s ++ [EvLock ForRead; EvUnlock]) s in
  isCallStarted_Group (Some g) s = Done false once
  /\ isCallActive_Group (Some g) s = Done false once
  /\ isGroupCallInputMuted (Some g) s = Done false once
  /\ isGroupCallOutputMuted (Some g) s = Done false once.
Proof.
  intros Hc. cbn zeta. repeat split;
    match goal with |- ?q (Some g) s = _ => unfold q end;
    run; rewrite Hc; cbn; rewrite <- !app_assoc; reflexivity.
Qed.

End Queries.

(** ** Resampling *)

Section Resampling.

Lemma int32_wrap_small (z : Z) : 0 <= z < 2 ^ 31 -> int32_wrap z = z.
Proof.
  intros Hz. unfold int32_wrap. rewrite Z.mod_small by lia.
  destruct (z <? 2 ^ 31) eqn:E; [reflexivity | apply Z.ltb_ge in E; lia].
Qed.

Lemma uint64_wrap_small (z : Z) : 0 <= z < 2 ^ 31 -> uint64_wrap z = z.
Proof. intros Hz. unfold uint64_wrap. apply Z.mod_small. lia. Qed.

(** Without any assumption on the resampler: downsampling [n >= 3] samples
    asks it for exactly [n / 3] output frames out of [n] input frames, and
    that many samples at most are stored at the start of the output. *)
Lemma downsample_asks_third (inp out : list Z) (n : Z) (s : CoreAV) :
  3 <= n < 2 ^ 31 ->
  exists frames s' evs,
    downsample_48000_to_16000_basic inp out n s
    = Done (0, frames ++ drop (length frames) out) s'
    /\ (length frames <= Z.to_nat (n / 3))%nat
    /\ trace s' = trace s ++ EvDsp (MaResamplerProcess Downsampler inp n (n / 3)) :: evs.
Proof.
  intros Hn. unfold downsample_48000_to_16000_basic.
  destruct (n <? 3) eqn:E; [apply Z.ltb_lt in E; lia|].
  rewrite Z.quot_div_nonneg by lia.
  assert (Hq : 0 <= n / 3 < 2 ^ 31).
  { split; [apply Z.div_pos; lia|]. apply Z.div_lt_upper_bound; lia. }
  rewrite !uint64_wrap_small by lia.
  unfold ma_resampler_process_pcm_frames. run.
  destruct (on_resample _ _ _ _ _ _) as [result frames]. cbn.
  exists (take (Z.to_nat (n / 3)) frames).
  destruct result; cbn; eexists _, _; rewrite <- ?app_assoc; cbn;
    (split; [reflexivity|]); (split; [rewrite length_take; lia | reflexivity]).
Qed.

(** Upsampling [n >= 1] samples asks for exactly [3 * n] output frames. *)
Lemma upsample_asks_triple (inp out : list Z) (n : Z) (s : CoreAV) :
  1 <= n -> 3 * n < 2 ^ 31 ->
  exists frames s' evs,
    upsample_16000_to_48000_basic inp out n s
    = Done (0, frames ++ drop (length frames) out) s'
    /\ (length frames <= Z.to_nat (3 * n))%nat
    /\ trace s' = trace s ++ EvDsp (MaResamplerProcess Upsampler inp n (3 * n)) :: evs.
Proof.
  intros Hn Hn3. unfold upsample_16000_to_48000_basic.
  destruct (n <? 1) eqn:E; [apply Z.ltb_lt in E; lia|].
  replace (n * 3) with (3 * n) by lia.
  rewrite (int32_wrap_small (3 * n)) by lia.
  rewrite !uint64_wrap_small by lia.
  unfold ma_resampler_process_pcm_frames. run.
  destruct (on_resample _ _ _ _ _ _) as [result frames]. cbn.
  exists (take (Z.to_nat (3 * n)) frames).
  destruct result; cbn; eexists _, _; rewrite <- ?app_assoc; cbn;
    (split; [reflexivity|]); (split; [rewrite length_take; lia | reflexivity]).
Qed.

(** X29. With fewer than one sample [upsample_16000_to_48000_basic] returns -1
    and touches nothing. *)
Lemma upsample_too_short (inp out : list Z) (n : Z) (s : CoreAV) :
  n < 1 ->
  upsample_16000_to_48000_basic inp out n s = Done (-1, out) s.
Proof.
  intros Hn. unfold upsample_16000_to_48000_basic.
  destruct (n <? 1) eqn:E; [reflexivity | apply Z.ltb_ge in E; lia].
Qed.





(** C9. With fewer than three samples [downsample_48000_to_16000_basic]
    returns -1; the output buffer and everything else are untouched. *)
Theorem downsample_too_short (inp out : list Z) (n : Z) (s : CoreAV) :
  n < 3 ->
  downsample_48000_to_16000_basic inp out n s = Done (-1, out) s.
Proof.
  intros Hn. unfold downsample_48000_to_16000_basic.
  destruct (n <? 3) eqn:E; [reflexivity | apply Z.ltb_ge in E; lia].
Qed.

End Resampling.




(** ** Runs on the sample configurations *)

(** Two calls to [startCall 7 _] in a row on a fresh orchestrator. *)
Lemma startCall_rejects_duplicate_witness :
  startCall (decls := sample_declarations) 7 false (fresh accepting_toxav)
  = Done true after_first_startCall
  /\ startCall (decls := sample_declarations) 7 true after_first_startCall
     = Done false (with_trace (trace after_first_startCall ++ startCall_rejected_events 7)
                              after_first_startCall)
  /\ count_calls 7 (calls after_first_startCall) = 1%nat.
Proof.
  assert (Hfirst : startCall (decls := sample_declarations) 7 false (fresh accepting_toxav)
                   = Done true after_first_startCall) by (vm_compute; reflexivity).
  split; [exact Hfirst|].
  destruct (startCall_rejects_duplicate (decls := sample_declarations) 7 true
              after_first_startCall) as (Hrun & _ & Hcount & _).
  - right. exists (fresh accepting_toxav), false. exact Hfirst.
  - split; [exact Hrun | exact Hcount].
Defined.

Lemma stateCallback_error_removes_call_witness :
  has_bit 1 TOXAV_FRIEND_CALL_STATE_ERROR = true
  /\ calls after_first_startCall !! 7%N <> None
  /\ exists s', stateCallback 7 1 after_first_startCall = Done tt s'
       /\ calls s' !! 7%N = None
       /\ trace s' = trace after_first_startCall ++ stateCallback_error_events 7.
Proof.
  split; [reflexivity|]. split; [vm_compute; discriminate|].
  destruct (stateCallback_error_removes_call 7 1 after_first_startCall eq_refl)
    as (Hrun & Hgone & _ & _).
  eexists. split; [exact Hrun|]. split; [exact Hgone|]. reflexivity.
Defined.

Lemma callCallback_rejects_duplicate_witness :
  audio (after_invite accepting_toxav) = true
  /\ is_Some (calls (after_invite accepting_toxav) !! 7%N)
  /\ callCallback (decls := sample_declarations) 7 true true (after_invite accepting_toxav)
     = Done tt (with_trace (trace (after_invite accepting_toxav) ++ callCallback_rejected_events 7)
                           (after_invite accepting_toxav)).
Proof.
  pose (c := {| active := false; muteMic := false; muteVol := false; videoEnabled := false;
                nullVideoBitrate := false; state := 20%N; videoSource := None |}).
  assert (Hc : calls (after_invite accepting_toxav) !! 7%N = Some c) by (vm_compute; reflexivity).
  split; [reflexivity|]. split; [by exists c|].
  destruct (callCallback_rejects_duplicate (decls := sample_declarations) 7 true true
              (after_invite accepting_toxav) c eq_refl Hc) as (Hrun & _).
  exact Hrun.
Defined.

Lemma answerCall_accept_or_cancel_witness :
  is_Some (calls (after_invite rejecting_toxav) !! 7%N)
  /\ (exists s', answerCall (decls := sample_declarations) 7 false (after_invite rejecting_toxav)
                 = Done false s'
                 /\ calls s' !! 7%N = None
                 /\ last (removelast (trace s'))
                    = Some (EvToxav (ToxavCallControl 7 TOXAV_CALL_CONTROL_CANCEL)))
  /\ (exists s', answerCall (decls := sample_declarations) 7 false (after_invite accepting_toxav)
                 = Done true s'
                 /\ active <$> calls s' !! 7%N = Some true).
Proof.
  pose (c := {| active := false; muteMic := false; muteVol := false; videoEnabled := false;
                nullVideoBitrate := false; state := 20%N; videoSource := None |}).
  assert (Hr : calls (after_invite rejecting_toxav) !! 7%N = Some c) by (vm_compute; reflexivity).
  assert (Ha : calls (after_invite accepting_toxav) !! 7%N = Some c) by (vm_compute; reflexivity).
  split; [by exists c|]. split.
  - destruct (answerCall_accept_or_cancel (decls := sample_declarations) 7 false
                (after_invite rejecting_toxav) c Hr) as [_ Hrej].
    destruct (Hrej eq_refl) as (Hrun & Hgone & _).
    eexists. split; [exact Hrun|]. split; [exact Hgone|]. vm_compute. reflexivity.
  - destruct (answerCall_accept_or_cancel (decls := sample_declarations) 7 false
                (after_invite accepting_toxav) c Ha) as [Hacc _].
    destruct (Hacc eq_refl) as (s' & Hrun & Hlook & _ & _).
    exists s'. split; [exact Hrun|]. by rewrite Hlook.
Defined.

(** C3 does not hold as stated: on a registry without the call id
    [sendCallAudio] returns [false], not [true]. *)
Lemma sendCallAudio_absent_not_true :
  calls (fresh accepting_toxav) !! 7%N = None
  /\ sendCallAudio (decls := sample_declarations) 3 7 [1; 2; 3] 3 1 48000 (fresh accepting_toxav)
     = Done (Some (false, [1; 2; 3])) (fresh accepting_toxav)
  /\ ~ (exists s', sendCallAudio (decls := sample_declarations) 3 7 [1; 2; 3] 3 1 48000
                     (fresh accepting_toxav)
                   = Done (Some (true, [1; 2; 3])) s').
Proof.
  split; [reflexivity|]. split; [reflexivity|].
  intros [s' Hrun]. vm_compute in Hrun. discriminate.
Qed.

Lemma sendCallAudio_absent_returns_false_witness :
  calls (fresh accepting_toxav) !! 7%N = None
  /\ sendCallAudio (decls := sample_declarations) 3 7 [1; 2; 3] 3 1 48000 (fresh accepting_toxav)
     = Done (Some (false, [1; 2; 3])) (fresh accepting_toxav).
Proof.
  split; [reflexivity|].
  apply (sendCallAudio_absent_returns_false (decls := sample_declarations)).
  reflexivity.
Defined.

(** Before the invite is answered the call is not active. *)
Lemma sendCallAudio_nothing_to_send_witness :
  active <$> calls (after_invite accepting_toxav) !! 7%N = Some false
  /\ sendCallAudio (decls := sample_declarations) 3 7 [1; 2; 3] 3 1 48000
       (after_invite accepting_toxav)
     = Done (Some (true, [1; 2; 3])) (after_invite accepting_toxav).
Proof.
  split; [vm_compute; reflexivity|].
  eapply (sendCallAudio_nothing_to_send (decls := sample_declarations)).
  - vm_compute. reflexivity.
  - right. left. reflexivity.
Defined.

(** Against a transport that is always busy: three attempts, each
    followed by its sleep, then the frame is dropped, and the result is
    [true]. *)
Lemma sendCallAudio_retries_bounded_witness :
  exists s',
    sendCallAudio (decls := sample_declarations) 3 7 [1; 2; 3] 3 1 48000 (in_call busy_toxav)
    = Done (Some (true, [1; 2; 3])) s'
    /\ trace s' = trace (in_call busy_toxav)
                  ++ busy_rounds 3 7 [1; 2; 3] 3 1 48000 ++ [dropping_frame_line].
Proof.
  pose (c := {| active := true; muteMic := false; muteVol := false; videoEnabled := false;
                nullVideoBitrate := false; state := 20%N; videoSource := None |}).
  assert (Hc : calls (in_call busy_toxav) !! 7%N = Some c) by (vm_compute; reflexivity).
  destruct (sendCallAudio_retries_bounded (decls := sample_declarations) 3 7 [1; 2; 3] 3 1 48000
              (in_call busy_toxav) c Hc eq_refl eq_refl eq_refl)
    as (pcm' & s' & pre & k & ending & Hrun & Ht & _ & _ & Hpast & _ & Hend & _).
  - cbn. lia.
  - lia.
  - destruct Hpast as [-> ->]; [right; right; reflexivity|].
    destruct Hend as [[-> ->] | (_ & Hsync & _)]; [|discriminate Hsync].
    exists s'. split; [exact Hrun | exact Ht].
Defined.


Lemma downsample_too_short_witness :
  2 < 3
  /\ downsample_48000_to_16000_basic [5; 6] [9; 9; 9] 2 (fresh accepting_toxav)
     = Done (-1, [9; 9; 9]) (fresh accepting_toxav).
Proof.
  split; [lia|]. apply downsample_too_short. lia.
Defined.

(** ** Further runs *)

(** An audio-only invite from friend 7: the registry gains an entry whose
    state has the sending-audio and accepting-audio bits, and [avInvite 7
    false] is emitted after the lock is released. *)
Example invite_audio_only :
  callCallback (decls := sample_declarations) 7 true false (fresh accepting_toxav)
  = Done tt (after_invite accepting_toxav)
  /\ state <$> calls (after_invite accepting_toxav) !! 7%N
     = Some (N.lor TOXAV_FRIEND_CALL_STATE_SENDING_A TOXAV_FRIEND_CALL_STATE_ACCEPTING_A)
  /\ trace (after_invite accepting_toxav)
     = [EvLock ForWrite; EvLog Debug "Received call invite from %1" [7]; EvUnlock;
        EvEmit (avInvite 7 false)].
Proof. vm_compute. repeat split. Qed.

(** A transport that is busy twice: the third attempt delivers the
    frame. *)
Example third_attempt_delivers :
  exists s',
    sendCallAudio (decls := sample_declarations) 3 7 [1; 2; 3] 3 1 48000 (in_call (busy_until 2))
    = Done (Some (true, [1; 2; 3])) s'
    /\ drop (length (trace (in_call (busy_until 2)))) (trace s')
       = [EvToxav (ToxavAudioSendFrame 7 [1; 2; 3] 3 1 48000); EvSleep 500;
          EvToxav (ToxavAudioSendFrame 7 [1; 2; 3] 3 1 48000); EvSleep 500;
          EvToxav (ToxavAudioSendFrame 7 [1; 2; 3] 3 1 48000)].
Proof. eexists. vm_compute. split; reflexivity. Qed.

(** A transport that is busy three times: the frame is dropped after the
    third attempt and its sleep; no fourth attempt is made. *)
Example third_busy_drops :
  exists s',
    sendCallAudio (decls := sample_declarations) 3 7 [1; 2; 3] 3 1 48000 (in_call (busy_until 3))
    = Done (Some (true, [1; 2; 3])) s'
    /\ drop (length (trace (in_call (busy_until 3)))) (trace s')
       = [EvToxav (ToxavAudioSendFrame 7 [1; 2; 3] 3 1 48000); EvSleep 500;
          EvToxav (ToxavAudioSendFrame 7 [1; 2; 3] 3 1 48000); EvSleep 500;
          EvToxav (ToxavAudioSendFrame 7 [1; 2; 3] 3 1 48000); EvSleep 500;
          dropping_frame_line].
Proof. eexists. vm_compute. split; reflexivity. Qed.

(** A 20 ms mono frame through the filter block: downsampled to 320
    samples, processed in two chunks of 160, upsampled to 960 and copied
    back, then sent once. *)
Example filtered_frame_run :
  exists pcm' s',
    sendCallAudio (decls := sample_declarations) 3 7 ramp_frame 960 1 48000
      (with_audioSettings echo_settings (in_call accepting_toxav))
    = Done (Some (true, pcm')) s'
    /\ length pcm' = 960%nat
    /\ take 6 pcm' = [0; 0; 0; 3; 3; 3]
    /\ count_events is_audio_send (trace s') = 1%nat
    /\ List.filter (fun e => match e with
                             | EvDsp (MaResamplerProcess _ _ _ _) => true
                             | _ => false
                             end)
         (List.map (fun e => match e with
                             | EvDsp (MaResamplerProcess r _ a b) =>
                                 EvDsp (MaResamplerProcess r [] a b)
                             | e => e
                             end) (trace s'))
       = [EvDsp (MaResamplerProcess Downsampler [] 960 320);
          EvDsp (MaResamplerProcess Upsampler [] 320 960)].
Proof. eexists _, _. vm_compute. repeat split. Qed.

(** The echo latency of the settings plus the frame duration reaches the
    echo canceller as a 16-bit integer: with a latency of 40000 ms and
    frames of 20 ms both chunks are processed with a delay of -25516. *)
Example filter_delay_is_int16 :
  aecm_delays
    (trace (state_after
              (sendCallAudio (decls := sample_declarations) 3 7 ramp_frame 960 1 48000)
              (with_audioSettings long_latency_settings (in_call accepting_toxav))))
  = [-25516; -25516].
Proof. vm_compute. reflexivity. Qed.

(** * Properties of the rest of the orchestrator *)

Ltac runx :=
  unfold timeoutCall, cancelCall, locker_relock, groupCall_update; run.

(** ** Tearing a call down *)

Section CancelCall.
Context {decls : Declarations}.

(** X1. [cancelCall] always sends exactly one cancel request, and sends it
    with its own hold of [callsLock] released.  Its result is the
    transport's verdict.  On [true] the entry is erased and [avEnd p
    false] is emitted after the lock is released again; on [false] the
    registry is unchanged and nothing is emitted. *)
Theorem cancelCall_releases_lock_around_transport (p : N) (s : CoreAV) :
  exists r s' evs,
    cancelCall p s = Done r s'
    /\ trace s' = trace s ++ evs
    /\ r = PARSE_ERR_call_control
             (on_call_control (toxav s) (trace s ++ cancelCall_prefix p) p
                TOXAV_CALL_CONTROL_CANCEL)
    /\ requested_under (callsLock s) evs
       = [(ToxavCallControl p TOXAV_CALL_CONTROL_CANCEL, callsLock s)]
    /\ callsLock s' = callsLock s
    /\ calls s' = (if r then delete p (calls s) else calls s)
    /\ emitted_under (callsLock s) evs
       = (if r then [(avEnd p false, callsLock s)] else []).
Proof.
  runx. rewrite <- !app_assoc. cbn.
  destruct (PARSE_ERR_call_control _) eqn:Hok; cbn; rewrite <- ?app_assoc; cbn;
    eexists _, _, _; (split; [reflexivity|]); cbn; (split; [reflexivity|]);
    rewrite ?Hok; repeat split.
Qed.

(** The registry after a [startCall] that went through. *)
Lemma startCall_true_inserts p v s s1 :
  calls s !! p = None ->
  startCall p v s = Done true s1 ->
  calls s1 = <[p := new_ToxFriendCall p v]> (calls s).
Proof.
  intros Hc. unfold startCall. run. rewrite Hc. cbn.
  destruct (PARSE_ERR_call _); cbn; [|discriminate].
  destruct (audio s); cbn; [|discriminate].
  rewrite Hc. run.
  match goal with |- context [set_encoder_bitrate ?w ?p ?s] =>
    destruct (set_encoder_bitrate_runs w p s) as [evs ->] end.
  intros [= <-]. reflexivity.
Qed.

(** X2. Calling a peer and cancelling the call gives the registry back as
    it was: a [startCall] that returned [true] followed by a [cancelCall]
    that returned [true] leaves no entry for the peer and every other
    entry untouched. *)
Theorem startCall_cancelCall_round_trip (p : N) (v : bool) (s s1 s2 : CoreAV) :
  calls s !! p = None ->
  startCall p v s = Done true s1 ->
  cancelCall p s1 = Done true s2 ->
  calls s2 = calls s /\ count_calls p (calls s2) = 0%nat.
Proof.
  intros Hc Hstart Hcancel.
  pose proof (startCall_true_inserts p v s s1 Hc Hstart) as Hins.
  assert (Hs2 : calls s2 = delete p (calls s1)).
  { revert Hcancel. runx.
    destruct (PARSE_ERR_call_control _); cbn; [|discriminate].
    intros [= <-]. reflexivity. }
  assert (Heq : calls s2 = calls s).
  { rewrite Hs2, Hins, delete_insert_eq. by apply delete_id. }
  split; [exact Heq|]. rewrite Heq. by apply count_calls_absent.
Qed.

(** X3. [timeoutCall] holds [callsLock] for writing around [cancelCall]:
    the lock being recursive, the cancel request and the [avEnd] signal of
    the inner [cancelCall] both happen under that one remaining write
    hold.  The registry ends as [cancelCall] leaves it and the holds are
    back to what they were on entry. *)
Theorem timeoutCall_cancels_under_its_hold (p : N) (s : CoreAV) :
  exists s' evs,
    timeoutCall p s = Done tt s'
    /\ trace s' = trace s ++ evs
    /\ requested_under (callsLock s) evs
       = [(ToxavCallControl p TOXAV_CALL_CONTROL_CANCEL, ForWrite :: callsLock s)]
    /\ callsLock s' = callsLock s
    /\ (calls s' = delete p (calls s)
        /\ emitted_under (callsLock s) evs = [(avEnd p false, ForWrite :: callsLock s)]
        \/ calls s' = calls s /\ emitted_under (callsLock s) evs = []).
Proof.
  runx. rewrite <- !app_assoc. cbn.
  destruct (PARSE_ERR_call_control _) eqn:Hok; cbn; rewrite <- ?app_assoc; cbn;
    eexists _, _; (split; [reflexivity|]); cbn; (split; [reflexivity|]);
    (split; [reflexivity|]); (split; [reflexivity|]); [left | right]; split; reflexivity.
Qed.

End CancelCall.

(** ** Muting *)

Section Muting.

(** X4. Toggling the microphone (or the speaker) of a friend's call twice
    brings the registry back exactly; on a friend without a call nothing
    changes in the first place. *)
Theorem toggleMute_twice_restores (f : Friend) (s : CoreAV) :
  (exists s1 s2,
      toggleMuteCallInput (Some f) s = Done tt s1
      /\ toggleMuteCallInput (Some f) s1 = Done tt s2
      /\ calls s2 = calls s
      /\ (calls s !! friendId f = None -> calls s1 = calls s))
  /\ (exists s1 s2,
      toggleMuteCallOutput (Some f) s = Done tt s1
      /\ toggleMuteCallOutput (Some f) s1 = Done tt s2
      /\ calls s2 = calls s
      /\ (calls s !! friendId f = None -> calls s1 = calls s)).
Proof.
  split.
  - unfold toggleMuteCallInput. run.
    destruct (calls s !! friendId f) as [c|] eqn:Hc; cbn.
    + eexists _, _. split; [reflexivity|]. cbn.
      rewrite lookup_alter_eq, Hc. cbn.
      split; [reflexivity|]. cbn. split; [|discriminate].
      apply map_eq. intros j. destruct (decide (j = friendId f)) as [->|Hne];
        [|by rewrite !lookup_alter_ne].
      rewrite !lookup_alter_eq, Hc. destruct c; cbn. by rewrite negb_involutive.
    + eexists _, _. split; [reflexivity|]. cbn. rewrite Hc. cbn.
      repeat split; reflexivity.
  - unfold toggleMuteCallOutput. run.
    destruct (calls s !! friendId f) as [c|] eqn:Hc; cbn.
    + eexists _, _. split; [reflexivity|]. cbn.
      rewrite lookup_alter_eq, Hc. cbn.
      split; [reflexivity|]. cbn. split; [|discriminate].
      apply map_eq. intros j. destruct (decide (j = friendId f)) as [->|Hne];
        [|by rewrite !lookup_alter_ne].
      rewrite !lookup_alter_eq, Hc. destruct c; cbn. by rewrite negb_involutive.
    + eexists _, _. split; [reflexivity|]. cbn. rewrite Hc. cbn.
      repeat split; reflexivity.
Qed.

(** X5. After [toggleMuteCallInput] on a friend with a call,
    [isCallInputMuted] answers the opposite of the flag before and
    [isCallOutputMuted] is unaffected; symmetrically for
    [toggleMuteCallOutput]. *)
Theorem toggleMute_flips_query (f : Friend) (s : CoreAV) (c : ToxFriendCall) :
  calls s !! friendId f = Some c ->
  (exists s1 s2 s3,
      toggleMuteCallInput (Some f) s = Done tt s1
      /\ isCallInputMuted (Some f) s1 = Done (negb (muteMic c)) s2
      /\ isCallOutputMuted (Some f) s1 = Done (muteVol c) s3)
  /\ (exists s1 s2 s3,
      toggleMuteCallOutput (Some f) s = Done tt s1
      /\ isCallOutputMuted (Some f) s1 = Done (negb (muteVol c)) s2
      /\ isCallInputMuted (Some f) s1 = Done (muteMic c) s3).
Proof.
  intros Hc. split.
  - unfold toggleMuteCallInput, isCallInputMuted, isCallOutputMuted. run.
    rewrite Hc. cbn.
    eexists _, _, _. split; [reflexivity|]. cbn. rewrite lookup_alter_eq, Hc. cbn.
    split; reflexivity.
  - unfold toggleMuteCallOutput, isCallInputMuted, isCallOutputMuted. run.
    rewrite Hc. cbn.
    eexists _, _, _. split; [reflexivity|]. cbn. rewrite lookup_alter_eq, Hc. cbn.
    split; reflexivity.
Qed.

(** X6. The four mute commands read [getId] through their argument before
    they test it: on a null pointer they fault. *)
Theorem mute_commands_null_pointer_fault (b : bool) (s : CoreAV) :
  toggleMuteCallInput None s = Crashed NullDereference
  /\ toggleMuteCallOutput None s = Crashed NullDereference
  /\ muteCallInput None b s = Crashed NullDereference
  /\ muteCallOutput None b s = Crashed NullDereference.
Proof. repeat split. Qed.

End Muting.

(** ** Group calls *)

Section GroupCallProperties.
Context {gdecls : GroupDeclarations}.

(** X7. Joining a group call that is not in the registry (audio backend
    set) registers it as active: [isCallStarted] and [isCallActive] on the
    group then answer [true]. *)
Theorem joinGroupCall_starts_active (g : Group) (s : CoreAV) :
  audio s = true ->
  groupCalls s !! int_of_uint32 (groupId g) = None ->
  exists s1 s2 s3,
    joinGroupCall g s = Done tt s1
    /\ groupCalls s1 = <[int_of_uint32 (groupId g) := g_setActive true (new_ToxGroupCall g)]>
                         (groupCalls s)
    /\ calls s1 = calls s
    /\ isCallStarted_Group (Some g) s1 = Done true s2
    /\ isCallActive_Group (Some g) s1 = Done true s3.
Proof.
  intros Ha Hg. unfold joinGroupCall, isCallActive_Group, isCallStarted_Group. runx.
  rewrite Ha. cbn. rewrite Hg. cbn.
  eexists _, _, _. split; [reflexivity|]. cbn.
  rewrite alter_insert_eq, !lookup_insert_eq. cbn.
  unfold isCallStarted_Group. run. rewrite lookup_insert_eq. cbn.
  repeat split; reflexivity.
Qed.

(** X8. Joining a group call that is already in the registry changes
    nothing in it: the existing call is kept as it is, so joining twice is
    joining once. *)
Theorem joinGroupCall_twice (g : Group) (s : CoreAV) :
  audio s = true ->
  exists s1 s2,
    joinGroupCall g s = Done tt s1
    /\ joinGroupCall g s1 = Done tt s2
    /\ groupCalls s2 = groupCalls s1
    /\ (is_Some (groupCalls s !! int_of_uint32 (groupId g)) -> groupCalls s1 = groupCalls s).
Proof.
  intros Ha. unfold joinGroupCall. runx. rewrite Ha. cbn.
  destruct (groupCalls s !! int_of_uint32 (groupId g)) as [c|] eqn:Hg; cbn.
  - eexists _, _. split; [reflexivity|]. cbn. rewrite Ha. cbn. rewrite Hg. cbn.
    repeat split; reflexivity.
  - eexists _, _. split; [reflexivity|]. cbn. rewrite Ha. cbn.
    rewrite alter_insert_eq, lookup_insert_eq. cbn.
    split; [reflexivity|]. split; [reflexivity|].
    intros [x Hx]. discriminate.
Qed.

(** X9. Joining and leaving a group call gives the registry back as it
    was, and the group queries answer [false] again. *)
Theorem joinGroupCall_leaveGroupCall_round_trip (g : Group) (s : CoreAV) :
  audio s = true ->
  groupCalls s !! int_of_uint32 (groupId g) = None ->
  exists s1 s2 s3,
    joinGroupCall g s = Done tt s1
    /\ leaveGroupCall (int_of_uint32 (groupId g)) s1 = Done tt s2
    /\ groupCalls s2 = groupCalls s
    /\ isCallStarted_Group (Some g) s2 = Done false s3.
Proof.
  intros Ha Hg. unfold joinGroupCall, leaveGroupCall, isCallStarted_Group. runx.
  rewrite Ha. cbn. rewrite Hg. cbn.
  eexists _, _, _. split; [reflexivity|]. cbn.
  split; [reflexivity|]. cbn.
  rewrite alter_insert_eq, delete_insert_eq, (delete_id _ _ Hg), Hg. cbn.
  split; reflexivity.
Qed.

End GroupCallProperties.

Section GroupMute.

(** X10. [muteCallInput g b] followed by [isGroupCallInputMuted g] answers
    [b] when the group has a call and [false] when it has none; likewise
    for the output side. *)
Theorem group_mute_then_query (g : Group) (b : bool) (s : CoreAV) :
  let expected := match groupCalls s !! int_of_uint32 (groupId g) with
                  | Some _ => b
                  | None => false
                  end in
  (exists s1 s2,
      muteCallInput (Some g) b s = Done tt s1
      /\ isGroupCallInputMuted (Some g) s1 = Done expected s2)
  /\ (exists s1 s2,
      muteCallOutput (Some g) b s = Done tt s1
      /\ isGroupCallOutputMuted (Some g) s1 = Done expected s2).
Proof.
  cbn zeta. split.
  - unfold muteCallInput, isGroupCallInputMuted. runx.
    destruct (groupCalls s !! int_of_uint32 (groupId g)) as [c|] eqn:Hg; cbn.
    + eexists _, _. split; [reflexivity|]. cbn. rewrite lookup_alter_eq, Hg. reflexivity.
    + eexists _, _. split; [reflexivity|]. cbn. rewrite Hg. reflexivity.
  - unfold muteCallOutput, isGroupCallOutputMuted. runx.
    destruct (groupCalls s !! int_of_uint32 (groupId g)) as [c|] eqn:Hg; cbn.
    + eexists _, _. split; [reflexivity|]. cbn. rewrite lookup_alter_eq, Hg. reflexivity.
    + eexists _, _. split; [reflexivity|]. cbn. rewrite Hg. reflexivity.
Qed.

(** X11. [sendGroupCallAudio] returns [false] exactly when the group has
    no call.  It hands the frame to the transport, once, exactly when the
    call is active and its microphone is not muted, and then returns
    [true] whatever the transport answers; the registries are only read. *)
Theorem sendGroupCallAudio_outcomes (groupNum : Z) (pcm : list Z) (samples : Z)
    (chans rate : N) (answer : Z) (s : CoreAV) :
  exists r rs s',
    sendGroupCallAudio groupNum pcm samples chans rate answer s = Done (r, rs) s'
    /\ r = not_end (groupCalls s !! groupNum)
    /\ rs = match groupCalls s !! groupNum with
            | Some call =>
                if g_active call && negb (g_muteMic call)
                then [ToxavGroupSendAudio groupNum pcm samples chans rate]
                else []
            | None => []
            end
    /\ groupCalls s' = groupCalls s
    /\ calls s' = calls s
    /\ callsLock s' = callsLock s.
Proof.
  unfold sendGroupCallAudio. run.
  destruct (groupCalls s !! groupNum) as [c|]; cbn.
  - destruct (g_active c), (g_muteMic c); cbn;
      try (destruct (answer =? 0)); cbn; eexists _, _, _; repeat split; reflexivity.
  - eexists _, _, _. repeat split; reflexivity.
Qed.

End GroupMute.

(** ** Video *)

Section NoVideo.

Lemma calls_keys_elem (m : gmap N ToxFriendCall) (k : N) :
  k ∈ calls_keys m <-> is_Some (m !! k).
Proof.
  unfold calls_keys. rewrite merge_sort_Permutation, list_elem_of_fmap. split.
  - intros [[k' c] [-> Hin]]. apply elem_of_map_to_list in Hin. by exists c.
  - intros [c Hc]. exists (k, c). split; [done|]. by apply elem_of_map_to_list.
Qed.

Lemma calls_keys_NoDup (m : gmap N ToxFriendCall) : NoDup (calls_keys m).
Proof.
  unfold calls_keys. rewrite merge_sort_Permutation. apply NoDup_fst_map_to_list.
Qed.

Lemma calls_keys_Sorted (m : gmap N ToxFriendCall) : Sorted N.le (calls_keys m).
Proof. unfold calls_keys. apply Sorted_merge_sort. apply _. Qed.

Lemma sendNoVideo_loop_marks (answer : N -> Toxav_Err_Bit_Rate_Set) (keys : list N) :
  forall s, exists s',
    sendNoVideo_loop answer keys s
    = Done (List.map (fun k => ToxavVideoSetBitRate k 0) keys) s'
    /\ trace s' = trace s /\ callsLock s' = callsLock s /\ groupCalls s' = groupCalls s
    /\ forall k, calls s' !! k
                 = if bool_decide (k ∈ keys)
                   then mark_null_video answer k <$> calls s !! k
                   else calls s !! k.
Proof.
  induction keys as [|k0 keys IH]; intros s.
  - exists s. cbn. repeat split; try reflexivity.
  - cbn [sendNoVideo_loop]. rewrite run_bind.
    set (s0 := if negb (PARSE_ERR_bit_rate_set (answer k0)) then s
               else with_calls (alter (setNullVideoBitrate true) k0 (calls s)) s).
    assert (Hstep : (if negb (PARSE_ERR_bit_rate_set (answer k0)) then mret ()
                     else call_update k0 (setNullVideoBitrate true)) s = Done tt s0).
    { subst s0. destruct (PARSE_ERR_bit_rate_set (answer k0)); reflexivity. }
    rewrite Hstep.
    destruct (IH s0) as (s' & Hrun & Ht & Hl & Hg & Hcalls).
    rewrite run_bind, Hrun. exists s'. cbn.
    assert (Hs0 : trace s0 = trace s /\ callsLock s0 = callsLock s /\ groupCalls s0 = groupCalls s
                  /\ forall k, calls s0 !! k
                               = if decide (k = k0) then mark_null_video answer k <$> calls s !! k
                                 else calls s !! k).
    { subst s0. unfold mark_null_video.
      destruct (PARSE_ERR_bit_rate_set (answer k0)) eqn:Hok; cbn; repeat split; intros k;
        destruct (decide (k = k0)) as [->|Hne]; rewrite ?Hok; cbn;
        rewrite ?lookup_alter_eq, ?lookup_alter_ne by done; try done.
      by destruct (calls s !! k0). }
    destruct Hs0 as (Ht0 & Hl0 & Hg0 & Hc0).
    split; [reflexivity|]. split; [congruence|]. split; [congruence|]. split; [congruence|].
    intros k. rewrite Hcalls, Hc0.
    destruct (decide (k = k0)) as [->|Hne].
    + rewrite (bool_decide_eq_true_2 (k0 ∈ k0 :: keys)) by left.
      case_bool_decide; [|done].
      destruct (calls s !! k0) as [c|]; [|done]. cbn. f_equal.
      unfold mark_null_video. destruct (PARSE_ERR_bit_rate_set (answer k0)); reflexivity.
    + case_bool_decide as Hin.
      * rewrite bool_decide_eq_true_2 by (by right). done.
      * rewrite bool_decide_eq_false_2; [done|]. intros Hin'.
        apply elem_of_cons in Hin' as [?|?]; done.
Qed.

Lemma sendNoVideo_lookup (answer : N -> Toxav_Err_Bit_Rate_Set) (s s1 : CoreAV)
    (rs : list Request) :
  sendNoVideo answer s = Done rs s1 ->
  forall k, calls s1 !! k = mark_null_video answer k <$> calls s !! k.
Proof.
  unfold sendNoVideo. run.
  match goal with |- context [sendNoVideo_loop answer ?keys ?s0] =>
    destruct (sendNoVideo_loop_marks answer keys s0) as (s' & Hrun & Ht & Hl & Hg & Hcalls)
  end.
  rewrite Hrun. cbn. intros [= <- <-] k. cbn.
  rewrite Hcalls. cbn. case_bool_decide as Hin; [done|].
  destruct (calls s !! k) as [c|] eqn:Hc; [|done].
  exfalso. apply Hin, calls_keys_elem. by exists c.
Qed.

(** X12. [sendNoVideo] asks the transport for video bitrate 0 once for
    each call of the registry, in increasing order of friend number, and
    flags as "null video bitrate" exactly the calls for which the
    transport agreed; nothing else of the registry changes. *)
Theorem sendNoVideo_marks_agreed_calls (answer : N -> Toxav_Err_Bit_Rate_Set) (s : CoreAV) :
  exists rs s',
    sendNoVideo answer s = Done rs s'
    /\ rs = List.map (fun k => ToxavVideoSetBitRate k 0) (calls_keys (calls s))
    /\ (forall k, k ∈ calls_keys (calls s) <-> is_Some (calls s !! k))
    /\ NoDup (calls_keys (calls s))
    /\ Sorted N.le (calls_keys (calls s))
    /\ (forall k, calls s' !! k = mark_null_video answer k <$> calls s !! k)
    /\ callsLock s' = callsLock s.
Proof.
  unfold sendNoVideo. run.
  match goal with |- context [sendNoVideo_loop answer ?keys ?s0] =>
    destruct (sendNoVideo_loop_marks answer keys s0) as (s' & Hrun & Ht & Hl & Hg & Hcalls)
  end.
  rewrite Hrun. cbn. eexists _, _. split; [reflexivity|]. cbn.
  split; [reflexivity|]. split; [apply calls_keys_elem|].
  split; [apply calls_keys_NoDup|]. split; [apply calls_keys_Sorted|].
  split; [|by rewrite Hl].
  intros k. rewrite Hcalls. cbn. case_bool_decide as Hin; [done|].
  destruct (calls s !! k) as [c|] eqn:Hc; [|done].
  exfalso. apply Hin, calls_keys_elem. by exists c.
Qed.

End NoVideo.

Section SendVideo.
Context {decls : Declarations}.

(** X13. [sendCallVideo] makes no request at all -- no bitrate request, no
    conversion, no frame -- when the lock probe fails, when the call is
    missing, when its video is disabled, when it is not active, or when
    its state lacks the accepting-video bit; the registry is untouched and
    the lock holds are as before. *)
Theorem sendCallVideo_gated (callId : N) (vframe : VideoFrame) (probe : bool)
    (set_err : Toxav_Err_Bit_Rate_Set) (send_err : Toxav_Err_Send_Frame) (s : CoreAV) :
  probe = false
  \/ calls s !! callId = None
  \/ (exists call, calls s !! callId = Some call
        /\ (videoEnabled call = false \/ active call = false
            \/ has_bit (state call) TOXAV_FRIEND_CALL_STATE_ACCEPTING_V = false)) ->
  exists s',
    sendCallVideo callId vframe probe set_err send_err s = Done [] s'
    /\ calls s' = calls s
    /\ callsLock s' = callsLock s.
Proof.
  intros Hgate. unfold sendCallVideo.
  destruct probe; cbn [negb]; [|run; eexists; repeat split; reflexivity].
  destruct Hgate as [Hp | [Hc | (call & Hc & Hflag)]]; [discriminate| |]; run; rewrite Hc; cbn.
  - eexists. repeat split; reflexivity.
  - destruct Hflag as [-> | [-> | ->]]; cbn; rewrite ?orb_true_r; cbn;
      eexists; repeat split; reflexivity.
Qed.

(** X14. Whatever the call, the frame and the answers of the transport,
    [sendCallVideo] hands at most one frame to the transport -- a busy
    transport is not asked again -- asks for at most one conversion, and
    never asks for a conversion larger than 1920 x 1080; a source frame
    within that bound is converted at its own size.  The lock holds are
    as before. *)
Theorem sendCallVideo_one_bounded_frame (callId : N) (vframe : VideoFrame) (probe : bool)
    (set_err : Toxav_Err_Bit_Rate_Set) (send_err : Toxav_Err_Send_Frame) (s : CoreAV) :
  exists rs s',
    sendCallVideo callId vframe probe set_err send_err s = Done rs s'
    /\ (length (List.filter is_video_send rs) <= 1)%nat
    /\ (forall size, VideoFrameConvert size ∈ rs ->
          size.1 <= 1920 /\ size.2 <= 1080
          /\ ((getSourceDimensions vframe).1 <= 1920 -> (getSourceDimensions vframe).2 <= 1080 ->
              size = getSourceDimensions vframe))
    /\ callsLock s' = callsLock s.
Proof.
  assert (Hsize : forall size,
    size = (if (1920 <? (getSourceDimensions vframe).1) || (1080 <? (getSourceDimensions vframe).2)
            then (1920, 1080) else getSourceDimensions vframe) ->
    size.1 <= 1920 /\ size.2 <= 1080
    /\ ((getSourceDimensions vframe).1 <= 1920 -> (getSourceDimensions vframe).2 <= 1080 ->
        size = getSourceDimensions vframe)).
  { intros size ->. destruct (getSourceDimensions vframe) as [w h]. cbn.
    destruct (1920 <? w) eqn:Hw, (1080 <? h) eqn:Hh; cbn;
      try apply Z.ltb_lt in Hw; try apply Z.ltb_ge in Hw;
      try apply Z.ltb_lt in Hh; try apply Z.ltb_ge in Hh; repeat split; try lia; done. }
  unfold sendCallVideo.
  destruct probe; cbn [negb];
    [|run; eexists _, _; split; [reflexivity|]; cbn; split; [lia|]; split; [|reflexivity];
      intros size Hin; by apply elem_of_nil in Hin].
  run. destruct (calls s !! callId) as [call|]; cbn;
    [|eexists _, _; split; [reflexivity|]; cbn; split; [lia|]; split; [|reflexivity];
      intros size Hin; by apply elem_of_nil in Hin].
  destruct (negb (videoEnabled call) || negb (active call)
            || negb (has_bit (state call) TOXAV_FRIEND_CALL_STATE_ACCEPTING_V)); cbn;
    [eexists _, _; split; [reflexivity|]; cbn; split; [lia|]; split; [|reflexivity];
      intros size Hin; by apply elem_of_nil in Hin|].
  destruct (nullVideoBitrate call); cbn;
    [destruct (PARSE_ERR_bit_rate_set set_err); cbn|];
    try destruct (toToxYUVFrame vframe _) as [frame|] eqn:Hconv; cbn;
    try destruct (send_frame_ok send_err); cbn;
    eexists _, _; (split; [reflexivity|]); cbn; (split; [lia|]);
    (split; [|reflexivity]);
    intros size Hin;
    repeat (apply elem_of_cons in Hin as [Hin|Hin]; [try discriminate|]);
    try (by apply elem_of_nil in Hin);
    injection Hin as ->; by apply Hsize.
Qed.

End SendVideo.

Section VideoRestart.
Context {decls : Declarations}.

(** X15. "The next frame sent cancels this": after a [sendNoVideo] to
    which the transport agreed for friend [p], the next [sendCallVideo]
    for [p] (video enabled, call active, peer accepting video) first asks
    the transport for the default video bitrate.  If the transport agrees
    the flag is cleared and the frame goes on to conversion; if it
    refuses, that request is all that happens and the flag stays set. *)
Theorem sendNoVideo_then_sendCallVideo_restarts (p : N) (vframe : VideoFrame)
    (answer : N -> Toxav_Err_Bit_Rate_Set) (set_err : Toxav_Err_Bit_Rate_Set)
    (send_err : Toxav_Err_Send_Frame) (s s1 : CoreAV) (c : ToxFriendCall)
    (rs0 : list Request) :
  calls s !! p = Some c ->
  videoEnabled c = true ->
  active c = true ->
  has_bit (state c) TOXAV_FRIEND_CALL_STATE_ACCEPTING_V = true ->
  PARSE_ERR_bit_rate_set (answer p) = true ->
  sendNoVideo answer s = Done rs0 s1 ->
  exists rs s2,
    sendCallVideo p vframe true set_err send_err s1 = Done rs s2
    /\ head rs = Some (ToxavVideoSetBitRate p VIDEO_DEFAULT_BITRATE)
    /\ if PARSE_ERR_bit_rate_set set_err
       then nullVideoBitrate <$> calls s2 !! p = Some false
            /\ rs !! 1%nat = Some (VideoFrameConvert
                 (if (1920 <? (getSourceDimensions vframe).1)
                     || (1080 <? (getSourceDimensions vframe).2)
                  then (1920, 1080) else getSourceDimensions vframe))
       else rs = [ToxavVideoSetBitRate p VIDEO_DEFAULT_BITRATE]
            /\ nullVideoBitrate <$> calls s2 !! p = Some true.
Proof.
  intros Hc Hv Ha Hacc Hok Hno.
  pose proof (sendNoVideo_lookup answer s s1 rs0 Hno p) as Hp.
  rewrite Hc in Hp. cbn in Hp. unfold mark_null_video in Hp. rewrite Hok in Hp.
  unfold sendCallVideo. cbn [negb]. run. rewrite Hp. cbn. rewrite Hv, Ha, Hacc. cbn.
  destruct (PARSE_ERR_bit_rate_set set_err); cbn.
  - destruct (toToxYUVFrame vframe _) as [frame|]; cbn;
      try destruct (send_frame_ok send_err); cbn;
      eexists _, _; (split; [reflexivity|]); cbn; (split; [reflexivity|]);
      rewrite lookup_alter_eq, Hp; split; reflexivity.
  - eexists _, _. split; [reflexivity|]. cbn. rewrite Hp. repeat split; reflexivity.
Qed.

End VideoRestart.

(** ** Encoder telemetry *)

Section VideoComm.

(** X16. On the encoder-bitrate event [videoCommCallback] sends the
    transport exactly the encoder options that are set when a call is
    started or answered, for every frame-rate setting; on any other event
    it does nothing.  The registry is not touched. *)
Theorem videoCommCallback_reapplies_start_options (who : string) (p : N) (n : Z) (s : CoreAV) :
  exists evs s1 s2,
    set_encoder_bitrate who p s = Done tt s1
    /\ trace s1 = trace s ++ evs
    /\ videoCommCallback p TOXAV_CALL_COMM_ENCODER_CURRENT_BITRATE n s = Done tt s2
    /\ trace s2 = trace s ++ List.filter is_toxav evs
    /\ calls s2 = calls s
    /\ forall code, videoCommCallback p (TOXAV_CALL_COMM_other code) n s = Done tt s.
Proof.
  unfold set_encoder_bitrate, videoCommCallback. run.
  repeat (destruct (_ =? _)); run; rewrite <- ?app_assoc; cbn;
    eexists _, _, _; (split; [reflexivity|]); cbn;
    try (split; [reflexivity|]; split; [reflexivity|]; cbn; rewrite <- ?app_assoc;
         split; [reflexivity|]; split; reflexivity).
  split; [symmetry; apply app_nil_r|]. split; [reflexivity|]. cbn.
  split; [symmetry; apply app_nil_r|]. split; reflexivity.
Qed.

End VideoComm.

(** ** Received audio *)

Section AudioFrame.

(** X17. A received audio frame does nothing at all -- no resampling, no
    far-end reference, no playback -- when the friend has no call or the
    call's speaker is muted. *)
Theorem audioFrameCallback_silenced (p : N) (pcm : list Z) (n : Z) (channels rate : N)
    (s : CoreAV) :
  calls s !! p = None \/ (exists c, calls s !! p = Some c /\ muteVol c = true) ->
  audioFrameCallback p pcm n channels rate s = Done [] s.
Proof.
  intros [Hc | (c & Hc & Hm)]; unfold audioFrameCallback; run; rewrite Hc; cbn;
    [|rewrite Hm]; reflexivity.
Qed.

(** X18. A received frame that is not a mono frame of 1920 or 2880
    samples at 48 kHz, or any frame while echo cancellation is off, goes
    past the canceller: it is handed to the playback sink unchanged and
    nothing else happens. *)
Theorem audioFrameCallback_bypass (p : N) (pcm : list Z) (n : Z) (channels rate : N)
    (s : CoreAV) (c : ToxFriendCall) :
  calls s !! p = Some c ->
  muteVol c = false ->
  channels <> 1%N \/ rate <> 48000%N \/ (n <> 1920 /\ n <> 2880)
    \/ getEchoCancellation (audioSettings s) = false ->
  audioFrameCallback p pcm n channels rate s
  = Done [PlayAudioBuffer p pcm n channels rate] s.
Proof.
  intros Hc Hm Hby. unfold audioFrameCallback. run. rewrite Hc. cbn. rewrite Hm.
  assert (Hcond : ((channels =? 1)%N && (rate =? AUDIO_SAMPLE_RATE)%N
                   && ((n =? 1920) || (n =? 2880))
                   && getEchoCancellation (audioSettings s)) = false).
  { destruct Hby as [Hch | [Hr | [[H1 H2] | He]]].
    - apply N.eqb_neq in Hch. by rewrite Hch.
    - apply N.eqb_neq in Hr. unfold AUDIO_SAMPLE_RATE. rewrite Hr. by rewrite andb_false_r.
    - apply Z.eqb_neq in H1, H2. rewrite H1, H2. by rewrite andb_false_r.
    - rewrite He. by rewrite andb_false_r. }
  destruct ((channels =? 1)%N && (rate =? AUDIO_SAMPLE_RATE)%N && ((n =? 1920) || (n =? 2880)));
    [|reflexivity].
  cbn in Hcond. rewrite Hcond. reflexivity.
Qed.

(** X19. A received mono frame of 1920 (or 2880) samples at 48 kHz,
    with echo cancellation on, is downsampled once and fed to the far end
    of the canceller in 4 (or 6) consecutive chunks of 160 samples that
    tile the downsampled buffer; then the frame itself, unchanged, goes
    to the playback sink. *)
Theorem audioFrameCallback_far_end_chunks (p : N) (pcm : list Z) (n : Z)
    (s : CoreAV) (c : ToxFriendCall) :
  calls s !! p = Some c ->
  muteVol c = false ->
  getEchoCancellation (audioSettings s) = true ->
  n = 1920 \/ n = 2880 ->
  exists resampled s',
    downsample_48000_to_16000_basic pcm (calloc (n / 3)) n s = Done (0, resampled) s'
    /\ audioFrameCallback p pcm n 1 48000 s
       = Done (List.map (fun i => AecmBufferFarend (read_at resampled (i * 160) 160) 160)
                        (seqZ 0 (n / 480))
               ++ [PlayAudioBuffer p pcm n 1 48000]) s'.
Proof.
  intros Hc Hm He Hn.
  destruct (steady_downsample pcm (calloc (n / 3)) n s)
    as ([code resampled] & s' & evs & Hrun & _).
  assert (Hcode : code = 0).
  { revert Hrun. unfold downsample_48000_to_16000_basic.
    destruct Hn as [-> | ->]; cbn [Z.ltb Z.compare Pos.compare Pos.compare_cont];
      rewrite run_bind; destruct (ma_resampler_process_pcm_frames _ _ _ _ _ s) as [[r o] s0|];
      try discriminate; cbn; destruct (negb (is_MA_SUCCESS r)); run; by intros [= <- _ _]. }
  subst code. exists resampled, s'. split; [exact Hrun|].
  unfold audioFrameCallback. rewrite run_bind, run_calls_find, Hc. cbn beta iota.
  rewrite Hm. rewrite run_bind, run_get. cbn beta iota. rewrite He.
  destruct Hn as [-> | ->].
  - change (Z.quot 1920 3) with (1920 / 3).
    change (int32_wrap 1920) with 1920.
    cbn [N.eqb Pos.eqb Z.eqb andb orb AUDIO_SAMPLE_RATE].
    change (10 <=? int32_wrap (Z.quot (1920 * 1000) (Z.of_N 48000))) with true. cbn iota.
    rewrite !run_bind, Hrun. reflexivity.
  - change (Z.quot 2880 3) with (2880 / 3).
    change (int32_wrap 2880) with 2880.
    cbn [N.eqb Pos.eqb Z.eqb andb orb AUDIO_SAMPLE_RATE].
    change (10 <=? int32_wrap (Z.quot (2880 * 1000) (Z.of_N 48000))) with true. cbn iota.
    rewrite !run_bind, Hrun. reflexivity.
Qed.

End AudioFrame.

(** ** More on the call life cycle *)

Section LifeCycle.
Context {decls : Declarations}.

(** X20. For a peer without a call, [startCall] asks the transport.  If
    the transport refuses, the result is [false], the registry is
    unchanged and no encoder option is set.  If it agrees (audio backend
    set), the result is [true] and the registry gains the new call for
    the peer, every other entry being untouched. *)
Theorem startCall_follows_transport (p : N) (v : bool) (s : CoreAV) :
  calls s !! p = None ->
  let abr := getAudioBitrate (audioSettings s) in
  let vbr := if v then VIDEO_DEFAULT_BITRATE else 0%N in
  let err := on_call (toxav s) (trace s ++ startCall_prefix p) p abr vbr in
  (PARSE_ERR_call err = false ->
     startCall p v s
     = Done false (with_trace (trace s ++ startCall_prefix p
                                 ++ [EvToxav (ToxavCall p abr vbr); EvUnlock]) s))
  /\ (PARSE_ERR_call err = true -> audio s = true ->
      exists s', startCall p v s = Done true s'
                 /\ calls s' = <[p := new_ToxFriendCall p v]> (calls s)
                 /\ count_calls p (calls s') = 1%nat
                 /\ callsLock s' = callsLock s).
Proof.
  intros Hc. cbn zeta. unfold startCall_prefix. split.
  - intros Herr. unfold startCall. run. rewrite Hc. cbn. rewrite <- !app_assoc. cbn.
    rewrite Herr. cbn. rewrite <- !app_assoc. reflexivity.
  - intros Herr Ha. unfold startCall. run. rewrite Hc. cbn. rewrite <- !app_assoc. cbn.
    rewrite Herr. cbn. rewrite Ha. cbn. rewrite Hc. run.
    match goal with |- context [set_encoder_bitrate ?w ?p ?s] =>
      destruct (set_encoder_bitrate_runs w p s) as [evs ->] end.
    eexists. split; [reflexivity|]. cbn. split; [reflexivity|].
    split; [|reflexivity]. eapply count_calls_present. apply lookup_insert_eq.
Qed.

(** X21. An invite from a friend without a call (audio backend set) puts
    a call for the friend into the registry whose state has the sending
    and accepting bits of the offered media and no others, and emits
    [avInvite friend video] after the lock is released. *)
Theorem callCallback_registers_invite (p : N) (a v : bool) (s : CoreAV) :
  audio s = true ->
  calls s !! p = None ->
  let s' := with_trace (trace s ++ callCallback_invited_events p v)
              (with_calls (<[p := setState (invite_state a v) (new_ToxFriendCall p v)]>
                             (calls s)) s) in
  callCallback p a v s = Done tt s'
  /\ state <$> calls s' !! p = Some (invite_state a v)
  /\ emitted_under (callsLock s) (callCallback_invited_events p v)
     = [(avInvite p v, callsLock s)].
Proof.
  intros Ha Hc. cbn zeta. split; [|split].
  - unfold callCallback. run. rewrite Ha. cbn. rewrite Hc. cbn.
    rewrite alter_insert_eq. rewrite <- !app_assoc. cbn.
    unfold invite_state. destruct a, v; reflexivity.
  - cbn. by rewrite lookup_insert_eq.
  - reflexivity.
Qed.

(** X22. An invite with audio that is answered (the transport agreeing)
    makes the call ready for audio without any state callback: the state
    was filled in by the invite, so [sendCallAudio] goes to the transport
    and does not stop at its "nothing to send" test.  This needs the
    constructor of the call to leave the microphone unmuted. *)
Theorem invite_answer_opens_audio (p : N) (v v' : bool) (pcm : list Z) (samples : Z)
    (chans rate : N) (fuel : nat) (s s1 s2 : CoreAV) :
  calls s !! p = None ->
  muteMic (new_ToxFriendCall p v) = false ->
  10 <= AUDIO_FRAME_DURATION ->
  (3 <= fuel)%nat ->
  callCallback p true v s = Done tt s1 ->
  answerCall p v' s1 = Done true s2 ->
  exists pcm' s3 evs,
    sendCallAudio fuel p pcm samples chans rate s2 = Done (Some (true, pcm')) s3
    /\ trace s3 = trace s2 ++ evs
    /\ (1 <= count_events is_audio_send evs)%nat.
Proof.
  intros Hc Hmic Hdur Hfuel Hinv Hans.
  assert (Hc2 : exists c, calls s2 !! p = Some c /\ muteMic c = false /\ active c = true
                  /\ has_bit (state c) TOXAV_FRIEND_CALL_STATE_ACCEPTING_A = true).
  { revert Hinv. unfold callCallback. run.
    destruct (audio s); cbn; [|discriminate]. rewrite Hc. cbn.
    intros [= <-]. revert Hans. unfold answerCall. run.
    rewrite lookup_alter_eq, lookup_insert_eq. cbn.
    destruct (answer_ok _); cbn; [|discriminate].
    match goal with |- context [set_encoder_bitrate ?w ?p ?s] =>
      destruct (set_encoder_bitrate_runs w p s) as [evs ->] end.
    intros [= <-]. cbn. rewrite !lookup_alter_eq, lookup_insert_eq. cbn.
    eexists. split; [reflexivity|]. cbn. split; [exact Hmic|]. split; [reflexivity|].
    destruct v; reflexivity. }
  destruct Hc2 as (c & Hc2 & Hm & Hact & Hacc).
  set (filt := if (chans =? 1)%N && (rate =? AUDIO_SAMPLE_RATE)%N
               then if getEchoCancellation (audioSettings s2)
                    then filter_recorded_audio pcm samples else mret pcm
               else mret pcm).
  assert (Hfilt : steady filt).
  { subst filt. destruct (_ && _); [destruct (getEchoCancellation _)|];
      (apply steady_filter; exact Hdur) || apply steady_ret. }
  destruct (Hfilt s2) as (pcm' & s2' & evsF & HrunF & HtF & HqF & HxF & HcF).
  destruct (send_frame_loop_bounded p pcm' samples chans rate fuel 0 s2'
              ltac:(lia) ltac:(cbn; lia))
    as (err & r' & s3 & evsL & HrunL & HtL & Hr' & Hsl & Hse & Hex & Hfa & Hper).
  unfold sendCallAudio.
  rewrite run_bind, run_calls_find, Hc2, Hm, Hact, Hacc. cbn [orb negb].
  rewrite run_bind, run_get. fold filt. rewrite run_bind, HrunF, run_bind, HrunL.
  destruct (is_send_frame_sync err) eqn:Hsync; run.
  - eexists pcm', _, (evsF ++ evsL ++ [dropping_frame_line]).
    split; [reflexivity|]. cbn. split; [by rewrite HtL, HtF, <- !app_assoc|].
    rewrite !count_events_app, Hse. subst r'. cbn. lia.
  - eexists pcm', _, (evsF ++ evsL).
    split; [reflexivity|]. split; [by rewrite HtL, HtF, <- !app_assoc|].
    rewrite !count_events_app, Hse. lia.
Qed.

(** [answerCall] on a peer without entry in the registry stops on
    its assertion: nothing is sent to the transport. *)
Theorem answerCall_without_invite_asserts (p : N) (v : bool) (s : CoreAV) :
  calls s !! p = None ->
  answerCall p v s = Crashed AssertionFailure.
Proof.
  intros Hc. unfold answerCall. run. by rewrite Hc.
Qed.

(** X23. A state callback with the finished bit and without the error
    bit, for a friend with a call, erases the entry and emits [avEnd
    friend false] after the lock is released. *)
Theorem stateCallback_finished_ends_quietly (p : N) (st : N) (s : CoreAV) (c : ToxFriendCall) :
  calls s !! p = Some c ->
  has_bit st TOXAV_FRIEND_CALL_STATE_ERROR = false ->
  has_bit st TOXAV_FRIEND_CALL_STATE_FINISHED = true ->
  let s' := with_trace (trace s ++ stateCallback_finished_events p)
                       (with_calls (delete p (calls s)) s) in
  stateCallback p st s = Done tt s'
  /\ calls s' !! p = None
  /\ emitted_under (callsLock s) (stateCallback_finished_events p)
     = [(avEnd p false, callsLock s)].
Proof.
  intros Hc Herr Hfin. cbn zeta. split; [|split].
  - unfold stateCallback. run. rewrite Hc. cbn. rewrite Herr, Hfin. cbn.
    rewrite <- !app_assoc. reflexivity.
  - cbn. apply lookup_delete_eq.
  - reflexivity.
Qed.

(** X24. The first state update of a call whose stored state is still
    zero (a call we started), with neither the error nor the finished
    bit: the call becomes active, the new state is stored, and [avStart]
    is emitted with the call's own video flag after the lock is
    released. *)
Theorem stateCallback_first_update_starts (p : N) (st : N) (s : CoreAV) (c : ToxFriendCall) :
  calls s !! p = Some c ->
  state c = 0%N ->
  st <> 0%N ->
  has_bit st TOXAV_FRIEND_CALL_STATE_ERROR = false ->
  has_bit st TOXAV_FRIEND_CALL_STATE_FINISHED = false ->
  let s' := with_trace (trace s ++ stateCallback_started_events p (videoEnabled c))
              (with_calls (<[p := setState st (setActive true c)]> (calls s)) s) in
  stateCallback p st s = Done tt s'
  /\ emitted_under (callsLock s) (stateCallback_started_events p (videoEnabled c))
     = [(avStart p (videoEnabled c), callsLock s)].
Proof.
  intros Hc Hz Hst Herr Hfin. cbn zeta. split; [|reflexivity].
  unfold stateCallback. run. rewrite Hc. cbn. rewrite Herr, Hfin, Hz. cbn.
  apply N.eqb_neq in Hst. rewrite Hst. cbn. rewrite <- !app_assoc. cbn.
  assert (Hmap : alter (setState st) p (alter (setActive true) p (calls s))
                 = <[p := setState st (setActive true c)]> (calls s)).
  { apply map_eq. intros k. destruct (decide (k = p)) as [->|Hne].
    - by rewrite !lookup_alter_eq, Hc, lookup_insert_eq.
    - by rewrite !lookup_alter_ne, lookup_insert_ne. }
  rewrite Hmap. reflexivity.
Qed.

(** X25. On a call whose stored state is not zero, a state update
    without the error and finished bits is stored only if it changes the
    sending-video bit: the video source is paused when the peer stops
    sending video and resumed when it starts again.  Any other update --
    say the peer no longer accepting audio -- leaves the stored state as
    it was.  No signal is emitted in either case. *)
Theorem stateCallback_tracks_video_only (p : N) (st : N) (s : CoreAV) (c : ToxFriendCall) :
  calls s !! p = Some c ->
  state c <> 0%N ->
  has_bit st TOXAV_FRIEND_CALL_STATE_ERROR = false ->
  has_bit st TOXAV_FRIEND_CALL_STATE_FINISHED = false ->
  exists s' evs,
    stateCallback p st s = Done tt s'
    /\ trace s' = trace s ++ evs
    /\ emitted_under (callsLock s) evs = []
    /\ calls s' !! p
       = Some (match has_bit (state c) TOXAV_FRIEND_CALL_STATE_SENDING_V,
                     has_bit st TOXAV_FRIEND_CALL_STATE_SENDING_V with
               | true, false => setState st (setVideoSource (stopSource <$> videoSource c) c)
               | false, true => setState st (setVideoSource (restartSource <$> videoSource c) c)
               | _, _ => c
               end).
Proof.
  intros Hc Hnz Herr Hfin. unfold stateCallback. run. rewrite Hc. cbn.
  rewrite Herr, Hfin. cbn. apply N.eqb_neq in Hnz. rewrite Hnz. cbn.
  destruct (has_bit (state c) TOXAV_FRIEND_CALL_STATE_SENDING_V),
           (has_bit st TOXAV_FRIEND_CALL_STATE_SENDING_V); cbn;
    rewrite <- ?app_assoc; cbn; eexists _, _; (split; [reflexivity|]); cbn;
    (split; [reflexivity|]); (split; [reflexivity|]);
    rewrite ?lookup_alter_eq, ?Hc; reflexivity.
Qed.

End LifeCycle.

(** ** Audio that goes past the filter *)

Section Unfiltered.
Context {decls : Declarations}.

(** The retry loop only sends the frame it was given, sleeps and logs;
    it leaves the registries and the lock alone. *)
Lemma send_frame_loop_events (callId : N) (pcm : list Z) (samples : Z) (chans rate : N) :
  forall (fuel : nat) (retries : Z) (s : CoreAV) r s',
    send_frame_loop fuel callId pcm samples chans rate retries s = Done r s' ->
    exists evs,
      trace s' = trace s ++ evs
      /\ Forall (fun e => is_dsp e = false
                          /\ (is_audio_send e = true ->
                              e = EvToxav (ToxavAudioSendFrame callId pcm samples chans rate))) evs
      /\ calls s' = calls s /\ groupCalls s' = groupCalls s /\ callsLock s' = callsLock s.
Proof.
  induction fuel as [|fuel IH]; intros retries s r s'.
  - cbn. intros [= <- <-]. exists []. rewrite app_nil_r. repeat split. constructor.
  - cbn [send_frame_loop]. unfold toxav_audio_send_frame. run.
    destruct (on_audio_send_frame (toxav s) (trace s) callId pcm samples chans rate) eqn:Herr.
    5: { cbn. destruct (retries + 1 <? 3).
         - intros Hrun. apply IH in Hrun as (evs & Ht & Hfa & Hc & Hg & Hl).
           cbn in Ht. rewrite <- !app_assoc in Ht. cbn in Ht.
           eexists. split; [exact Ht|]. split; [|by repeat split].
           constructor; [split; [reflexivity|intros _; reflexivity]|].
           constructor; [split; [reflexivity|discriminate]|]. exact Hfa.
         - cbn. intros [= <- <-]. cbn. rewrite <- !app_assoc. cbn.
           eexists. split; [reflexivity|]. split; [|by repeat split].
           constructor; [split; [reflexivity|intros _; reflexivity]|].
           constructor; [split; [reflexivity|discriminate]|]. constructor. }
    all: cbn; intros [= <- <-]; cbn; rewrite <- ?app_assoc; cbn;
      eexists; (split; [reflexivity|]); (split; [|by repeat split]);
      repeat (constructor; [split; [reflexivity|first [discriminate | intros _; reflexivity]]|]);
      constructor.
Qed.

(** X26. Audio that is not mono, or not at 48 kHz, or sent while echo
    cancellation is off, goes past the filter: on a call that takes
    audio, [sendCallAudio] makes no DSP request, every frame it hands to
    the transport is the caller's buffer unchanged, the buffer is
    returned unchanged, and the registry is untouched. *)
Theorem sendCallAudio_unfiltered (fuel : nat) (callId : N) (pcm : list Z)
    (samples : Z) (chans rate : N) (s : CoreAV) (call : ToxFriendCall) :
  calls s !! callId = Some call ->
  muteMic call = false ->
  active call = true ->
  has_bit (state call) TOXAV_FRIEND_CALL_STATE_ACCEPTING_A = true ->
  chans <> 1%N \/ rate <> 48000%N \/ getEchoCancellation (audioSettings s) = false ->
  (3 <= fuel)%nat ->
  exists s' evs,
    sendCallAudio fuel callId pcm samples chans rate s = Done (Some (true, pcm)) s'
    /\ trace s' = trace s ++ evs
    /\ count_events is_dsp evs = 0%nat
    /\ Forall (fun e => is_audio_send e = true ->
                        e = EvToxav (ToxavAudioSendFrame callId pcm samples chans rate)) evs
    /\ calls s' = calls s.
Proof.
  intros Hc Hmute Hact Hacc Hby Hfuel.
  unfold sendCallAudio.
  rewrite run_bind, run_calls_find, Hc, Hmute, Hact, Hacc. cbn [orb negb].
  rewrite run_bind, run_get.
  assert (Hfilt : (if (chans =? 1)%N && (rate =? AUDIO_SAMPLE_RATE)%N
                   then if getEchoCancellation (audioSettings s)
                        then filter_recorded_audio pcm samples else mret pcm
                   else mret pcm) = mret pcm).
  { destruct Hby as [Hch | [Hr | He]].
    - apply N.eqb_neq in Hch. by rewrite Hch.
    - apply N.eqb_neq in Hr. unfold AUDIO_SAMPLE_RATE. rewrite Hr. by rewrite andb_false_r.
    - rewrite He. by destruct (_ && _). }
  rewrite Hfilt. rewrite run_bind. cbn [mret M_ret].
  destruct (send_frame_loop_bounded callId pcm samples chans rate fuel 0 s
              ltac:(lia) ltac:(cbn; lia))
    as (err & r' & s2 & evsL & HrunL & _).
  destruct (send_frame_loop_events callId pcm samples chans rate fuel 0 s _ _ HrunL)
    as (evs & Ht & Hfa & Hcalls & _ & _).
  change (M_ret (list Z) pcm s) with (Done pcm s). cbn beta iota.
  rewrite run_bind, HrunL.
  assert (Hdsp : forall l, Forall (fun e => is_dsp e = false
                     /\ (is_audio_send e = true ->
                         e = EvToxav (ToxavAudioSendFrame callId pcm samples chans rate))) l ->
                   count_events is_dsp l = 0%nat).
  { intros l Hl. unfold count_events. apply length_zero_iff_nil.
    induction Hl as [|e l [He _] _ IHl]; [done|]. cbn. by rewrite He. }
  destruct (is_send_frame_sync err); run.
  - eexists _, (evs ++ [dropping_frame_line]). split; [reflexivity|]. cbn.
    split; [by rewrite Ht, <- app_assoc|].
    split; [rewrite count_events_app, (Hdsp _ Hfa); reflexivity|].
    split; [|exact Hcalls].
    apply Forall_app. split; [|repeat constructor; discriminate].
    eapply Forall_impl; [exact Hfa|]. by intros e [_ He].
  - eexists _, evs. split; [reflexivity|]. split; [exact Ht|].
    split; [by apply Hdsp|]. split; [|exact Hcalls].
    eapply Forall_impl; [exact Hfa|]. by intros e [_ He].
Qed.

End Unfiltered.

(** ** Queries and resampling, summed up *)

(** X27. The queries that test their argument fail safe: they answer
    [false] on a null pointer, on a friend without a call and on a group
    without a call ([isCallActive] and [isCallVideoEnabled] included when
    the pointer is not null), and only read the registry. *)
Theorem queries_answer_false_without_call (s : CoreAV) :
  (isCallStarted None s = Done false (with_trace (trace s ++ [EvLock ForRead; EvUnlock]) s)
   /\ isCallInputMuted None s = Done false (with_trace (trace s ++ [EvLock ForRead; EvUnlock]) s)
   /\ isCallOutputMuted None s = Done false (with_trace (trace s ++ [EvLock ForRead; EvUnlock]) s)
   /\ isCallStarted_Group None s
      = Done false (with_trace (trace s ++ [EvLock ForRead; EvUnlock]) s)
   /\ isGroupCallInputMuted None s
      = Done false (with_trace (trace s ++ [EvLock ForRead; EvUnlock]) s)
   /\ isGroupCallOutputMuted None s
      = Done false (with_trace (trace s ++ [EvLock ForRead; EvUnlock]) s))
  /\ (forall f, calls s !! friendId f = None ->
        exists s1 s2 s3 s4 s5,
          isCallStarted (Some f) s = Done false s1
          /\ isCallActive (Some f) s = Done false s2
          /\ isCallVideoEnabled (Some f) s = Done false s3
          /\ isCallInputMuted (Some f) s = Done false s4
          /\ isCallOutputMuted (Some f) s = Done false s5
          /\ calls s1 = calls s /\ calls s2 = calls s /\ calls s3 = calls s
          /\ calls s4 = calls s /\ calls s5 = calls s)
  /\ (forall g, groupCalls s !! int_of_uint32 (groupId g) = None ->
        exists s1 s2 s3 s4,
          isCallStarted_Group (Some g) s = Done false s1
          /\ isCallActive_Group (Some g) s = Done false s2
          /\ isGroupCallInputMuted (Some g) s = Done false s3
          /\ isGroupCallOutputMuted (Some g) s = Done false s4
          /\ groupCalls s1 = groupCalls s /\ groupCalls s2 = groupCalls s
          /\ groupCalls s3 = groupCalls s /\ groupCalls s4 = groupCalls s).
Proof.
  split; [|split].
  - destruct (null_pointer_queries_false s) as (H1 & H2 & H3 & H4 & H5 & H6).
    repeat split; assumption.
  - intros f Hc.
    destruct (absent_friend_queries_false f s Hc) as (H1 & H2 & H3 & H4 & H5).
    eexists _, _, _, _, _.
    split; [exact H1|]. split; [exact H2|]. split; [exact H3|]. split; [exact H4|].
    split; [exact H5|]. repeat split.
  - intros g Hg.
    destruct (absent_group_queries_false g s Hg) as (H1 & H2 & H3 & H4).
    eexists _, _, _, _.
    split; [exact H1|]. split; [exact H2|]. split; [exact H3|]. split; [exact H4|].
    repeat split.
Qed.

(** X28. Whatever the resampler does, the code asks it for exactly [3 *
    n] output frames out of [n] input frames on the way up and (for [n >=
    3]) for exactly [n / 3] on the way down, and stores no more than that
    at the start of the output buffer, the rest of which is untouched. *)
Theorem resampler_asked_at_ratio (inp out : list Z) (n : Z) (s : CoreAV) :
  1 <= n ->
  3 * n < 2 ^ 31 ->
  (exists frames s' evs,
      upsample_16000_to_48000_basic inp out n s
      = Done (0, frames ++ drop (length frames) out) s'
      /\ (length frames <= Z.to_nat (3 * n))%nat
      /\ trace s' = trace s ++ EvDsp (MaResamplerProcess Upsampler inp n (3 * n)) :: evs)
  /\ (3 <= n ->
      exists frames s' evs,
        downsample_48000_to_16000_basic inp out n s
        = Done (0, frames ++ drop (length frames) out) s'
        /\ (length frames <= Z.to_nat (n / 3))%nat
        /\ trace s' = trace s ++ EvDsp (MaResamplerProcess Downsampler inp n (n / 3)) :: evs).
Proof.
  intros Hn Hn3. split.
  - apply upsample_asks_triple; lia.
  - intros Hn'. apply downsample_asks_third. lia.
Qed.

(** ** Runs of the rest of the orchestrator *)

Lemma startCall_cancelCall_round_trip_witness :
  calls (fresh accepting_toxav) !! 7%N = None
  /\ exists s2,
       cancelCall 7 after_first_startCall = Done true s2
       /\ calls s2 = calls (fresh accepting_toxav)
       /\ count_calls 7 (calls s2) = 0%nat.
Proof.
  split; [reflexivity|].
  assert (Hstart : startCall (decls := sample_declarations) 7 false (fresh accepting_toxav)
                   = Done true after_first_startCall) by (vm_compute; reflexivity).
  eexists. split; [vm_compute; reflexivity|].
  eapply (startCall_cancelCall_round_trip (decls := sample_declarations) 7 false
            (fresh accepting_toxav) after_first_startCall _ eq_refl Hstart).
  vm_compute. reflexivity.
Defined.

Lemma toggleMute_flips_query_witness :
  calls (after_invite accepting_toxav) !! 7%N = Some invited_call
  /\ exists s1 s2,
       toggleMuteCallInput (Some friend7) (after_invite accepting_toxav) = Done tt s1
       /\ isCallInputMuted (Some friend7) s1 = Done true s2.
Proof.
  assert (Hc : calls (after_invite accepting_toxav) !! friendId friend7 = Some invited_call)
    by (vm_compute; reflexivity).
  split; [exact Hc|].
  destruct (toggleMute_flips_query friend7 (after_invite accepting_toxav) invited_call Hc)
    as [(s1 & s2 & s3 & H1 & H2 & _) _].
  exists s1, s2. split; [exact H1 | exact H2].
Defined.

Lemma joinGroupCall_starts_active_witness :
  audio (fresh accepting_toxav) = true
  /\ groupCalls (fresh accepting_toxav) !! int_of_uint32 (groupId group3) = None
  /\ exists s1 s3,
       joinGroupCall (gdecls := sample_group_declarations) group3 (fresh accepting_toxav)
       = Done tt s1
       /\ isCallActive_Group (Some group3) s1 = Done true s3.
Proof.
  split; [reflexivity|]. split; [reflexivity|].
  destruct (joinGroupCall_starts_active (gdecls := sample_group_declarations) group3
              (fresh accepting_toxav) eq_refl eq_refl)
    as (s1 & s2 & s3 & H1 & _ & _ & _ & H3).
  exists s1, s3. split; [exact H1 | exact H3].
Defined.

Lemma joinGroupCall_twice_witness :
  audio (fresh accepting_toxav) = true
  /\ exists s1 s2,
       joinGroupCall (gdecls := sample_group_declarations) group3 (fresh accepting_toxav)
       = Done tt s1
       /\ joinGroupCall (gdecls := sample_group_declarations) group3 s1 = Done tt s2
       /\ groupCalls s2 = groupCalls s1.
Proof.
  split; [reflexivity|].
  destruct (joinGroupCall_twice (gdecls := sample_group_declarations) group3
              (fresh accepting_toxav) eq_refl) as (s1 & s2 & H1 & H2 & H3 & _).
  exists s1, s2. repeat split; assumption.
Defined.

Lemma joinGroupCall_leaveGroupCall_round_trip_witness :
  audio (fresh accepting_toxav) = true
  /\ groupCalls (fresh accepting_toxav) !! int_of_uint32 (groupId group3) = None
  /\ exists s1 s2,
       joinGroupCall (gdecls := sample_group_declarations) group3 (fresh accepting_toxav)
       = Done tt s1
       /\ leaveGroupCall 3 s1 = Done tt s2
       /\ groupCalls s2 = groupCalls (fresh accepting_toxav).
Proof.
  split; [reflexivity|]. split; [reflexivity|].
  destruct (joinGroupCall_leaveGroupCall_round_trip (gdecls := sample_group_declarations)
              group3 (fresh accepting_toxav) eq_refl eq_refl)
    as (s1 & s2 & s3 & H1 & H2 & H3 & _).
  exists s1, s2. repeat split; assumption.
Defined.

Lemma sendCallVideo_gated_witness :
  calls (after_invite accepting_toxav) !! 7%N = Some invited_call
  /\ videoEnabled invited_call = false
  /\ exists s',
       sendCallVideo (decls := sample_declarations) 7 (camera_frame 640 480) true
         TOXAV_ERR_BIT_RATE_SET_OK TOXAV_ERR_SEND_FRAME_OK (after_invite accepting_toxav)
       = Done [] s'.
Proof.
  assert (Hc : calls (after_invite accepting_toxav) !! 7%N = Some invited_call)
    by (vm_compute; reflexivity).
  split; [exact Hc|]. split; [reflexivity|].
  destruct (sendCallVideo_gated (decls := sample_declarations) 7 (camera_frame 640 480) true
              TOXAV_ERR_BIT_RATE_SET_OK TOXAV_ERR_SEND_FRAME_OK (after_invite accepting_toxav))
    as (s' & Hrun & _).
  - right. right. exists invited_call. split; [exact Hc|]. left. reflexivity.
  - exists s'. exact Hrun.
Defined.

Lemma sendNoVideo_then_sendCallVideo_restarts_witness :
  calls in_video_call !! 7%N = Some answered_video_call
  /\ exists rs0 s1 rs s2,
       sendNoVideo agrees in_video_call = Done rs0 s1
       /\ sendCallVideo (decls := sample_declarations) 7 (camera_frame 3840 2160) true
            TOXAV_ERR_BIT_RATE_SET_OK TOXAV_ERR_SEND_FRAME_SYNC s1 = Done rs s2
       /\ head rs = Some (ToxavVideoSetBitRate 7 2500)
       /\ rs !! 1%nat = Some (VideoFrameConvert (1920, 1080))
       /\ nullVideoBitrate <$> calls s2 !! 7%N = Some false.
Proof.
  assert (Hc : calls in_video_call !! 7%N = Some answered_video_call)
    by (vm_compute; reflexivity).
  split; [exact Hc|].
  assert (Hno : exists rs0 s1, sendNoVideo agrees in_video_call = Done rs0 s1)
    by (eexists _, _; vm_compute; reflexivity).
  destruct Hno as (rs0 & s1 & Hno).
  destruct (sendNoVideo_then_sendCallVideo_restarts (decls := sample_declarations) 7
              (camera_frame 3840 2160) agrees TOXAV_ERR_BIT_RATE_SET_OK
              TOXAV_ERR_SEND_FRAME_SYNC in_video_call s1 answered_video_call rs0
              Hc eq_refl eq_refl eq_refl eq_refl Hno)
    as (rs & s2 & Hrun & Hhead & Hflag & Hconv).
  exists rs0, s1, rs, s2. repeat split; assumption.
Defined.

Lemma audioFrameCallback_silenced_witness :
  calls (fresh accepting_toxav) !! 7%N = None
  /\ audioFrameCallback 7 ramp_frame 960 1 48000 (fresh accepting_toxav)
     = Done [] (fresh accepting_toxav).
Proof.
  split; [reflexivity|]. apply audioFrameCallback_silenced. left. reflexivity.
Defined.

Lemma audioFrameCallback_bypass_witness :
  calls echo_call !! 7%N = Some answered_call
  /\ audioFrameCallback 7 ramp_frame 960 1 48000 echo_call
     = Done [PlayAudioBuffer 7 ramp_frame 960 1 48000] echo_call.
Proof.
  assert (Hc : calls echo_call !! 7%N = Some answered_call) by (vm_compute; reflexivity).
  split; [exact Hc|].
  apply (audioFrameCallback_bypass 7 ramp_frame 960 1 48000 echo_call answered_call Hc eq_refl).
  right. right. left. split; discriminate.
Defined.

Lemma audioFrameCallback_far_end_chunks_witness :
  calls echo_call !! 7%N = Some answered_call
  /\ exists resampled s',
       audioFrameCallback 7 (ramp_frame ++ ramp_frame) 1920 1 48000 echo_call
       = Done ([AecmBufferFarend (read_at resampled 0 160) 160;
                AecmBufferFarend (read_at resampled 160 160) 160;
                AecmBufferFarend (read_at resampled 320 160) 160;
                AecmBufferFarend (read_at resampled 480 160) 160;
                PlayAudioBuffer 7 (ramp_frame ++ ramp_frame) 1920 1 48000]) s'.
Proof.
  assert (Hc : calls echo_call !! 7%N = Some answered_call) by (vm_compute; reflexivity).
  assert (He : getEchoCancellation (audioSettings echo_call) = true)
    by (vm_compute; reflexivity).
  split; [exact Hc|].
  destruct (audioFrameCallback_far_end_chunks 7 (ramp_frame ++ ramp_frame) 1920
              echo_call answered_call Hc eq_refl He (or_introl eq_refl))
    as (resampled & s' & _ & Hrun).
  exists resampled, s'. exact Hrun.
Defined.

Lemma startCall_follows_transport_witness :
  calls (fresh rejecting_toxav) !! 7%N = None
  /\ (exists s', startCall (decls := sample_declarations) 7 true (fresh rejecting_toxav)
                 = Done false s' /\ calls s' = calls (fresh rejecting_toxav))
  /\ (exists s', startCall (decls := sample_declarations) 7 true (fresh accepting_toxav)
                 = Done true s' /\ count_calls 7 (calls s') = 1%nat).
Proof.
  split; [reflexivity|]. split.
  - destruct (startCall_follows_transport (decls := sample_declarations) 7 true
                (fresh rejecting_toxav) eq_refl) as [Hrej _].
    eexists. split; [exact (Hrej eq_refl)|]. reflexivity.
  - destruct (startCall_follows_transport (decls := sample_declarations) 7 true
                (fresh accepting_toxav) eq_refl) as [_ Hacc].
    destruct (Hacc eq_refl eq_refl) as (s' & Hrun & _ & Hcount & _).
    exists s'. split; assumption.
Defined.

Lemma callCallback_registers_invite_witness :
  audio (fresh accepting_toxav) = true
  /\ calls (fresh accepting_toxav) !! 7%N = None
  /\ callCallback (decls := sample_declarations) 7 true false (fresh accepting_toxav)
     = Done tt (after_invite accepting_toxav)
  /\ state <$> calls (after_invite accepting_toxav) !! 7%N = Some 20%N.
Proof.
  split; [reflexivity|]. split; [reflexivity|].
  destruct (callCallback_registers_invite (decls := sample_declarations) 7 true false
              (fresh accepting_toxav) eq_refl eq_refl) as (Hrun & _ & _).
  split; [rewrite Hrun; vm_compute; reflexivity | vm_compute; reflexivity].
Defined.

Lemma invite_answer_opens_audio_witness :
  callCallback (decls := sample_declarations) 7 true false (fresh accepting_toxav)
  = Done tt (after_invite accepting_toxav)
  /\ answerCall (decls := sample_declarations) 7 false (after_invite accepting_toxav)
     = Done true (in_call accepting_toxav)
  /\ exists pcm' s3 evs,
       sendCallAudio (decls := sample_declarations) 3 7 [1; 2; 3] 3 1 48000
         (in_call accepting_toxav) = Done (Some (true, pcm')) s3
       /\ trace s3 = trace (in_call accepting_toxav) ++ evs
       /\ (1 <= count_events is_audio_send evs)%nat.
Proof.
  assert (H1 : callCallback (decls := sample_declarations) 7 true false (fresh accepting_toxav)
               = Done tt (after_invite accepting_toxav)) by (vm_compute; reflexivity).
  assert (H2 : answerCall (decls := sample_declarations) 7 false (after_invite accepting_toxav)
               = Done true (in_call accepting_toxav)) by (vm_compute; reflexivity).
  split; [exact H1|]. split; [exact H2|].
  apply (invite_answer_opens_audio (decls := sample_declarations) 7 false false [1; 2; 3] 3
           1 48000 3 (fresh accepting_toxav) (after_invite accepting_toxav)
           (in_call accepting_toxav) eq_refl eq_refl); [cbn; lia | lia | exact H1 | exact H2].
Defined.

Lemma stateCallback_finished_ends_quietly_witness :
  has_bit 2 TOXAV_FRIEND_CALL_STATE_ERROR = false
  /\ has_bit 2 TOXAV_FRIEND_CALL_STATE_FINISHED = true
  /\ exists c s', calls after_first_startCall !! 7%N = Some c
       /\ stateCallback 7 2 after_first_startCall = Done tt s'
       /\ calls s' !! 7%N = None
       /\ trace s' = trace after_first_startCall ++ stateCallback_finished_events 7.
Proof.
  split; [reflexivity|]. split; [reflexivity|].
  pose (c := new_ToxFriendCall (Declarations := sample_declarations) 7 false).
  assert (Hc : calls after_first_startCall !! 7%N = Some c) by (vm_compute; reflexivity).
  destruct (stateCallback_finished_ends_quietly 7 2 after_first_startCall c Hc eq_refl eq_refl)
    as (Hrun & Hgone & _).
  eexists c, _. split; [exact Hc|]. split; [exact Hrun|]. split; [exact Hgone|]. reflexivity.
Defined.

Lemma stateCallback_first_update_starts_witness :
  exists c s', calls after_first_startCall !! 7%N = Some c
    /\ state c = 0%N
    /\ stateCallback 7 20 after_first_startCall = Done tt s'
    /\ active <$> calls s' !! 7%N = Some true
    /\ state <$> calls s' !! 7%N = Some 20%N
    /\ last (trace s') = Some (EvEmit (avStart 7 false)).
Proof.
  pose (c := new_ToxFriendCall (Declarations := sample_declarations) 7 false).
  assert (Hc : calls after_first_startCall !! 7%N = Some c) by (vm_compute; reflexivity).
  destruct (stateCallback_first_update_starts 7 20 after_first_startCall c Hc eq_refl
              ltac:(discriminate) eq_refl eq_refl) as (Hrun & _).
  eexists c, _. split; [exact Hc|]. split; [reflexivity|]. split; [exact Hrun|].
  vm_compute. repeat split.
Defined.

Lemma stateCallback_tracks_video_only_witness :
  calls (in_call accepting_toxav) !! 7%N = Some answered_call
  /\ state answered_call = 20%N
  /\ exists s', stateCallback 7 4 (in_call accepting_toxav) = Done tt s'
       /\ state <$> calls s' !! 7%N = Some 20%N.
Proof.
  assert (Hc : calls (in_call accepting_toxav) !! 7%N = Some answered_call)
    by (vm_compute; reflexivity).
  split; [exact Hc|]. split; [reflexivity|].
  destruct (stateCallback_tracks_video_only 7 4 (in_call accepting_toxav) answered_call Hc
              ltac:(discriminate) eq_refl eq_refl) as (s' & evs & Hrun & _ & _ & Hlook).
  exists s'. split; [exact Hrun|]. rewrite Hlook. reflexivity.
Defined.

Lemma sendCallAudio_unfiltered_witness :
  calls echo_call !! 7%N = Some answered_call
  /\ exists s' evs,
       sendCallAudio (decls := sample_declarations) 3 7 ramp_frame 960 2 48000 echo_call
       = Done (Some (true, ramp_frame)) s'
       /\ trace s' = trace echo_call ++ evs
       /\ count_events is_dsp evs = 0%nat.
Proof.
  assert (Hc : calls echo_call !! 7%N = Some answered_call) by (vm_compute; reflexivity).
  split; [exact Hc|].
  assert (Hby : (2 <> 1)%N \/ (48000 <> 48000)%N
                \/ getEchoCancellation (audioSettings echo_call) = false)
    by (left; discriminate).
  destruct (sendCallAudio_unfiltered (decls := sample_declarations) 3 7 ramp_frame 960 2 48000
              echo_call answered_call Hc eq_refl eq_refl eq_refl Hby ltac:(lia))
    as (s' & evs & Hrun & Ht & Hdsp & _).
  exists s', evs. repeat split; assumption.
Defined.

Lemma resampler_asked_at_ratio_witness :
  1 <= 1600 /\ 3 * 1600 < 2 ^ 31
  /\ exists frames s' evs,
       upsample_16000_to_48000_basic (calloc 1600) (calloc 4800) 1600 (fresh accepting_toxav)
       = Done (0, frames ++ drop (length frames) (calloc 4800)) s'
       /\ (length frames <= 4800)%nat
       /\ trace s' = EvDsp (MaResamplerProcess Upsampler (calloc 1600) 1600 4800) :: evs.
Proof.
  split; [lia|]. split; [lia|].
  destruct (resampler_asked_at_ratio (calloc 1600) (calloc 4800) 1600 (fresh accepting_toxav)
              ltac:(lia) ltac:(lia)) as [(frames & s' & evs & Hrun & Hlen & Ht) _].
  exists frames, s', evs. split; [exact Hrun|]. split; [exact Hlen | exact Ht].
Defined.

Lemma upsample_too_short_witness :
  0 < 1
  /\ upsample_16000_to_48000_basic [] [9; 9; 9] 0 (fresh accepting_toxav)
     = Done (-1, [9; 9; 9]) (fresh accepting_toxav).
Proof.
  split; [lia|]. apply upsample_too_short. lia.
Defined.
